(** * PitchLens front-end: deal workflow orchestration

    A shallow embedding of the client-side orchestration logic of the
    PitchLens front-end (React components written in TypeScript) and the
    properties its specification states about it.

    Conventions of the embedding:
    - a React component's [useState] cells are the fields of a record; an
      event handler is a function from the state it closes over (and the
      current state) to the next state;
    - an [async] handler is split at its [await] on the network: a
      [_begin] function for the synchronous prefix, and an [_end] function
      that consumes the outcome of the request;
    - JavaScript strings are sequences of 8-bit code units (the Latin-1
      range of UTF-16);
    - the weights of the recalculation dialog are JavaScript numbers as
      they are, IEEE-754 binary64 ([float]): the dialog adds them and
      tests the total for equality, and the stored weights it starts from
      are not validated. Risk scores, status codes and counts are
      integers ([Z]);
    - an optional field (absent, [undefined] or [null]) is an [option];
    - the body of a failed token validation, which the source reads as
      [any], is a JSON value ([Js.JsValue]); the other bodies are records
      with the fields the components read;
    - what belongs to the JavaScript engine and not to the components (the
      text of a number, the messages of its TypeErrors, [JSON.parse] and
      [JSON.stringify]) is a parameter. *)

From Stdlib Require Import ZArith Bool Ascii String.
From Stdlib Require Import Floats Uint63.
From stdpp Require Import gmap strings list.

Local Open Scope string_scope.
Local Open Scope list_scope.

(** ** JavaScript values and the operators the components rely on *)
Module Js.

(** ToBoolean of a binary64 number: [0], [-0] and [NaN] are falsy. *)
Definition falsy_number (n : float) : bool :=
  (n =? 0)%float || PrimFloat.is_nan n.

(** A JSON-like value, used where the source types a field as [any]. An
    object holds each of its property names once. *)
#[local] Unset Elimination Schemes.
Inductive JsValue : Type :=
  | JsUndefined
  | JsNull
  | JsBool (b : bool)
  | JsNumber (n : float)
  | JsString (s : string)
  | JsArray (items : list JsValue)
  | JsObject (fields : list (string * JsValue)).
#[local] Set Elimination Schemes.

(** ToBoolean: [undefined], [null], [false], [0], [NaN] and [''] are
    falsy. *)
Definition truthy (v : JsValue) : bool :=
  match v with
  | JsUndefined | JsNull => false
  | JsBool b => b
  | JsNumber n => negb (falsy_number n)
  | JsString s => negb (String.eqb s "")
  | JsArray _ | JsObject _ => true
  end.

(** The values without properties: reading one throws a TypeError. *)
Definition nullish (v : JsValue) : bool :=
  match v with
  | JsUndefined | JsNull => true
  | _ => false
  end.

Definition hasOwnProperty (name : string) (fields : list (string * JsValue))
  : bool :=
  existsb (fun e => String.eqb (fst e) name) fields.

(** [v.name] for a value that is not nullish and a name that the
    prototypes of objects, arrays, strings, numbers and booleans do not
    define (the components read [detail] and [valid]): the own property
    of an object, [undefined] anywhere else. *)
Definition getProperty (name : string) (v : JsValue) : JsValue :=
  match v with
  | JsObject fields =>
      match List.find (fun e => String.eqb (fst e) name) fields with
      | Some e => snd e
      | None => JsUndefined
      end
  | _ => JsUndefined
  end.

(** The TypeErrors the components can run into on a parsed body. *)
Inductive TypeError : Type :=
  (** [value.name] with [value] null or undefined *)
  | ReadOfNullish (value : JsValue) (name : string)
  (** ToString of an object that neither its [toString] nor its
      [valueOf] turns into a primitive *)
  | NotPrimitive.

(** What is the engine's own: the text of a number and the messages of
    its TypeErrors. *)
Record Engine : Type := mkEngine {
  Number_toString : float -> string;
  TypeError_message : TypeError -> string
}.

(** ToString of a parsed value; [None] when it throws [NotPrimitive]. A
    plain object goes through [Object.prototype.toString] unless it has a
    property [toString] of its own, which, parsed from JSON, is no
    function, as is an own [valueOf], while the inherited [valueOf]
    returns the object. An array joins its elements with commas, [null]
    and [undefined] giving the empty string. *)
Fixpoint ToString (engine : Engine) (v : JsValue) : option string :=
  match v with
  | JsUndefined => Some "undefined"
  | JsNull => Some "null"
  | JsBool b => Some (if b then "true" else "false")
  | JsNumber n => Some (Number_toString engine n)
  | JsString s => Some s
  | JsArray items =>
      (fix join (l : list JsValue) : option string :=
         match l with
         | [] => Some ""
         | x :: rest =>
             let element :=
               if nullish x then Some "" else ToString engine x in
             match rest with
             | [] => element
             | _ =>
                 match element, join rest with
                 | Some a, Some b => Some (a +:+ "," +:+ b)
                 | _, _ => None
                 end
             end
         end) items
  | JsObject fields =>
      if hasOwnProperty "toString" fields then None
      else Some "[object Object]"
  end.

(** Truthiness of an optional string: absent and empty are falsy. *)
Definition truthy_str (o : option string) : bool :=
  match o with
  | Some s => negb (String.eqb s "")
  | None => false
  end.

(** [o || fallback] for an optional string. *)
Definition or_str (o : option string) (fallback : string) : string :=
  match o with
  | Some s => if String.eqb s "" then fallback else s
  | None => fallback
  end.

(** [o || fallback] for an optional number. *)
Definition or_num (o : option Z) (fallback : Z) : Z :=
  match o with
  | Some n => if (n =? 0)%Z then fallback else n
  | None => fallback
  end.

(** [o || fallback] for an optional binary64 number. *)
Definition or_number (o : option float) (fallback : float) : float :=
  match o with
  | Some n => if falsy_number n then fallback else n
  | None => fallback
  end.

(** The binary64 number that holds the integer [n]; exact below 2^53. *)
Definition number_of_Z (n : Z) : float :=
  match n with
  | Zneg p => (- PrimFloat.of_uint63 (Uint63.of_Z (Zpos p)))%float
  | _ => PrimFloat.of_uint63 (Uint63.of_Z n)
  end.

(** WhiteSpace and LineTerminator code units below 256: TAB, LF, VT, FF, CR,
    SP and NBSP. *)
Definition is_white_space (c : ascii) : bool :=
  let n := nat_of_ascii c in
  ((9 <=? n) && (n <=? 13))%nat || (n =? 32)%nat || (n =? 160)%nat.

Fixpoint trimStart (s : string) : string :=
  match s with
  | EmptyString => EmptyString
  | String c rest => if is_white_space c then trimStart rest else s
  end.

Fixpoint trimEnd (s : string) : string :=
  match s with
  | EmptyString => EmptyString
  | String c rest =>
      match trimEnd rest with
      | EmptyString => if is_white_space c then EmptyString else String c EmptyString
      | t => String c t
      end
  end.

(** [String.prototype.trim] *)
Definition trim (s : string) : string := trimEnd (trimStart s).

(** [!s.trim()] *)
Definition blank (s : string) : bool := String.eqb (trim s) "".

End Js.

(** ** The fetch API as the components use it *)
Module Http.

(** What [await response.json()] gives: the parsed body, or a rejection
    carrying the exception's message. *)
Inductive Json (T : Type) : Type :=
  | Parsed (body : T)
  | Unparsable (message : string).
Arguments Parsed {T} body.
Arguments Unparsable {T} message.

Record Response (T : Type) : Type := mkResponse {
  status : Z;
  json : Json T
}.
Arguments mkResponse {T} status json.
Arguments status {T} r.
Arguments json {T} r.

(** [response.ok]: the status is in the range 200-299. *)
Definition ok {T} (r : Response T) : bool :=
  ((200 <=? status r) && (status r <=? 299))%Z.

(** The outcome of [await fetch(...)]: the promise rejects (network
    failure) or resolves to a response of any status. *)
Inductive FetchResult (T : Type) : Type :=
  | Rejected (message : string)
  | Resolved (r : Response T).
Arguments Rejected {T} message.
Arguments Resolved {T} r.

End Http.

(** ** lib/types.ts, with the fields the components read *)
Module Types.
Import Js.

Record RiskMetrics : Type := mkRiskMetrics {
  narrative_justification : option string;
  composite_risk_score : option Z;
  score_interpretation : option string
}.

Record Conclusion : Type := mkConclusion {
  overall_attractiveness : option string;
  product_summary : option string;
  financial_analysis : option string;
  investment_thesis : option string;
  risk_summary : option string
}.

Record MemoV1 : Type := mkMemoV1 {
  conclusion : option Conclusion;
  risk_metrics : option RiskMetrics;
  interview_insights : option (gmap string string);
  _weightage_used : option (gmap string float)
}.

Record Memo : Type := mkMemo {
  draft_v1 : option MemoV1
}.

Record Metadata : Type := mkMetadata {
  created_at : string;
  sector : string;
  deal_id : string;
  company_name : string;
  founder_names : list string;
  processing_mode : option string
}.

Record InterviewIssue : Type := mkInterviewIssue {
  issue_status : string;
  question : string;
  category : string;
  field : string;
  importance : string
}.

Record Interview : Type := mkInterview {
  interview_status : option string;
  issues : option (list InterviewIssue)
}.

(** A deal analysis record as [GET /api/deals/{id}] and [GET /api/deals]
    return it. The components read [metadata] without a guard, so it is a
    plain field; every other section is optional. *)
Record AnalysisData : Type := mkAnalysisData {
  id : string;
  metadata : Metadata;
  memo : option Memo;
  interview : option Interview;
  investment_decision : JsValue;
  fact_check : JsValue
}.

(** [data?.memo?.draft_v1] *)
Definition memo_draft (d : AnalysisData) : option MemoV1 :=
  memo d ≫= draft_v1.

End Types.

(** ** components/analysis-dashboard.tsx *)
Module AnalysisDashboard.
Import Js Types.
Local Open Scope Z_scope.

(** *** Weighted recalculation dialog *)

Record Weightages : Type := mkWeightages {
  teamStrength : float;
  marketOpportunity : float;
  traction : float;
  claimCredibility : float;
  financialHealth : float
}.

Inductive WeightKey : Type :=
  | KTeamStrength | KMarketOpportunity | KTraction
  | KClaimCredibility | KFinancialHealth.

(** [Object.values(weights)], in property insertion order. *)
Definition Object_values (w : Weightages) : list float :=
  [teamStrength w; marketOpportunity w; traction w;
   claimCredibility w; financialHealth w].

(** [Object.values(weights).reduce((sum, w) => sum + w, 0)]: binary64
    additions, from the left, each rounded. *)
Definition totalWeight (w : Weightages) : float :=
  fold_left (fun sum x => (sum + x)%float) (Object_values w) 0%float.

(** The initial weights: [defaultWeights?.<key> || 20], where
    [defaultWeights] is the memo's [_weightage_used] record. *)
Definition initialWeights (defaultWeights : option (gmap string float))
  : Weightages :=
  let get k := or_number (defaultWeights ≫= (fun m => m !! k)) 20%float in
  {| teamStrength := get "team_strength";
     marketOpportunity := get "market_opportunity";
     traction := get "traction";
     claimCredibility := get "claim_credibility";
     financialHealth := get "financial_health" |}.

(** [setWeights(prev => ({ ...prev, [key]: value[0] }))]; the slider hands
    over a one-element array. *)
Definition handleWeightChange (key : WeightKey) (value0 : float)
  (prev : Weightages) : Weightages :=
  match key with
  | KTeamStrength =>
      mkWeightages value0 (marketOpportunity prev) (traction prev)
                   (claimCredibility prev) (financialHealth prev)
  | KMarketOpportunity =>
      mkWeightages (teamStrength prev) value0 (traction prev)
                   (claimCredibility prev) (financialHealth prev)
  | KTraction =>
      mkWeightages (teamStrength prev) (marketOpportunity prev) value0
                   (claimCredibility prev) (financialHealth prev)
  | KClaimCredibility =>
      mkWeightages (teamStrength prev) (marketOpportunity prev) (traction prev)
                   value0 (financialHealth prev)
  | KFinancialHealth =>
      mkWeightages (teamStrength prev) (marketOpportunity prev) (traction prev)
                   (claimCredibility prev) value0
  end.

(** The part of the component state the dialog footer reads. *)
Record DialogState : Type := mkDialogState {
  weights : Weightages;
  isRecalculating : bool
}.

(** The body of [POST /api/generate_memo/{startupId}]. *)
Record RecalcRequest : Type := mkRecalcRequest {
  startupId : string;
  team_strength : float;
  market_opportunity : float;
  req_traction : float;
  claim_credibility : float;
  financial_health : float
}.

(** [disabled={totalWeight !== 100 || isRecalculating}]; [!==] on two
    numbers is the negation of IEEE equality. *)
Definition generateDisabled (st : DialogState) : bool :=
  negb (totalWeight (weights st) =? 100)%float || isRecalculating st.

(** The values the sliders of the dialog hand over are steps of 5 up to
    100 ([max={100} step={5}]): whole numbers from 0 to 100 in any
    case. *)
Definition wholePercent (x : float) : Prop :=
  exists n : Z, 0 <= n <= 100 /\ x = number_of_Z n.

(** The whole numbers from 0 up to and without [n]. *)
Definition wholeRange (n : nat) : list Z := map Z.of_nat (seq 0 n).

(** Adding a whole number up to 100 to one up to 400 is exact in
    binary64, checked case by case. *)
Definition additionsExact : bool :=
  forallb (fun a =>
    forallb (fun b =>
      PrimFloat.Leibniz.eqb (number_of_Z a + number_of_Z b)%float
                            (number_of_Z (a + b)))
      (wholeRange 101))
    (wholeRange 401).

(** Of the whole numbers up to 500 only 100 equals 100. *)
Definition hundredOnlyAt100 : bool :=
  forallb (fun t => Bool.eqb (number_of_Z t =? 100)%float (t =? 100))
    (wholeRange 501).

Definition wholePercents (w : Weightages) : Prop :=
  wholePercent (teamStrength w) /\ wholePercent (marketOpportunity w)
  /\ wholePercent (traction w) /\ wholePercent (claimCredibility w)
  /\ wholePercent (financialHealth w).

Definition generateEnabled (st : DialogState) : bool :=
  negb (generateDisabled st).

(** The synchronous prefix of [handleRecalculate]: raise the busy flag
    and issue the request built from the current weights. *)
Definition handleRecalculate_begin (sid : string) (st : DialogState)
  : DialogState * RecalcRequest :=
  let w := weights st in
  (mkDialogState w true,
   mkRecalcRequest sid (teamStrength w) (marketOpportunity w) (traction w)
                   (claimCredibility w) (financialHealth w)).

(** A click on the footer button: a disabled button dispatches no click,
    so [handleRecalculate] only runs when the button is enabled. *)
Definition clickGenerate (sid : string) (st : DialogState)
  : DialogState * option RecalcRequest :=
  if generateDisabled st then (st, None)
  else let '(st', req) := handleRecalculate_begin sid st in (st', Some req).

(** *** Tab list *)

Inductive Tab : Type :=
  | TabOverview | TabMarket | TabModel | TabFinancials | TabRisks
  | TabIssues | TabInsights | TabDecision | TabFactCheck.

#[global] Instance Tab_eq_dec : EqDecision Tab.
Proof. solve_decision. Defined.

(** [analysisData?.metadata?.processing_mode !== 'fast'] *)
Definition notFast (d : AnalysisData) : bool :=
  match processing_mode (metadata d) with
  | Some m => negb (String.eqb m "fast")
  | None => true
  end.

(** [interview?.status !== 'completed' && interview?.issues &&
     interview.issues.length > 0] *)
Definition showIssuesTab (d : AnalysisData) : bool :=
  match interview d with
  | None => false
  | Some i =>
      negb (bool_decide (interview_status i = Some "completed"))
      && match issues i with
         | Some l => negb (Nat.eqb (length l) 0)
         | None => false
         end
  end.

(** [interview?.status === 'completed' && insights &&
     Object.keys(insights).length > 0] *)
Definition showInsightsTab (d : AnalysisData) : bool :=
  match interview d with
  | None => false
  | Some i =>
      bool_decide (interview_status i = Some "completed")
      && match memo_draft d ≫= interview_insights with
         | Some ins => negb (Nat.eqb (size ins) 0)
         | None => false
         end
  end.

(** The [TabsTrigger] children of [TabsList], in document order. *)
Definition tabsList (d : AnalysisData) : list Tab :=
  [TabOverview; TabMarket; TabModel; TabFinancials]
  ++ (if notFast d then [TabRisks] else [])
  ++ (if showIssuesTab d then [TabIssues] else [])
  ++ (if showInsightsTab d then [TabInsights] else [])
  ++ (if notFast d then [TabDecision] else [])
  ++ (if notFast d then [TabFactCheck] else []).

(** *** Polling for the investment decision *)

(** The delay handed to [setInterval], in milliseconds. *)
Definition POLL_INTERVAL_MS : Z := 10000.

Record PollState : Type := mkPollState {
  analysisData : AnalysisData;
  investmentDecision : JsValue;
  (** the interval of the effect is registered and not cleared *)
  pollInterval : bool;
  (** when the effect ran, in milliseconds *)
  startedAt : Z;
  (** how many times the interval callback has run *)
  fired : nat;
  (** the times at which [GET /api/deals/{startupId}] was issued *)
  requests : list Z;
  (** requests issued and not yet settled *)
  inFlight : nat;
  toasts : list string
}.

(** A freshly mounted dashboard right after the effect body ran at time
    [now]: the interval is registered only while
    [analysisData?.investment_decision] is falsy. *)
Definition pollEffect (now : Z) (d : AnalysisData) : PollState :=
  {| analysisData := d;
     investmentDecision := JsNull;
     pollInterval := negb (truthy (investment_decision d));
     startedAt := now;
     fired := 0;
     requests := [];
     inFlight := 0;
     toasts := [] |}.

Inductive PollEvent : Type :=
  (** the interval fires and its callback issues the request *)
  | Tick
  (** an issued request settles and the rest of the callback runs *)
  | Settle (outcome : Http.FetchResult AnalysisData)
  (** the cleanup function of the effect runs (unmount, or a change of
      one of its dependencies) *)
  | Cleanup.

(** [updatedData] when the callback reaches
    [if (updatedData.investment_decision)] with a truthy field. *)
Definition decisionIn (outcome : Http.FetchResult AnalysisData)
  : option AnalysisData :=
  match outcome with
  | Http.Rejected _ => None
  | Http.Resolved r =>
      if Http.ok r then
        match Http.json r with
        | Http.Parsed updatedData =>
            if truthy (investment_decision updatedData)
            then Some updatedData else None
        | Http.Unparsable _ => None
        end
      else None
  end.

(** The callback after its [await]s. *)
Definition onSettle (outcome : Http.FetchResult AnalysisData) (st : PollState)
  : PollState :=
  match decisionIn outcome with
  | Some updatedData =>
      {| analysisData := updatedData;
         investmentDecision := investment_decision updatedData;
         pollInterval := false;
         startedAt := startedAt st;
         fired := fired st;
         requests := requests st;
         inFlight := inFlight st;
         toasts := toasts st ++ ["Investment Decision Ready"] |}
  | None => st
  end.

(** One step of the polling machine; [None] when the event cannot occur
    (a cleared interval does not fire, nothing settles when nothing is in
    flight). *)
Definition pollStep (st : PollState) (e : PollEvent) : option PollState :=
  match e with
  | Tick =>
      if pollInterval st then
        Some {| analysisData := analysisData st;
                investmentDecision := investmentDecision st;
                pollInterval := true;
                startedAt := startedAt st;
                fired := S (fired st);
                requests := requests st
                  ++ [startedAt st + POLL_INTERVAL_MS * Z.of_nat (S (fired st))];
                inFlight := S (inFlight st);
                toasts := toasts st |}
      else None
  | Settle outcome =>
      match inFlight st with
      | O => None
      | S n =>
          Some (onSettle outcome
                  {| analysisData := analysisData st;
                     investmentDecision := investmentDecision st;
                     pollInterval := pollInterval st;
                     startedAt := startedAt st;
                     fired := fired st;
                     requests := requests st;
                     inFlight := n;
                     toasts := toasts st |})
      end
  | Cleanup =>
      Some {| analysisData := analysisData st;
              investmentDecision := investmentDecision st;
              pollInterval := false;
              startedAt := startedAt st;
              fired := fired st;
              requests := requests st;
              inFlight := inFlight st;
              toasts := toasts st |}
  end.

Fixpoint pollRun (st : PollState) (trace : list PollEvent) : option PollState :=
  match trace with
  | [] => Some st
  | e :: rest =>
      match pollStep st e with
      | Some st' => pollRun st' rest
      | None => None
      end
  end.

(** The times at which the first [n] firings of an interval registered
    at [t0] issue their request. *)
Definition schedule (t0 : Z) (n : nat) : list Z :=
  map (fun k => t0 + POLL_INTERVAL_MS * Z.of_nat (S k)) (seq 0 n).

(** The request log follows the interval's schedule. *)
Definition onSchedule (st : PollState) : Prop :=
  requests st = schedule (startedAt st) (fired st).

(** Events after which the interval is still registered. *)
Definition keepsPolling (e : PollEvent) : bool :=
  match e with
  | Tick => true
  | Settle outcome =>
      match decisionIn outcome with Some _ => false | None => true end
  | Cleanup => false
  end.

(** The records the settled requests of a trace bring with an investment
    decision, in order. *)
Fixpoint lateDecisions (trace : list PollEvent) : list AnalysisData :=
  match trace with
  | [] => []
  | Settle outcome :: rest =>
      match decisionIn outcome with
      | Some updatedData => updatedData :: lateDecisions rest
      | None => lateDecisions rest
      end
  | _ :: rest => lateDecisions rest
  end.

(** The record on screen is the one the effect started from, or one that
    holds an investment decision. *)
Definition pollDataInvariant (d : AnalysisData) (st : PollState) : Prop :=
  (analysisData st = d /\ investmentDecision st = JsNull /\ toasts st = [])
  \/ (truthy (investment_decision (analysisData st)) = true
      /\ investmentDecision st = investment_decision (analysisData st)
      /\ toasts st <> [] /\ pollInterval st = false).

End AnalysisDashboard.

(** A toast notification, as handed to [toast({...})]. *)
Module Toast.

Inductive Variant : Type := Default | Destructive.

Record t : Type := mk {
  variant : Variant;
  title : string;
  description : string
}.

End Toast.

(** ** app/interview/[token]/page.tsx *)
Module InterviewPage.
Import Js.

Inductive Role : Type := RoleAssistant | RoleUser.

Record ChatMessage : Type := mkChatMessage {
  role : Role;
  message : string;
  timestamp : string
}.

Record ValidationResponse : Type := mkValidationResponse {
  valid : bool;
  deal_id : string;
  company_name : string;
  sector : string;
  founder_name : string;
  status : string;
  missing_fields_count : Z;
  chat_history : list ChatMessage
}.

(** The JSON bodies of [GET /api/interviews/validate/{token}]: the
    validation payload, under the type the source declares for it, or any
    other JSON value, which the source reads as [any]. A body whose
    [valid] is truthy is a validation payload. *)
Inductive ValidateBody : Type :=
  | ErrorBody (errorData : JsValue)
              (no_valid : truthy (getProperty "valid" errorData) = false)
  | ValidationBody (data : ValidationResponse).

(** The JSON body of [POST /api/interviews/chat]. *)
Record ChatReply : Type := mkChatReply {
  reply_detail : option string;
  reply_message : string
}.

(** The body of the request [handleSendMessage] posts. *)
Record ChatRequest : Type := mkChatRequest {
  interview_token : string;
  request_message : string
}.

Record State : Type := mkState {
  validationData : option ValidationResponse;
  messages : list ChatMessage;
  input : string;
  isLoading : bool;
  isSending : bool;
  error : option string;
  toasts : list Toast.t
}.

(** The state of a freshly mounted page. *)
Definition initialState : State :=
  {| validationData := None; messages := []; input := "";
     isLoading := true; isSending := false; error := None; toasts := [] |}.

Definition INVALID_OR_EXPIRED : string :=
  "This interview link is invalid or has expired.".

Definition VALIDATE_FAILED : string :=
  "Failed to validate the interview session.".

(** The message of what
    [throw new Error(errorData.detail || 'This interview link ...')]
    throws: reading [detail] off [null] is a TypeError, and so is a
    [detail] that does not turn into a string; otherwise the error carries
    the text of a truthy [detail], or the fixed message. *)
Definition deniedMessage (engine : Engine) (errorData : JsValue) : string :=
  if nullish errorData
  then TypeError_message engine (ReadOfNullish errorData "detail")
  else
    let detail := getProperty "detail" errorData in
    if truthy detail then
      match ToString engine detail with
      | Some text => text
      | None => TypeError_message engine NotPrimitive
      end
    else INVALID_OR_EXPIRED.

(** The [try] block of [validateToken]: the message of the exception it
    throws, or the payload it accepts. A validation payload has no
    [detail]. *)
Definition validateOutcome (engine : Engine)
  (outcome : Http.FetchResult ValidateBody) : string + ValidationResponse :=
  match outcome with
  | Http.Rejected m => inl m
  | Http.Resolved response =>
      if negb (Http.ok response) then
        if (Http.status response =? 404)%Z || (Http.status response =? 403)%Z then
          match Http.json response with
          | Http.Unparsable m => inl m
          | Http.Parsed (ErrorBody errorData _) =>
              inl (deniedMessage engine errorData)
          | Http.Parsed (ValidationBody _) => inl INVALID_OR_EXPIRED
          end
        else inl VALIDATE_FAILED
      else
        match Http.json response with
        | Http.Unparsable m => inl m
        | Http.Parsed (ValidationBody data) =>
            if negb (valid data) then inl INVALID_OR_EXPIRED else inr data
        | Http.Parsed (ErrorBody data _) =>
            if nullish data
            then inl (TypeError_message engine (ReadOfNullish data "valid"))
            else inl INVALID_OR_EXPIRED
        end
  end.

(** [validateToken] up to its [await fetch]: nothing happens for an empty
    token. *)
Definition validateToken_begin (token : string) (st : State) : State :=
  if String.eqb token "" then st
  else {| validationData := validationData st; messages := messages st;
          input := input st; isLoading := true; isSending := isSending st;
          error := None; toasts := toasts st |}.

(** The rest of [validateToken], with its [catch] and [finally]. *)
Definition validateToken_end (engine : Engine)
  (outcome : Http.FetchResult ValidateBody) (st : State) : State :=
  match validateOutcome engine outcome with
  | inr data =>
      {| validationData := Some data; messages := chat_history data;
         input := input st; isLoading := false; isSending := isSending st;
         error := error st; toasts := toasts st |}
  | inl err_message =>
      {| validationData := validationData st; messages := messages st;
         input := input st; isLoading := false; isSending := isSending st;
         error := Some err_message; toasts := toasts st |}
  end.

(** The whole effect for a non-empty token, from a freshly mounted page. *)
Definition validateToken (engine : Engine) (token : string)
  (outcome : Http.FetchResult ValidateBody) : State :=
  validateToken_end engine outcome (validateToken_begin token initialState).

(** What the page renders. Only the chat view carries controls: the text
    input and the send button, each with its [disabled] flag. *)
Inductive View : Type :=
  | Validating
  | ValidationFailed (alertTitle alertDescription : string)
  | NotFound
  | Chat (welcome : ValidationResponse) (bubbles : list ChatMessage)
         (thinking : bool) (inputValue : string)
         (inputDisabled sendDisabled : bool).

Definition render (st : State) : View :=
  if isLoading st then Validating
  else if truthy_str (error st) then
    ValidationFailed "Validation Failed" (default "" (error st))
  else match validationData st with
       | None => NotFound
       | Some v =>
           let inactive := negb (String.eqb (status v) "active") in
           Chat v (messages st) (isSending st) (input st)
                (isSending st || inactive)
                (isSending st || blank (input st) || inactive)
       end.

Inductive Control : Type :=
  | AnswerInput (disabled : bool)
  | SendButton (disabled : bool).

(** The page's own controls in a view (the site header apart). *)
Definition controls (v : View) : list Control :=
  match v with
  | Chat _ _ _ _ inputDisabled sendDisabled =>
      [AnswerInput inputDisabled; SendButton sendDisabled]
  | _ => []
  end.

Definition isChat (v : View) : bool :=
  match v with Chat _ _ _ _ _ _ => true | _ => false end.

(** [handleSendMessage] up to its [await fetch], at time [now]. *)
Definition handleSendMessage_begin (token now : string) (st : State)
  : State * option ChatRequest :=
  if blank (input st) || String.eqb token "" then (st, None)
  else
    let userMessage := mkChatMessage RoleUser (input st) now in
    let newMessages := messages st ++ [userMessage] in
    ({| validationData := validationData st; messages := newMessages;
        input := ""; isLoading := isLoading st; isSending := true;
        error := error st; toasts := toasts st |},
     Some (mkChatRequest token (input st))).

(** The [try] block after the request: the exception's message, or the
    reply text. The body is parsed before [response.ok] is looked at. *)
Definition sendOutcome (outcome : Http.FetchResult ChatReply) : string + string :=
  match outcome with
  | Http.Rejected m => inl m
  | Http.Resolved response =>
      match Http.json response with
      | Http.Unparsable m => inl m
      | Http.Parsed result =>
          if negb (Http.ok response)
          then inl (or_str (reply_detail result) "Failed to get a response.")
          else inr (reply_message result)
      end
  end.

(** The rest of [handleSendMessage]; [closedMessages] is the [messages]
    the handler closed over when it was called. *)
Definition handleSendMessage_end (closedMessages : list ChatMessage)
  (outcome : Http.FetchResult ChatReply) (now : string) (st : State) : State :=
  match sendOutcome outcome with
  | inr text =>
      {| validationData := validationData st;
         messages := messages st ++ [mkChatMessage RoleAssistant text now];
         input := input st; isLoading := isLoading st; isSending := false;
         error := error st; toasts := toasts st |}
  | inl err_message =>
      {| validationData := validationData st;
         messages := closedMessages;
         input := input st; isLoading := isLoading st; isSending := false;
         error := error st;
         toasts := toasts st ++ [Toast.mk Toast.Destructive "Error" err_message] |}
  end.

Definition sendFailed (outcome : Http.FetchResult ChatReply) : bool :=
  match sendOutcome outcome with inl _ => true | inr _ => false end.

(** [onChange={(e) => setInput(e.target.value)}] *)
Definition setInput (value : string) (st : State) : State :=
  {| validationData := validationData st; messages := messages st;
     input := value; isLoading := isLoading st; isSending := isSending st;
     error := error st; toasts := toasts st |}.

(** [onKeyDown={(e) => e.key === 'Enter' && !isSending &&
     handleSendMessage()}] *)
Definition onKeyDown (key token now : string) (st : State)
  : State * option ChatRequest :=
  if String.eqb key "Enter" && negb (isSending st)
  then handleSendMessage_begin token now st
  else (st, None).

(** The [disabled] flag of a control. *)
Definition controlDisabled (c : Control) : bool :=
  match c with
  | AnswerInput disabled => disabled
  | SendButton disabled => disabled
  end.

End InterviewPage.

(** ** lib/api-client.ts *)
Module ApiClient.

(** *** The [Headers] class of the fetch API

    The header list behind a [Headers] object, as the Fetch standard has
    it: the entries in the order they were appended, names matched
    without regard to case, which the class does by storing them in lower
    case. Iterating over the object presents the entries sorted by name,
    so the order of the list is not what a caller sees: the properties
    below speak of the values stored under a name only. *)

Definition lower_ascii (c : ascii) : ascii :=
  let n := nat_of_ascii c in
  if ((65 <=? n) && (n <=? 90))%nat then ascii_of_nat (n + 32) else c.

Fixpoint lower (s : string) : string :=
  match s with
  | EmptyString => EmptyString
  | String c rest => String (lower_ascii c) (lower rest)
  end.

Definition Headers : Type := list (string * string).

Definition Headers_append (h : Headers) (name value : string) : Headers :=
  h ++ [(lower name, value)].

(** [new Headers(init)] *)
Definition Headers_new (init : list (string * string)) : Headers :=
  fold_left (fun h e => Headers_append h (fst e) (snd e)) init [].

(** Replace the value of the first entry named [n], drop the later ones. *)
Fixpoint set_first (n value : string) (h : Headers) : Headers :=
  match h with
  | [] => []
  | (k, x) :: rest =>
      if String.eqb k n
      then (k, value) :: List.filter (fun e => negb (String.eqb (fst e) n)) rest
      else (k, x) :: set_first n value rest
  end.

(** [headers.set(name, value)] *)
Definition Headers_set (h : Headers) (name value : string) : Headers :=
  let n := lower name in
  if existsb (fun e => String.eqb (fst e) n) h
  then set_first n value h
  else h ++ [(n, value)].

(** The values stored under [name], in order. [headers.get(name)] joins
    them with a comma; it is [null] when there is none. *)
Definition Headers_values (h : Headers) (name : string) : list string :=
  map snd (List.filter (fun e => String.eqb (fst e) (lower name)) h).

Definition Headers_has (h : Headers) (name : string) : bool :=
  existsb (fun e => String.eqb (fst e) (lower name)) h.

(** *** The identity-provider session *)

Inductive TokenResult : Type :=
  | Token (token : string)
  | TokenError (message : string).

Record User : Type := mkUser {
  getIdToken : TokenResult
}.

Record Auth : Type := mkAuth {
  currentUser : option User
}.

(** [getAuthHeaders] *)
Definition getAuthHeaders (auth : Auth) : list (string * string) :=
  match currentUser auth with
  | None => []
  | Some user =>
      match getIdToken user with
      | Token token => [("Authorization", "Bearer " +:+ token)]
      | TokenError _ => []
      end
  end.

(** [RequestInit], as the callers fill it in. *)
Record RequestInit : Type := mkRequestInit {
  method : option string;
  headers : list (string * string);
  body : option string
}.

(** The default [options = {}]. *)
Definition noOptions : RequestInit :=
  {| method := None; headers := []; body := None |}.

(** What reaches the platform's [fetch]. *)
Record Request : Type := mkRequest {
  req_url : string;
  req_method : option string;
  req_headers : Headers;
  req_body : option string
}.

(** [authenticatedFetch]: the request it hands to [fetch]. *)
Definition authenticatedFetch (auth : Auth) (url : string) (options : RequestInit)
  : Request :=
  let authHeaders := getAuthHeaders auth in
  let headers0 := Headers_new (headers options) in
  let headers1 :=
    fold_left (fun h e => Headers_set h (fst e) (snd e)) authHeaders headers0 in
  {| req_url := url;
     req_method := method options;
     req_headers := headers1;
     req_body := body options |}.

End ApiClient.

(** ** components/chatbot.tsx: the per-deal chat widget *)
Module Chatbot.
Import Js Types.

Inductive Role : Type := RoleUser | RoleModel.

Record Message : Type := mkMessage {
  role : Role;
  content : string
}.

(** The body of [POST /api/investor_chat]. *)
Record ChatRequest : Type := mkChatRequest {
  request_deal_id : string;
  request_message : string;
  history : list Message
}.

(** The JSON body of the reply. *)
Record ChatReply : Type := mkChatReply {
  reply_message : string
}.

(** The widget's state cells together with the browser's local storage. *)
Record State : Type := mkState {
  messages : list Message;
  input : string;
  isLoading : bool;
  localStorage : gmap string string
}.

Definition initialState (storage : gmap string string) : State :=
  {| messages := []; input := ""; isLoading := false; localStorage := storage |}.

Definition storageKey (dealId : string) : string := "chat_history_" +:+ dealId.

Definition greeting (companyName : string) : Message :=
  mkMessage RoleModel
    ("Hello! I've analyzed the pitch deck for **" +:+ companyName +:+
     "**. I can answer questions about their business model, market, team, or financials based on the deck and my research. What would you like to know?").

Definition FALLBACK : Message :=
  mkMessage RoleModel "Sorry, I encountered an error. Please try again.".

Definition setMessages (ms : list Message) (st : State) : State :=
  {| messages := ms; input := input st; isLoading := isLoading st;
     localStorage := localStorage st |}.

(** [initializeChat] *)
Definition initializeChat (data : AnalysisData) (st : State) : State :=
  setMessages [greeting (company_name (metadata data))] st.

Section WithJSON.

(** The platform's [JSON.stringify] and [JSON.parse] at the type of the
    history. The cache is only ever written as the serialisation of a
    message list, so a value that parses is read back at that type;
    [None] stands for the [SyntaxError] that [JSON.parse] throws. *)
Variable JSON_stringify : list Message -> string.
Variable JSON_parse : string -> option (list Message).

(** The effect that runs on mount: load the cached history. *)
Definition loadHistory (data : AnalysisData) (st : State) : State :=
  let savedMessages := localStorage st !! storageKey (deal_id (metadata data)) in
  if truthy_str savedMessages then
    match JSON_parse (default "" savedMessages) with
    | Some parsed => setMessages parsed st
    | None => initializeChat data st
    end
  else initializeChat data st.

(** [handleSendMessage] up to its [await]. *)
Definition handleSendMessage_begin (data : AnalysisData) (st : State)
  : State * option ChatRequest :=
  if blank (input st) then (st, None)
  else
    let userMessage := mkMessage RoleUser (input st) in
    let newMessages := messages st ++ [userMessage] in
    let key := storageKey (deal_id (metadata data)) in
    ({| messages := newMessages;
        input := "";
        isLoading := true;
        localStorage := <[key := JSON_stringify newMessages]> (localStorage st) |},
     Some (mkChatRequest (deal_id (metadata data)) (input st) (messages st))).

(** The [try] block after the request: the reply text, or [None] when
    it throws. [response.ok] is looked at before the body is parsed. *)
Definition sendOutcome (outcome : Http.FetchResult ChatReply) : option string :=
  match outcome with
  | Http.Rejected _ => None
  | Http.Resolved response =>
      if negb (Http.ok response) then None
      else match Http.json response with
           | Http.Parsed data => Some (reply_message data)
           | Http.Unparsable _ => None
           end
  end.

(** The rest of [handleSendMessage]; [newMessages] is the list the
    handler built before the request. *)
Definition handleSendMessage_end (data : AnalysisData)
  (newMessages : list Message) (outcome : Http.FetchResult ChatReply)
  (st : State) : State :=
  let key := storageKey (deal_id (metadata data)) in
  let final :=
    match sendOutcome outcome with
    | Some text => newMessages ++ [mkMessage RoleModel text]
    | None => newMessages ++ [FALLBACK]
    end in
  {| messages := final;
     input := input st;
     isLoading := false;
     localStorage := <[key := JSON_stringify final]> (localStorage st) |}.

Definition sendFailed (outcome : Http.FetchResult ChatReply) : bool :=
  match sendOutcome outcome with None => true | Some _ => false end.

End WithJSON.

Section Persistence.

Variable JSON_stringify : list Message -> string.

(** The effect that runs whenever [messages] changes: a history that is
    not empty is written to the cache. *)
Definition persistEffect (data : AnalysisData) (st : State) : State :=
  match messages st with
  | [] => st
  | _ =>
      {| messages := messages st; input := input st; isLoading := isLoading st;
         localStorage :=
           <[storageKey (deal_id (metadata data))
               := JSON_stringify (messages st)]> (localStorage st) |}
  end.

End Persistence.

(** [clearChat], the [onClearChat] callback apart: drop the cache entry
    and start over with the greeting. *)
Definition clearChat (data : AnalysisData) (st : State) : State :=
  initializeChat data
    {| messages := messages st; input := input st; isLoading := isLoading st;
       localStorage := delete (storageKey (deal_id (metadata data)))
                         (localStorage st) |}.

End Chatbot.

(** ** components/floating-chat.tsx *)
Module FloatingChat.
Import Types.

Record State : Type := mkState {
  isOpen : bool;
  isMinimized : bool;
  chatKey : Z
}.

(** [handleClearChat]: the cache entry of the deal is removed and the key
    of the chat widget changes, which mounts a fresh widget. *)
Definition handleClearChat (data : AnalysisData)
  (storage : gmap string string) (st : State) : gmap string string * State :=
  (delete (Chatbot.storageKey (deal_id (metadata data))) storage,
   {| isOpen := isOpen st; isMinimized := isMinimized st;
      chatKey := (chatKey st + 1)%Z |}).

End FloatingChat.

(** ** app/dashboard/page.tsx: the list of deals *)
Module InvestorDashboard.
Import Js Types.
Local Open Scope Z_scope.

Record State : Type := mkState {
  startups : list AnalysisData;
  toasts : list Toast.t
}.

(** [s.id !== startupId] *)
Definition otherThan (startupId : string) (s : AnalysisData) : bool :=
  negb (String.eqb (id s) startupId).

(** [handleDelete] up to its [await]: the copy it keeps of the list it
    closed over, and the state after the functional update. *)
Definition handleDelete_begin (closedStartups : list AnalysisData)
  (startupId : string) (st : State) : list AnalysisData * State * string :=
  let originalStartups := closedStartups in
  (originalStartups,
   {| startups := List.filter (fun s => otherThan startupId s) (startups st);
      toasts := toasts st |},
   startupId).

(** The [try] block after the request: the message of what it throws. *)
Definition deleteOutcome (outcome : Http.FetchResult unit) : option string :=
  match outcome with
  | Http.Rejected m => Some m
  | Http.Resolved response =>
      if negb (Http.ok response) then Some "Failed to delete the analysis."
      else None
  end.

(** The rest of [handleDelete]. *)
Definition handleDelete_end (originalStartups : list AnalysisData)
  (outcome : Http.FetchResult unit) (st : State) : State :=
  match deleteOutcome outcome with
  | None =>
      {| startups := startups st;
         toasts := toasts st ++
           [Toast.mk Toast.Default "Analysis Deleted"
              "The startup analysis has been successfully deleted."] |}
  | Some error_message =>
      {| startups := originalStartups;
         toasts := toasts st ++
           [Toast.mk Toast.Destructive "Deletion Failed"
              (or_str (Some error_message) "An unexpected error occurred.")] |}
  end.

Definition deleteFailed (outcome : Http.FetchResult unit) : bool :=
  match deleteOutcome outcome with Some _ => true | None => false end.

(** *** A deal card *)

Definition GREEN : string := "text-green-600 bg-green-50 border-green-200".
Definition YELLOW : string := "text-yellow-600 bg-yellow-50 border-yellow-200".
Definition RED : string := "text-red-600 bg-red-50 border-red-200".

(** [memo?.risk_metrics?.composite_risk_score], the score as stored. *)
Definition storedScore (startup : AnalysisData) : option Z :=
  (memo_draft startup ≫= risk_metrics) ≫= composite_risk_score.

(** [memo?.risk_metrics?.composite_risk_score || 0] *)
Definition cardScore (startup : AnalysisData) : Z :=
  or_num ((memo_draft startup ≫= risk_metrics) ≫= composite_risk_score) 0.

(** [memo?.conclusion?.overall_attractiveness || 'N/A'] *)
Definition cardRecommendation (startup : AnalysisData) : string :=
  or_str ((memo_draft startup ≫= conclusion) ≫= overall_attractiveness) "N/A".

(** The colour classes of the score badge. *)
Definition scoreColor (score : Z) : string :=
  let c := GREEN in
  let c := if 30 <? score then YELLOW else c in
  let c := if 60 <? score then RED else c in
  c.

(** [startup.metadata.processing_mode !== 'fast'] *)
Definition notFast (startup : AnalysisData) : bool :=
  match processing_mode (metadata startup) with
  | Some m => negb (String.eqb m "fast")
  | None => true
  end.

Record ScoreBadge : Type := mkScoreBadge {
  badgeColor : string;
  badgeText : Z
}.

(** What a card shows of a deal. *)
Record Card : Type := mkCard {
  cardKey : string;
  cardTitle : string;
  cardSector : string;
  scoreBadge : option ScoreBadge;
  modeBadge : string;
  recommendationRow : option string;
  productParagraph : option string;
  financialsParagraph : option string;
  thesisParagraph : option string;
  riskParagraph : option string;
  downloadButton : bool
}.

(** [cond && text]: the paragraph is there when the text is truthy. *)
Definition shown (o : option string) : option string :=
  if truthy_str o then o else None.

Definition renderCard (startup : AnalysisData) : Card :=
  let memo := memo_draft startup in
  let score := cardScore startup in
  let recommendation := cardRecommendation startup in
  let concl := memo ≫= conclusion in
  {| cardKey := id startup;
     cardTitle := company_name (metadata startup);
     cardSector := sector (metadata startup);
     scoreBadge :=
       if notFast startup then Some (mkScoreBadge (scoreColor score) score)
       else None;
     modeBadge := if notFast startup then "Research" else "Fast";
     recommendationRow :=
       if notFast startup then Some recommendation else None;
     productParagraph := shown (concl ≫= product_summary);
     financialsParagraph := shown (concl ≫= financial_analysis);
     thesisParagraph :=
       if notFast startup then shown (concl ≫= investment_thesis) else None;
     riskParagraph :=
       if notFast startup then shown (concl ≫= risk_summary) else None;
     downloadButton := bool_decide (is_Some memo) |}.

(** *** Loading the list *)

(** The JSON body of [GET /api/deals]. *)
Record DealsReply : Type := mkDealsReply {
  deals : list AnalysisData
}.

(** The list together with the other state cells of the page. *)
Record PageState : Type := mkPageState {
  dealList : State;
  isLoading : bool;
  error : option string;
  downloading : option string;
  isUploadDialogOpen : bool
}.

(** The state of a freshly mounted page. *)
Definition initialPage : PageState :=
  {| dealList := {| startups := []; toasts := [] |};
     isLoading := true; error := None; downloading := None;
     isUploadDialogOpen := false |}.

(** [fetchDeals] up to its [await]. *)
Definition fetchDeals_begin (ps : PageState) : PageState :=
  {| dealList := dealList ps; isLoading := true; error := None;
     downloading := downloading ps;
     isUploadDialogOpen := isUploadDialogOpen ps |}.

(** The [try] block of [fetchDeals]: what it throws, or the deals. *)
Definition fetchOutcome (outcome : Http.FetchResult DealsReply)
  : string + list AnalysisData :=
  match outcome with
  | Http.Rejected m => inl m
  | Http.Resolved response =>
      if negb (Http.ok response)
      then inl "Failed to fetch deals. Please try again later."
      else match Http.json response with
           | Http.Unparsable m => inl m
           | Http.Parsed data => inr (deals data)
           end
  end.

(** The rest of [fetchDeals]. *)
Definition fetchDeals_end (outcome : Http.FetchResult DealsReply)
  (ps : PageState) : PageState :=
  match fetchOutcome outcome with
  | inr ds =>
      {| dealList := {| startups := ds; toasts := toasts (dealList ps) |};
         isLoading := false; error := error ps;
         downloading := downloading ps;
         isUploadDialogOpen := isUploadDialogOpen ps |}
  | inl err_message =>
      {| dealList := dealList ps; isLoading := false; error := Some err_message;
         downloading := downloading ps;
         isUploadDialogOpen := isUploadDialogOpen ps |}
  end.

(** [handleUploadComplete], up to the [await] of the [fetchDeals] it
    starts. *)
Definition handleUploadComplete (ps : PageState) : PageState :=
  fetchDeals_begin
    {| dealList := dealList ps; isLoading := isLoading ps; error := error ps;
       downloading := downloading ps; isUploadDialogOpen := false |}.

(** The note under a card's conclusion block: shown when none of the
    four conclusion texts is truthy. *)
Definition noConclusionNote (startup : AnalysisData) : bool :=
  let concl := memo_draft startup ≫= conclusion in
  negb (truthy_str (concl ≫= product_summary))
  && negb (truthy_str (concl ≫= financial_analysis))
  && negb (truthy_str (concl ≫= investment_thesis))
  && negb (truthy_str (concl ≫= risk_summary)).

(** What [renderContent] returns. *)
Inductive Content : Type :=
  | Skeletons (count : nat)
  | LoadFailed (alertTitle alertDescription : string)
  | Cards (cards : list Card)
  | NoStartups.

Definition renderContent (ps : PageState) : Content :=
  if isLoading ps && Nat.eqb (length (startups (dealList ps))) 0 then Skeletons 6
  else if truthy_str (error ps) then
    LoadFailed "Failed to Load Deals" (default "" (error ps))
  else if negb (Nat.eqb (length (startups (dealList ps))) 0) then
    Cards (map renderCard (startups (dealList ps)))
  else NoStartups.

End InvestorDashboard.

(** ** components/analysis-dashboard.tsx: the handlers after the click *)
Module DashboardActions.
Import Js Types AnalysisDashboard.

(** [weights[key]] *)
Definition getWeight (key : WeightKey) (w : Weightages) : float :=
  match key with
  | KTeamStrength => teamStrength w
  | KMarketOpportunity => marketOpportunity w
  | KTraction => traction w
  | KClaimCredibility => claimCredibility w
  | KFinancialHealth => financialHealth w
  end.

(** The name of a weight in the memo's [_weightage_used] record. *)
Definition storedName (key : WeightKey) : string :=
  match key with
  | KTeamStrength => "team_strength"
  | KMarketOpportunity => "market_opportunity"
  | KTraction => "traction"
  | KClaimCredibility => "claim_credibility"
  | KFinancialHealth => "financial_health"
  end.

(** The dialog after a slider moved: [handleWeightChange] applied to the
    weights. *)
Definition moveSlider (key : WeightKey) (value0 : float) (st : DialogState)
  : DialogState :=
  mkDialogState (handleWeightChange key value0 (weights st))
                (isRecalculating st).

(** A JSON body that may carry a [detail]. *)
Record DetailReply : Type := mkDetailReply {
  detail : option string
}.

(** The state cells [handleRecalculate] writes. *)
Record RecalcState : Type := mkRecalcState {
  shownData : AnalysisData;
  dialog : DialogState;
  isCustomizeDialogOpen : bool;
  recalcToasts : list Toast.t
}.

(** The [try] block of [handleRecalculate]: what it throws, or the
    record the second request brought. *)
Definition recalcOutcome (generated : Http.FetchResult DetailReply)
  (refetched : Http.FetchResult AnalysisData) : string + AnalysisData :=
  match generated with
  | Http.Rejected m => inl m
  | Http.Resolved generateMemoResponse =>
      if negb (Http.ok generateMemoResponse) then
        match Http.json generateMemoResponse with
        | Http.Unparsable m => inl m
        | Http.Parsed errorData =>
            inl (or_str (detail errorData)
                   "Failed to generate the new memo summary.")
        end
      else
        match Http.json generateMemoResponse with
        | Http.Unparsable m => inl m
        | Http.Parsed _ =>
            match refetched with
            | Http.Rejected m => inl m
            | Http.Resolved dealResponse =>
                if negb (Http.ok dealResponse)
                then inl "Failed to fetch the updated analysis data."
                else match Http.json dealResponse with
                     | Http.Unparsable m => inl m
                     | Http.Parsed updatedAnalysisData => inr updatedAnalysisData
                     end
            end
        end
  end.

(** [handleRecalculate] after its first [await], with [catch] and
    [finally]. *)
Definition handleRecalculate_end (generated : Http.FetchResult DetailReply)
  (refetched : Http.FetchResult AnalysisData) (st : RecalcState) : RecalcState :=
  match recalcOutcome generated refetched with
  | inr updatedAnalysisData =>
      {| shownData := updatedAnalysisData;
         dialog := mkDialogState (weights (dialog st)) false;
         isCustomizeDialogOpen := false;
         recalcToasts := recalcToasts st ++
           [Toast.mk Toast.Default "Summary Generated"
              "The investment summary has been updated with your new weightages."] |}
  | inl error_message =>
      {| shownData := shownData st;
         dialog := mkDialogState (weights (dialog st)) false;
         isCustomizeDialogOpen := isCustomizeDialogOpen st;
         recalcToasts := recalcToasts st ++
           [Toast.mk Toast.Destructive "Update Failed"
              (or_str (Some error_message)
                 "An unexpected error occurred while regenerating the summary.")] |}
  end.

(** A click on the footer button followed to the end of the handler. *)
Definition recalculate (sid : string) (generated : Http.FetchResult DetailReply)
  (refetched : Http.FetchResult AnalysisData) (st : RecalcState) : RecalcState :=
  match clickGenerate sid (dialog st) with
  | (busy, Some _) =>
      handleRecalculate_end generated refetched
        {| shownData := shownData st; dialog := busy;
           isCustomizeDialogOpen := isCustomizeDialogOpen st;
           recalcToasts := recalcToasts st |}
  | (_, None) => st
  end.

(** [getTabListClassName] *)
Definition getTabListClassName (d : AnalysisData) : string :=
  let baseClass := "grid w-full h-auto mb-6 grid-cols-2" in
  if showIssuesTab d then baseClass +:+ " md:grid-cols-8"
  else if showInsightsTab d then baseClass +:+ " md:grid-cols-8"
  else baseClass +:+ " md:grid-cols-7".

(** *** The interview invitation dialog *)

Record MeetingState : Type := mkMeetingState {
  isSettingMeeting : bool;
  isMeetingDialogOpen : bool;
  founderName : string;
  founderEmail : string;
  meetingToasts : list Toast.t
}.

(** The effect on [initialAnalysisData]: the first founder name, when
    there is one, fills the name field. *)
Definition founderNameEffect (d : AnalysisData) (st : MeetingState)
  : MeetingState :=
  match founder_names (metadata d) with
  | first :: _ =>
      {| isSettingMeeting := isSettingMeeting st;
         isMeetingDialogOpen := isMeetingDialogOpen st;
         founderName := first; founderEmail := founderEmail st;
         meetingToasts := meetingToasts st |}
  | [] => st
  end.

(** The body of [POST /api/interviews/initiate]. *)
Record InviteRequest : Type := mkInviteRequest {
  invite_deal_id : string;
  invite_founder_email : string;
  invite_founder_name : string
}.


(** [disabled={isSettingMeeting || !founderName || !founderEmail}] *)
Definition sendInvitationDisabled (st : MeetingState) : bool :=
  isSettingMeeting st || String.eqb (founderName st) ""
  || String.eqb (founderEmail st) "".

(** [handleSetMeeting] up to its [await]. *)
Definition handleSetMeeting_begin (sid : string) (st : MeetingState)
  : MeetingState * InviteRequest :=
  ({| isSettingMeeting := true;
      isMeetingDialogOpen := isMeetingDialogOpen st;
      founderName := founderName st; founderEmail := founderEmail st;
      meetingToasts := meetingToasts st |},
   mkInviteRequest sid (founderEmail st) (founderName st)).

(** A click on Send Invitation. *)
Definition clickSendInvitation (sid : string) (st : MeetingState)
  : MeetingState * option InviteRequest :=
  if sendInvitationDisabled st then (st, None)
  else (fst (handleSetMeeting_begin sid st),
        Some (snd (handleSetMeeting_begin sid st))).




(** *** Downloading a source file *)

Inductive FileType : Type :=
  | pitch_deck | video_pitch | audio_pitch | text_notes.

(** The string the source uses for the file type. *)
Definition fileTypeName (fileType : FileType) : string :=
  match fileType with
  | pitch_deck => "pitch_deck"
  | video_pitch => "video_pitch"
  | audio_pitch => "audio_pitch"
  | text_notes => "text_notes"
  end.

Definition endpoint (fileType : FileType) (sid : string) : string :=
  match fileType with
  | pitch_deck => "api/download_pitch_deck/" +:+ sid
  | video_pitch => "api/download_video_pitch/" +:+ sid
  | audio_pitch => "api/download_audio_pitch/" +:+ sid
  | text_notes => "api/download_text_notes/" +:+ sid
  end.

Definition defaultFilename (fileType : FileType) (sid : string) : string :=
  match fileType with
  | pitch_deck => sid +:+ "-pitch-deck.pdf"
  | video_pitch => sid +:+ "-video-pitch.mp4"
  | audio_pitch => sid +:+ "-audio-pitch.mp3"
  | text_notes => sid +:+ "-text-notes.txt"
  end.

(** The double quote. *)
Definition dquote : ascii := ascii_of_nat 34.

(** The line terminators among the code units below 256: LF and CR. The
    dot of a regular expression matches every other code unit. *)
Definition is_line_terminator (c : ascii) : bool :=
  let n := nat_of_ascii c in (n =? 10)%nat || (n =? 13)%nat.

(** The longest prefix the dot can run over. *)
Fixpoint dotRun (s : string) : string :=
  match s with
  | EmptyString => EmptyString
  | String c rest =>
      if is_line_terminator c then EmptyString else String c (dotRun rest)
  end.

(** What stands before the last double quote of [s], if it has one. *)
Fixpoint beforeLastQuote (s : string) : option string :=
  match s with
  | EmptyString => None
  | String c rest =>
      match beforeLastQuote rest with
      | Some p => Some (String c p)
      | None => if Ascii.eqb c dquote then Some EmptyString else None
      end
  end.

(** The group matched at the start of [s] by a greedy run of dots
    followed by a double quote: it reaches up to the last double quote
    the dot can run to, and is not empty. *)
Definition greedyGroup (s : string) : option string :=
  match beforeLastQuote (dotRun s) with
  | Some EmptyString => None
  | other => other
  end.

(** [s] without the prefix [p], if it starts with it. *)
Fixpoint stripPrefix (p s : string) : option string :=
  match p, s with
  | EmptyString, _ => Some s
  | String a p', String b s' =>
      if Ascii.eqb a b then stripPrefix p' s' else None
  | String _ _, EmptyString => None
  end.

(** The literal the pattern starts with: filename, an equals sign and a
    double quote. *)
Definition FILENAME_EQ : string := "filename=" +:+ String dquote EmptyString.

(** The group of the leftmost match in [s] of the handler's pattern:
    the literal, then the greedy group, then a double quote. *)
Fixpoint matchFilename (s : string) : option string :=
  let here :=
    match stripPrefix FILENAME_EQ s with
    | Some rest => greedyGroup rest
    | None => None
    end in
  match here with
  | Some group => Some group
  | None =>
      match s with
      | EmptyString => None
      | String _ rest => matchFilename rest
      end
  end.

(** The name the download is saved under. *)
Definition downloadFilename (fileType : FileType) (sid : string)
  (contentDisposition : option string) : string :=
  if truthy_str contentDisposition then
    match matchFilename (default "" contentDisposition) with
    | Some group => group
    | None => defaultFilename fileType sid
    end
  else defaultFilename fileType sid.

(** [s.replace(/_/g, ' ')] *)
Fixpoint underscoresToSpaces (s : string) : string :=
  match s with
  | EmptyString => EmptyString
  | String c rest =>
      String (if Ascii.eqb c "_"%char then " "%char else c)
             (underscoresToSpaces rest)
  end.

(** The response to a download request, as far as the handler reads it. *)
Record DownloadResponse : Type := mkDownloadResponse {
  download_status : Z;
  contentDisposition : option string;
  blob : string
}.

Inductive DownloadResult : Type :=
  | DownloadRejected (message : string)
  | DownloadResolved (response : DownloadResponse).

(** A file handed to the browser to save. *)
Record SavedFile : Type := mkSavedFile {
  savedAs : string;
  savedContent : string
}.

Record DownloadState : Type := mkDownloadState {
  downloadingFile : option FileType;
  downloadToasts : list Toast.t
}.

(** [handleDownloadSourceFile] up to its [await]: the busy marker and
    the path requested. *)
Definition handleDownloadSourceFile_begin (fileType : FileType) (sid : string)
  (st : DownloadState) : DownloadState * string :=
  ({| downloadingFile := Some fileType; downloadToasts := downloadToasts st |},
   endpoint fileType sid).

(** The rest of [handleDownloadSourceFile]. *)
Definition handleDownloadSourceFile_end (fileType : FileType) (sid : string)
  (outcome : DownloadResult) (st : DownloadState)
  : DownloadState * option SavedFile :=
  let thrown :=
    match outcome with
    | DownloadRejected m => inl m
    | DownloadResolved response =>
        if ((200 <=? download_status response)
            && (download_status response <=? 299))%Z
        then inr response
        else inl ("Failed to download "
                  +:+ underscoresToSpaces (fileTypeName fileType) +:+ ".")
    end in
  match thrown with
  | inr response =>
      let filename :=
        downloadFilename fileType sid (contentDisposition response) in
      ({| downloadingFile := None;
          downloadToasts := downloadToasts st ++
            [Toast.mk Toast.Default "Download Started"
               ("Your download for " +:+ filename +:+ " has started.")] |},
       Some (mkSavedFile filename (blob response)))
  | inl error_message =>
      ({| downloadingFile := None;
          downloadToasts := downloadToasts st ++
            [Toast.mk Toast.Destructive "Download Failed"
               (or_str (Some error_message) "An unexpected error occurred.")] |},
       None)
  end.

End DashboardActions.

(** ** The JavaScript [Set] of strings *)
Module JsSet.

(** A [Set] keeps its elements in insertion order, each once. *)
Definition t : Type := list string.

Definition has (x : string) (s : t) : bool := existsb (String.eqb x) s.

Definition add (x : string) (s : t) : t :=
  if has x s then s else s ++ [x].

Definition delete (x : string) (s : t) : t :=
  List.filter (fun y => negb (String.eqb y x)) s.

(** [new Set(array)] *)
Definition of_array (l : list string) : t :=
  fold_left (fun s x => add x s) l [].

Definition size (s : t) : nat := length s.

(** [Array.from(set)] *)
Definition to_array (s : t) : list string := s.

End JsSet.

(** ** components/issues-tab.tsx, with the selection of questions *)
Module IssuesTab.
Import Js Types.

Record State : Type := mkState {
  selectedFields : JsSet.t;
  isMeetingDialogOpen : bool;
  founderName : string;
  founderEmail : string;
  isSettingMeeting : bool;
  toasts : list Toast.t
}.

Definition initialState (defaultFounderName : string) : State :=
  {| selectedFields := []; isMeetingDialogOpen := false;
     founderName := defaultFounderName; founderEmail := "";
     isSettingMeeting := false; toasts := [] |}.

Definition setSelectedFields (sel : JsSet.t) (st : State) : State :=
  {| selectedFields := sel; isMeetingDialogOpen := isMeetingDialogOpen st;
     founderName := founderName st; founderEmail := founderEmail st;
     isSettingMeeting := isSettingMeeting st; toasts := toasts st |}.

(** [new Set(issues.map(issue => issue.field))] *)
Definition allFields (issues : list InterviewIssue) : JsSet.t :=
  JsSet.of_array (map field issues).

(** The effect on [issues]: start with every question selected. *)
Definition selectAllEffect (issues : list InterviewIssue) (st : State) : State :=
  match issues with
  | [] => st
  | _ => setSelectedFields (allFields issues) st
  end.

(** [handleToggleIssue] *)
Definition handleToggleIssue (f : string) (st : State) : State :=
  let newSelected :=
    if JsSet.has f (selectedFields st)
    then JsSet.delete f (selectedFields st)
    else JsSet.add f (selectedFields st) in
  setSelectedFields newSelected st.

(** [handleToggleAll] *)
Definition handleToggleAll (issues : list InterviewIssue) (st : State) : State :=
  if Nat.eqb (JsSet.size (selectedFields st)) (length issues)
  then setSelectedFields [] st
  else setSelectedFields (allFields issues) st.

(** [selectedFields.size === issues.length] *)
Definition allSelected (issues : list InterviewIssue) (st : State) : bool :=
  Nat.eqb (JsSet.size (selectedFields st)) (length issues).

(** [selectedFields.size > 0 && selectedFields.size < issues.length] *)
Definition someSelected (issues : list InterviewIssue) (st : State) : bool :=
  (0 <? JsSet.size (selectedFields st))%nat
  && (JsSet.size (selectedFields st) <? length issues)%nat.

(** The Set Meeting button: [disabled={selectedFields.size === 0}]. *)
Definition setMeetingDisabled (st : State) : bool :=
  Nat.eqb (JsSet.size (selectedFields st)) 0.

(** The body of [POST /api/interviews/initiate]. *)
Record InviteRequest : Type := mkInviteRequest {
  invite_deal_id : string;
  invite_founder_email : string;
  invite_founder_name : string;
  selected_fields : list string
}.

(** [handleSetMeeting] up to its [await]. *)
Definition handleSetMeeting_begin (dealId : string) (st : State)
  : State * option InviteRequest :=
  if Nat.eqb (JsSet.size (selectedFields st)) 0 then
    ({| selectedFields := selectedFields st;
        isMeetingDialogOpen := isMeetingDialogOpen st;
        founderName := founderName st; founderEmail := founderEmail st;
        isSettingMeeting := isSettingMeeting st;
        toasts := toasts st ++
          [Toast.mk Toast.Destructive "No Questions Selected"
             "Please select at least one question for the interview."] |},
     None)
  else
    ({| selectedFields := selectedFields st;
        isMeetingDialogOpen := isMeetingDialogOpen st;
        founderName := founderName st; founderEmail := founderEmail st;
        isSettingMeeting := true; toasts := toasts st |},
     Some (mkInviteRequest dealId (founderEmail st) (founderName st)
             (JsSet.to_array (selectedFields st)))).

(** The Send Invitation button of the dialog:
    [disabled={isSettingMeeting || !founderName || !founderEmail}]. *)
Definition sendInvitationDisabled (st : State) : bool :=
  isSettingMeeting st || String.eqb (founderName st) ""
  || String.eqb (founderEmail st) "".

(** A click on Send Invitation, the only caller of [handleSetMeeting]:
    the button is there while the dialog is open and dispatches no click
    while it is disabled. *)
Definition clickSendInvitation (dealId : string) (st : State)
  : State * option InviteRequest :=
  if isMeetingDialogOpen st && negb (sendInvitationDisabled st)
  then handleSetMeeting_begin dealId st
  else (st, None).

Definition setIsMeetingDialogOpen (open : bool) (st : State) : State :=
  {| selectedFields := selectedFields st; isMeetingDialogOpen := open;
     founderName := founderName st; founderEmail := founderEmail st;
     isSettingMeeting := isSettingMeeting st; toasts := toasts st |}.

Definition setFounderName (value : string) (st : State) : State :=
  {| selectedFields := selectedFields st;
     isMeetingDialogOpen := isMeetingDialogOpen st;
     founderName := value; founderEmail := founderEmail st;
     isSettingMeeting := isSettingMeeting st; toasts := toasts st |}.

Definition setFounderEmail (value : string) (st : State) : State :=
  {| selectedFields := selectedFields st;
     isMeetingDialogOpen := isMeetingDialogOpen st;
     founderName := founderName st; founderEmail := value;
     isSettingMeeting := isSettingMeeting st; toasts := toasts st |}.

(** What the user can do before the invitation is sent: tick or untick
    the row of one of the issues, click the toggle for all, click Set
    Meeting, which opens the dialog unless it is disabled, dismiss the
    dialog, and type into the name and the email box, which are there
    while the dialog is open. *)
Inductive Action : Type :=
  | ToggleRow (index : nat)
  | ToggleAll
  | ClickSetMeeting
  | DismissDialog
  | TypeName (value : string)
  | TypeEmail (value : string).

Definition act (issues : list InterviewIssue) (st : State) (a : Action) : State :=
  match a with
  | ToggleRow index =>
      match issues !! index with
      | Some issue => handleToggleIssue (field issue) st
      | None => st
      end
  | ToggleAll => handleToggleAll issues st
  | ClickSetMeeting =>
      if setMeetingDisabled st then st else setIsMeetingDialogOpen true st
  | DismissDialog => setIsMeetingDialogOpen false st
  | TypeName value =>
      if isMeetingDialogOpen st then setFounderName value st else st
  | TypeEmail value =>
      if isMeetingDialogOpen st then setFounderEmail value st else st
  end.

(** The state after the component mounted on [issues] and the user did
    [actions], in order. *)
Definition afterActions (issues : list InterviewIssue)
  (defaultFounderName : string) (actions : list Action) : State :=
  fold_left (act issues) actions
    (selectAllEffect issues (initialState defaultFounderName)).

(** What every reachable selection satisfies: no field twice, and only
    fields of the issues. *)
Definition wellFormed (issues : list InterviewIssue) (st : State) : Prop :=
  List.NoDup (selectedFields st)
  /\ forall f, In f (selectedFields st) -> In f (map field issues).

End IssuesTab.

(** ** components/market-analysis.tsx *)
Module MarketAnalysis.
Import Js.







End MarketAnalysis.

(** ** components/fact-check.tsx *)
Module FactCheck.
Import Js.

Record FactCheckClaim : Type := mkFactCheckClaim {
  claim : string;
  verdict : string;
  explanation : string;
  source_url : option string;
  confidence : string
}.

Record Report : Type := mkReport {
  claims : list FactCheckClaim;
  checked_at : string
}.


Record State : Type := mkState {
  loading : bool;
  data : option Report;
  error : option string
}.

(** [useState(existingData || null)] *)
Definition initialState (existingData : option Report) : State :=
  {| loading := false; data := existingData; error := None |}.





(** What the component renders: the invitation to run a check, or the
    report with its re-run button. *)
Inductive View : Type :=
  | Intro (errorText : option string)
  | ReportView (lastChecked : option string) (rerunDisabled : bool)
               (errorBanner : option string) (spinner : bool)
               (cards : list FactCheckClaim).

(** [error && ...]: shown when the message is truthy. *)
Definition shownError (st : State) : option string :=
  if truthy_str (error st) then error st else None.

Definition render (st : State) : View :=
  match data st with
  | None =>
      if negb (loading st) then Intro (shownError st)
      else ReportView None (loading st) (shownError st) (loading st) []
  | Some report =>
      ReportView (Some (checked_at report)) (loading st) (shownError st)
                 false (claims report)
  end.

End FactCheck.

(** ** components/file-upload.tsx: one input at a time *)
Module FileUpload.
Import Js.

Record File : Type := mkFile {
  name : string
}.

Inductive Mode : Type := fast | research.

Record State : Type := mkState {
  activeTab : string;
  pitchDeck : option File;
  videoFile : option File;
  audioFile : option File;
  textInput : string;
  processingMode : Mode;
  isLoading : bool;
  error : option string;
  toasts : list Toast.t
}.

Definition initialState : State :=
  {| activeTab := "pdf"; pitchDeck := None; videoFile := None;
     audioFile := None; textInput := ""; processingMode := fast;
     isLoading := false; error := None; toasts := [] |}.

(** [handlePitchDeckChange]; [picked] is [event.target.files[0]]. *)
Definition handlePitchDeckChange (picked : option File) (st : State) : State :=
  match picked with
  | Some f =>
      {| activeTab := activeTab st; pitchDeck := Some f; videoFile := None;
         audioFile := None; textInput := "";
         processingMode := processingMode st; isLoading := isLoading st;
         error := error st; toasts := toasts st |}
  | None => st
  end.

(** [handleVideoChange] *)
Definition handleVideoChange (picked : option File) (st : State) : State :=
  match picked with
  | Some f =>
      {| activeTab := activeTab st; pitchDeck := None; videoFile := Some f;
         audioFile := None; textInput := "";
         processingMode := processingMode st; isLoading := isLoading st;
         error := error st; toasts := toasts st |}
  | None => st
  end.

(** [handleAudioChange] *)
Definition handleAudioChange (picked : option File) (st : State) : State :=
  match picked with
  | Some f =>
      {| activeTab := activeTab st; pitchDeck := None; videoFile := None;
         audioFile := Some f; textInput := "";
         processingMode := processingMode st; isLoading := isLoading st;
         error := error st; toasts := toasts st |}
  | None => st
  end.

(** [handleTabChange] *)
Definition handleTabChange (value : string) (st : State) : State :=
  {| activeTab := value; pitchDeck := None; videoFile := None;
     audioFile := None; textInput := "";
     processingMode := processingMode st; isLoading := isLoading st;
     error := None; toasts := toasts st |}.

(** [onChange={(e) => setTextInput(e.target.value)}] *)
Definition setTextInput (value : string) (st : State) : State :=
  {| activeTab := activeTab st; pitchDeck := pitchDeck st;
     videoFile := videoFile st; audioFile := audioFile st;
     textInput := value;
     processingMode := processingMode st; isLoading := isLoading st;
     error := error st; toasts := toasts st |}.

Definition setProcessingMode (m : Mode) (st : State) : State :=
  {| activeTab := activeTab st; pitchDeck := pitchDeck st;
     videoFile := videoFile st; audioFile := audioFile st;
     textInput := textInput st;
     processingMode := m; isLoading := isLoading st;
     error := error st; toasts := toasts st |}.

(** What the form lets the user do. The input of a tab is mounted only
    while that tab is the active one. *)
Inductive Event : Type :=
  | PickPitchDeck (picked : option File)
  | PickVideo (picked : option File)
  | PickAudio (picked : option File)
  | TypeText (value : string)
  | ChangeTab (value : string)
  | ChooseMode (m : Mode).

Definition step (st : State) (e : Event) : option State :=
  match e with
  | PickPitchDeck picked =>
      if String.eqb (activeTab st) "pdf"
      then Some (handlePitchDeckChange picked st) else None
  | PickVideo picked =>
      if String.eqb (activeTab st) "video"
      then Some (handleVideoChange picked st) else None
  | PickAudio picked =>
      if String.eqb (activeTab st) "audio"
      then Some (handleAudioChange picked st) else None
  | TypeText value =>
      if String.eqb (activeTab st) "text"
      then Some (setTextInput value st) else None
  | ChangeTab value => Some (handleTabChange value st)
  | ChooseMode m => Some (setProcessingMode m st)
  end.

Fixpoint run (st : State) (events : list Event) : option State :=
  match events with
  | [] => Some st
  | e :: rest =>
      match step st e with
      | Some st' => run st' rest
      | None => None
      end
  end.

(** A value appended to the form data. *)
Inductive FormValue : Type :=
  | FileValue (f : File)
  | TextValue (s : string).

(** The request of [handleUploadClick]: the processing mode of the query
    string and the entries of the form data. *)
Record UploadRequest : Type := mkUploadRequest {
  query_processing_mode : Mode;
  formData : list (string * FormValue)
}.

(** The validation of [handleUploadClick]. *)
Definition hasInput (st : State) : bool :=
  (String.eqb (activeTab st) "pdf" && bool_decide (is_Some (pitchDeck st)))
  || (String.eqb (activeTab st) "video" && bool_decide (is_Some (videoFile st)))
  || (String.eqb (activeTab st) "audio" && bool_decide (is_Some (audioFile st)))
  || (String.eqb (activeTab st) "text" && negb (blank (textInput st))).

(** The entries appended to the form data: those of the first branch of
    the [if ... else if] chain whose tab is active and whose input is
    there. *)
Definition formEntries (st : State) : list (string * FormValue) :=
  let onTab (tab : string) (f : option File) :=
    if String.eqb (activeTab st) tab then f else None in
  match onTab "pdf" (pitchDeck st) with
  | Some f => [("file", FileValue f)]
  | None =>
      match onTab "video" (videoFile st) with
      | Some f => [("file", FileValue f)]
      | None =>
          match onTab "audio" (audioFile st) with
          | Some f => [("file", FileValue f)]
          | None =>
              if String.eqb (activeTab st) "text" && negb (blank (textInput st))
              then [("text_input", TextValue (textInput st))]
              else []
          end
      end
  end.

(** [handleUploadClick] up to its [await]: without an input for the
    active tab it sets the error and returns. *)
Definition handleUploadClick_begin (st : State) : State * option UploadRequest :=
  if negb (hasInput st) then
    ({| activeTab := activeTab st; pitchDeck := pitchDeck st;
        videoFile := videoFile st; audioFile := audioFile st;
        textInput := textInput st;
        processingMode := processingMode st; isLoading := isLoading st;
        error := Some ("Please provide a "
                       +:+ (if String.eqb (activeTab st) "text"
                            then "text input" else "file")
                       +:+ " to upload.");
        toasts := toasts st |},
     None)
  else
    ({| activeTab := activeTab st; pitchDeck := pitchDeck st;
        videoFile := videoFile st; audioFile := audioFile st;
        textInput := textInput st;
        processingMode := processingMode st; isLoading := true;
        error := None; toasts := toasts st |},
     Some (mkUploadRequest (processingMode st) (formEntries st))).




(** The inputs that are there. *)
Definition inputsPresent (st : State) : nat :=
  let there (f : option File) := match f with Some _ => 1 | None => 0 end in
  there (pitchDeck st) + there (videoFile st) + there (audioFile st)
  + (if String.eqb (textInput st) "" then 0 else 1).

(** Only the input of the active tab is there. *)
Definition onlyActiveInput (st : State) : Prop :=
  (is_Some (pitchDeck st) -> activeTab st = "pdf")
  /\ (is_Some (videoFile st) -> activeTab st = "video")
  /\ (is_Some (audioFile st) -> activeTab st = "audio")
  /\ (textInput st <> "" -> activeTab st = "text").

End FileUpload.

(** ** Sample data *)
Module Samples.
Import Types.

(** A record that carries risk metrics, an investment decision and
    fact-check data, in the processing mode given. *)
Definition sampleMemo : Memo :=
  mkMemo (Some (mkMemoV1
    (Some (mkConclusion (Some "Strong") None None None None))
    (Some (mkRiskMetrics None (Some 42%Z) None)) None None)).

Definition sampleDeal (mode : option string) : AnalysisData :=
  mkAnalysisData "deal-1"
    (mkMetadata "2025-01-01T00:00:00Z" "Fintech" "deal-1" "Acme" ["Ada"] mode)
    (Some sampleMemo) None
    (Js.JsObject [("recommendation", Js.JsString "FUND")])
    (Js.JsObject [("claims", Js.JsArray [])]).

(** A record whose analysis has not produced anything yet. *)
Definition pendingDeal (mode : option string) : AnalysisData :=
  mkAnalysisData "deal-2"
    (mkMetadata "2025-01-02T00:00:00Z" "Health" "deal-2" "Beta" [] mode)
    None None Js.JsUndefined Js.JsUndefined.

(** A validated interview session with one question asked and an answer
    typed in. *)
Definition activeSession : InterviewPage.State :=
  let question :=
    InterviewPage.mkChatMessage InterviewPage.RoleAssistant
      "What is your current ARR?" "2025-01-03T10:00:00.000Z" in
  InterviewPage.mkState
    (Some (InterviewPage.mkValidationResponse true "deal-1" "Acme" "Fintech"
             "Ada" "active" 2%Z [question]))
    [question] "About 1.2M USD." false false None [].

(** A serialiser and a parser good for one history: the greeting for
    Acme, the question about ARR and the fallback message. *)
Definition askedOffline : list Chatbot.Message :=
  [Chatbot.greeting "Acme"; Chatbot.mkMessage Chatbot.RoleUser "What is your ARR?";
   Chatbot.FALLBACK].

Definition offlineStringify (ms : list Chatbot.Message) : string :=
  String.concat "|" (map Chatbot.content ms).

Definition offlineParse (s : string) : option (list Chatbot.Message) :=
  if String.eqb s (offlineStringify askedOffline) then Some askedOffline
  else None.

(** Weights that read 16.7, 16.7, 16.7, 16.6 and 33.3: the nearest
    binary64 numbers, written exactly. *)
Definition fractionalWeights : AnalysisDashboard.Weightages :=
  AnalysisDashboard.mkWeightages 0x1.0b33333333333p+4 0x1.0b33333333333p+4
    0x1.0b33333333333p+4 0x1.099999999999ap+4 0x1.0a66666666666p+5.

(** Stored weights whose first one is a unit in the last place above
    20. *)
Definition storedOffByUlp : gmap string float :=
  {[ "team_strength" := 0x1.4000000000001p+4%float ]}.

(** The dashboard with the weight dialog open on the default weights. *)
Definition dialogOpen : DashboardActions.RecalcState :=
  DashboardActions.mkRecalcState (pendingDeal None)
    (AnalysisDashboard.mkDialogState (AnalysisDashboard.initialWeights None)
       false)
    true [].


(** Three issues, two of which ask about the same field. *)
Definition issuesSharingField : list Types.InterviewIssue :=
  [Types.mkInterviewIssue "open" "What is your ARR?" "financials" "arr" "high";
   Types.mkInterviewIssue "open" "How is ARR computed?" "financials" "arr"
     "medium";
   Types.mkInterviewIssue "open" "Who are the founders?" "team" "founders"
     "critical"].


(** Picking a deck, switching to the text tab and typing a pitch. *)
Definition deckThenText : list FileUpload.Event :=
  [FileUpload.PickPitchDeck (Some (FileUpload.mkFile "deck.pdf"));
   FileUpload.ChangeTab "text";
   FileUpload.TypeText "We sell shovels."].

(** The upload form on the text tab with a pitch typed in. *)
Definition typedPitch : FileUpload.State :=
  FileUpload.mkState "text" None None None "We sell shovels." FileUpload.fast
    false None [].

(** An engine for the samples: V8's TypeError messages, and a text for
    numbers that is right for 0 only. *)
Definition sampleEngine : Js.Engine :=
  Js.mkEngine
    (fun _ => "0")
    (fun e =>
       match e with
       | Js.ReadOfNullish Js.JsNull name =>
           "Cannot read properties of null (reading '" +:+ name +:+ "')"
       | Js.ReadOfNullish _ name =>
           "Cannot read properties of undefined (reading '" +:+ name +:+ "')"
       | Js.NotPrimitive => "Cannot convert object to primitive value"
       end).

(** A 404 whose body is an HTML page, with the message V8's parser gives
    it. *)
Definition htmlNotFound : Http.Response InterviewPage.ValidateBody :=
  Http.mkResponse 404
    (Http.Unparsable "Unexpected token '<', <!DOCTYPE ... is not valid JSON").

(** A JSON error body with a [detail]. *)
Definition detailBody (detail : string) : InterviewPage.ValidateBody :=
  InterviewPage.ErrorBody (Js.JsObject [("detail", Js.JsString detail)])
    eq_refl.

(** The payload of an interview that is over. *)
Definition completedInterview : InterviewPage.ValidationResponse :=
  InterviewPage.mkValidationResponse true "deal-1" "Acme" "Fintech" "Ada"
    "completed" 0%Z
    [InterviewPage.mkChatMessage InterviewPage.RoleAssistant
       "Thank you, that is all." "2025-01-03T11:00:00.000Z"].

(** The chat widget with a greeting shown and a question typed in. *)
Definition openChat (storage : gmap string string) : Chatbot.State :=
  Chatbot.mkState [Chatbot.greeting "Acme"] "What is your ARR?" false storage.

(** Stand-ins for the platform's JSON functions at the type of the
    history, good for the empty history only. *)
Definition sampleStringify (ms : list Chatbot.Message) : string :=
  match ms with
  | [] => "[]"
  | _ => "[...]"
  end.

Definition sampleParse (s : string) : option (list Chatbot.Message) :=
  if String.eqb s "[]" then Some [] else None.

(** A dashboard listing two deals. *)
Definition twoDeals : InvestorDashboard.State :=
  InvestorDashboard.mkState [sampleDeal None; pendingDeal None] [].

(** The options of a JSON POST. *)
Definition postOptions : ApiClient.RequestInit :=
  ApiClient.mkRequestInit (Some "POST")
    [("Content-Type", "application/json")] (Some "{}").

(** Two firings: the first request fails, the second brings a record
    with an investment decision. *)
Definition twoPolls : list AnalysisDashboard.PollEvent :=
  [AnalysisDashboard.Tick;
   AnalysisDashboard.Settle (Http.Rejected "Failed to fetch");
   AnalysisDashboard.Tick;
   AnalysisDashboard.Settle
     (Http.Resolved (Http.mkResponse 200 (Http.Parsed (sampleDeal None))))].

(** Two firings before the first reply, which brings the decision. *)
Definition slowFirstReply : list AnalysisDashboard.PollEvent :=
  [AnalysisDashboard.Tick; AnalysisDashboard.Tick;
   AnalysisDashboard.Settle
     (Http.Resolved (Http.mkResponse 200 (Http.Parsed (sampleDeal None))))].

(** The dashboard after them: the decision is on screen, the interval is
    cleared and one request is still in flight. *)
Definition decidedMidPoll : AnalysisDashboard.PollState :=
  AnalysisDashboard.mkPollState (sampleDeal None)
    (Types.investment_decision (sampleDeal None)) false 0 2
    [10000; 20000]%Z 1 ["Investment Decision Ready"].

(** The reply to the other request, with the decision again. *)
Definition lateReply : list AnalysisDashboard.PollEvent :=
  [AnalysisDashboard.Settle
     (Http.Resolved (Http.mkResponse 200 (Http.Parsed (sampleDeal None))))].

End Samples.

(** * Properties *)

(** ** The JavaScript helpers on small inputs *)
Section JsExamples.
Import Js ApiClient.

Example trim_both_ends : trim "  What is  your ARR?	 " = "What is  your ARR?".
Proof. reflexivity. Qed.

Example blank_spaces : blank "   " = true.
Proof. reflexivity. Qed.

Example blank_empty : blank "" = true.
Proof. reflexivity. Qed.

Example not_blank : blank " a " = false.
Proof. reflexivity. Qed.

Lemma trimEnd_nonempty (s : string) :
  trimEnd s <> "" <-> exists c, In c (list_ascii_of_string s) /\ is_white_space c = false.
Proof.
  induction s as [|c rest IH]; simpl.
  - split; [congruence|intros (c & [] & _)].
  - destruct (trimEnd rest) as [|c' t] eqn:Ht.
    + destruct (is_white_space c) eqn:Hc.
      * split; [congruence|].
        intros (x & [<-|Hin] & Hx); [congruence|].
        exfalso. apply (proj2 IH); [eauto|reflexivity].
      * split; [intros _; exists c; auto|discriminate].
    + split; [|discriminate]. intros _.
      destruct (proj1 IH ltac:(discriminate)) as (x & Hin & Hx). eauto.
Qed.

Lemma trimStart_white (s : string) :
  (forall c, In c (list_ascii_of_string s) -> is_white_space c = true) ->
  trimStart s = "".
Proof.
  induction s as [|c rest IH]; simpl; [reflexivity|].
  intros Hall. rewrite (Hall c (or_introl eq_refl)). apply IH.
  intros x Hx. apply Hall. right. exact Hx.
Qed.

Lemma trimStart_keeps (s : string) (c : ascii) :
  In c (list_ascii_of_string s) -> is_white_space c = false ->
  In c (list_ascii_of_string (trimStart s)).
Proof.
  induction s as [|a rest IH]; simpl; [tauto|].
  intros [<-|Hin] Hc.
  - rewrite Hc. left. reflexivity.
  - destruct (is_white_space a); [apply IH; assumption|right; exact Hin].
Qed.

(** A string is blank exactly when it is made of white space only. *)
Lemma blank_spec (s : string) :
  blank s = true <->
  forall c, In c (list_ascii_of_string s) -> is_white_space c = true.
Proof.
  unfold blank, trim. rewrite String.eqb_eq. split.
  - intros Hempty c Hin. destruct (is_white_space c) eqn:Hc; [reflexivity|].
    exfalso. apply (proj2 (trimEnd_nonempty (trimStart s))); [|exact Hempty].
    exists c. split; [apply trimStart_keeps; assumption|exact Hc].
  - intros Hall. rewrite trimStart_white; [reflexivity|exact Hall].
Qed.

Example lower_name : lower "Content-Type" = "content-type".
Proof. reflexivity. Qed.

Example set_replaces_all :
  Headers_set (Headers_new [("authorization", "a"); ("X-Id", "7");
                            ("Authorization", "b")])
    "Authorization" "Bearer t"
  = [("authorization", "Bearer t"); ("x-id", "7")].
Proof. reflexivity. Qed.

End JsExamples.

(** ** The weighted recalculation dialog *)
Section RecalculationDialog.
Import Js AnalysisDashboard Samples.

Lemma totalWeight_sum (w : Weightages) :
  totalWeight w =
  (0 + teamStrength w + marketOpportunity w + traction w
   + claimCredibility w + financialHealth w)%float.
Proof. reflexivity. Qed.

Lemma generateDisabled_spec (st : DialogState) :
  generateDisabled st = true <->
  (totalWeight (weights st) =? 100)%float = false
  \/ isRecalculating st = true.
Proof.
  unfold generateDisabled.
  rewrite orb_true_iff, negb_true_iff. reflexivity.
Qed.

(** The total is the rounded one: five weights that read 16.7, 16.7,
    16.7, 16.6 and 33.3 total 99.999999999999986, and a first weight one
    unit in the last place above 20 is lost in the total of 100. *)
Lemma totalWeight_is_rounded :
  (totalWeight fractionalWeights =? 100)%float = false
  /\ (totalWeight (mkWeightages 0x1.4000000000001p+4 20 20 20 20)
      =? 100)%float = true
  /\ (0x1.4000000000001p+4 =? 20)%float = false.
Proof. split; [|split]; vm_compute; reflexivity. Qed.

(** C1, as stated, fails: with the five weights at 20 each (total 100) and
    a recalculation already running, the button is disabled, so it is not
    enabled exactly when the weights total 100. *)
Lemma generate_enabled_not_only_sum :
  ~ (forall st : DialogState,
       generateEnabled st = true <->
       (totalWeight (weights st) =? 100)%float = true).
Proof.
  intros H.
  pose (st := mkDialogState (mkWeightages 20 20 20 20 20) true).
  destruct (H st) as [_ Hsum].
  assert (Hen : generateEnabled st = true) by (apply Hsum; reflexivity).
  discriminate Hen.
Qed.

(** C1 (amended): for every five weights, any binary64 numbers, the
    Generate Summary button is enabled exactly when the total the
    component computes from them (the weights added to 0 in field order,
    as JavaScript adds numbers) equals 100 and no recalculation is
    already running; for any other total it is disabled and a click on it issues
    no request and changes nothing; when it is enabled a click issues
    the request carrying exactly the five weights. *)
Theorem generate_enabled_iff (sid : string) (st : DialogState) :
  totalWeight (weights st)
  = (0 + teamStrength (weights st) + marketOpportunity (weights st)
     + traction (weights st) + claimCredibility (weights st)
     + financialHealth (weights st))%float
  /\ (generateEnabled st = true <->
     (totalWeight (weights st) =? 100)%float = true
     /\ isRecalculating st = false)
  /\ ((totalWeight (weights st) =? 100)%float = false ->
        generateDisabled st = true /\ clickGenerate sid st = (st, None))
  /\ (generateEnabled st = true ->
        snd (clickGenerate sid st) =
        Some (mkRecalcRequest sid
                (teamStrength (weights st)) (marketOpportunity (weights st))
                (traction (weights st)) (claimCredibility (weights st))
                (financialHealth (weights st)))).
Proof.
  split; [apply totalWeight_sum|]. split; [|split].
  - unfold generateEnabled. rewrite negb_true_iff.
    destruct (generateDisabled st) eqn:Hd.
    + apply generateDisabled_spec in Hd. split; [discriminate|].
      intros [Hsum Hbusy]. destruct Hd as [Hd|Hd]; congruence.
    + split; [intros _|reflexivity].
      unfold generateDisabled in Hd. apply orb_false_iff in Hd as [Hs Hb].
      apply negb_false_iff in Hs. auto.
  - intros Hne.
    assert (Hd : generateDisabled st = true)
      by (apply generateDisabled_spec; auto).
    split; [exact Hd|]. unfold clickGenerate. rewrite Hd. reflexivity.
  - unfold generateEnabled. rewrite negb_true_iff. intros Hd.
    unfold clickGenerate. rewrite Hd. reflexivity.
Qed.

(** The amended statement at the default weights, and at weights that
    read 16.7, 16.7, 16.7, 16.6 and 33.3, whose rounded total is not
    100. *)
Lemma generate_enabled_iff_witness :
  generateEnabled (mkDialogState (initialWeights None) false) = true
  /\ clickGenerate "deal-1" (mkDialogState fractionalWeights false)
     = (mkDialogState fractionalWeights false, None).
Proof.
  split.
  - apply (proj1 (proj2 (generate_enabled_iff "deal-1"
                    (mkDialogState (initialWeights None) false)))).
    split; reflexivity.
  - apply (proj1 (proj2 (proj2 (generate_enabled_iff "deal-1"
                    (mkDialogState fractionalWeights false))))).
    vm_compute. reflexivity.
Defined.

End RecalculationDialog.

(** ** The tab list of the analysis dashboard *)
Section DashboardTabs.
Import Types AnalysisDashboard Samples.

Lemma tabsList_fast (d : AnalysisData) :
  notFast d = false ->
  tabsList d =
    [TabOverview; TabMarket; TabModel; TabFinancials]
    ++ (if showIssuesTab d then [TabIssues] else [])
    ++ (if showInsightsTab d then [TabInsights] else []).
Proof.
  intros H. unfold tabsList. rewrite H.
  destruct (showIssuesTab d), (showInsightsTab d); reflexivity.
Qed.

Lemma notFast_spec (d : AnalysisData) :
  notFast d = false <-> processing_mode (metadata d) = Some "fast".
Proof.
  unfold notFast. destruct (processing_mode (metadata d)) as [m|].
  - rewrite negb_false_iff, String.eqb_eq. split; congruence.
  - split; discriminate.
Qed.

(** C3: when [processing_mode] is ["fast"] the tab list has none of the
    Risks, Fund Decision and Fact Check tabs, whatever else the record
    holds (risk metrics, an investment decision, fact-check data); for
    any other processing mode, or none, it has all three. *)
Theorem tabs_hidden_iff_fast (d : AnalysisData) :
  (processing_mode (metadata d) = Some "fast" ->
     (TabRisks ∉ tabsList d) /\ (TabDecision ∉ tabsList d)
     /\ (TabFactCheck ∉ tabsList d))
  /\ (processing_mode (metadata d) <> Some "fast" ->
     (TabRisks ∈ tabsList d) /\ (TabDecision ∈ tabsList d)
     /\ (TabFactCheck ∈ tabsList d)).
Proof.
  split; intros Hmode.
  - apply notFast_spec in Hmode. rewrite (tabsList_fast d Hmode).
    destruct (showIssuesTab d), (showInsightsTab d); simpl;
      repeat split; rewrite list_elem_of_In; simpl; intuition discriminate.
  - assert (Hnf : notFast d = true).
    { destruct (notFast d) eqn:E; [reflexivity|].
      apply notFast_spec in E. contradiction. }
    unfold tabsList. rewrite Hnf.
    destruct (showIssuesTab d), (showInsightsTab d); simpl;
      repeat split; rewrite list_elem_of_In; simpl; intuition.
Qed.

Lemma tabs_hidden_iff_fast_witness :
  ((TabRisks ∉ tabsList (sampleDeal (Some "fast")))
   /\ (TabDecision ∉ tabsList (sampleDeal (Some "fast")))
   /\ (TabFactCheck ∉ tabsList (sampleDeal (Some "fast"))))
  /\ ((TabRisks ∈ tabsList (sampleDeal (Some "research")))
      /\ (TabDecision ∈ tabsList (sampleDeal (Some "research")))
      /\ (TabFactCheck ∈ tabsList (sampleDeal (Some "research")))).
Proof.
  split.
  - apply (proj1 (tabs_hidden_iff_fast (sampleDeal (Some "fast")))).
    reflexivity.
  - apply (proj2 (tabs_hidden_iff_fast (sampleDeal (Some "research")))).
    simpl. discriminate.
Defined.

End DashboardTabs.

(** ** Polling for the investment decision *)
Section Polling.
Import Js Types AnalysisDashboard Samples.
Local Open Scope Z_scope.

Lemma schedule_S (t0 : Z) (n : nat) :
  schedule t0 (S n) = schedule t0 n ++ [t0 + POLL_INTERVAL_MS * Z.of_nat (S n)].
Proof. unfold schedule. rewrite seq_S, map_app. reflexivity. Qed.

Lemma onSettle_interval (o : Http.FetchResult AnalysisData) (st : PollState) :
  pollInterval (onSettle o st) =
  pollInterval st && match decisionIn o with Some _ => false | None => true end.
Proof.
  unfold onSettle. destruct (decisionIn o); simpl.
  - rewrite andb_false_r. reflexivity.
  - rewrite andb_true_r. reflexivity.
Qed.

Lemma onSettle_log (o : Http.FetchResult AnalysisData) (st : PollState) :
  startedAt (onSettle o st) = startedAt st
  /\ fired (onSettle o st) = fired st
  /\ requests (onSettle o st) = requests st.
Proof. unfold onSettle. destruct (decisionIn o); auto. Qed.

(** One step: the interval survives exactly the events that keep it. *)
Lemma pollStep_interval (st st' : PollState) (e : PollEvent) :
  pollStep st e = Some st' ->
  pollInterval st' = pollInterval st && keepsPolling e.
Proof.
  destruct e as [|o|]; simpl.
  - destruct (pollInterval st); [|discriminate].
    intros [= <-]. reflexivity.
  - destruct (inFlight st); [discriminate|].
    intros [= <-]. rewrite onSettle_interval. reflexivity.
  - intros [= <-]. simpl. rewrite andb_false_r. reflexivity.
Qed.

Lemma pollRun_interval (trace : list PollEvent) :
  forall st st', pollRun st trace = Some st' ->
  pollInterval st' = pollInterval st && forallb keepsPolling trace.
Proof.
  induction trace as [|e rest IH]; intros st st'; simpl.
  - intros [= <-]. rewrite andb_true_r. reflexivity.
  - destruct (pollStep st e) as [st1|] eqn:Hstep; [|discriminate].
    intros Hrun. rewrite (IH _ _ Hrun), (pollStep_interval _ _ _ Hstep).
    rewrite andb_assoc. reflexivity.
Qed.

Lemma pollStep_schedule (st st' : PollState) (e : PollEvent) :
  onSchedule st -> pollStep st e = Some st' ->
  onSchedule st' /\ startedAt st' = startedAt st.
Proof.
  unfold onSchedule. intros Hinv. destruct e as [|o|]; simpl.
  - destruct (pollInterval st); [|discriminate].
    intros [= <-]. simpl. rewrite schedule_S, Hinv. auto.
  - destruct (inFlight st); [discriminate|].
    intros [= <-].
    match goal with |- context [onSettle o ?s] =>
      destruct (onSettle_log o s) as (-> & -> & ->) end.
    simpl. auto.
  - intros [= <-]. simpl. auto.
Qed.

Lemma pollRun_schedule (trace : list PollEvent) :
  forall st st', onSchedule st -> pollRun st trace = Some st' ->
  onSchedule st' /\ startedAt st' = startedAt st.
Proof.
  induction trace as [|e rest IH]; intros st st' Hinv; simpl.
  - intros [= <-]. auto.
  - destruct (pollStep st e) as [st1|] eqn:Hstep; [|discriminate].
    intros Hrun.
    destruct (pollStep_schedule _ _ _ Hinv Hstep) as [Hinv1 Hs1].
    destruct (IH _ _ Hinv1 Hrun) as [Hinv' Hs']. split; congruence.
Qed.

(** However often it has fired, a live interval fires again. *)
Lemma pollRun_ticks (n : nat) :
  forall st, pollInterval st = true ->
  exists st', pollRun st (repeat Tick n) = Some st'
              /\ pollInterval st' = true
              /\ fired st' = (fired st + n)%nat.
Proof.
  induction n as [|n IH]; intros st Hlive; simpl.
  - exists st. rewrite Nat.add_0_r. auto.
  - rewrite Hlive.
    match goal with |- context [pollRun ?s _] =>
      destruct (IH s eq_refl) as (st' & Hrun & Hlive' & Hfired) end.
    exists st'. simpl in Hfired. repeat split; [exact Hrun|exact Hlive'|lia].
Qed.

Lemma decisionIn_spec (o : Http.FetchResult AnalysisData) (u : AnalysisData) :
  decisionIn o = Some u <->
  exists r, o = Http.Resolved r /\ Http.ok r = true
            /\ Http.json r = Http.Parsed u
            /\ truthy (investment_decision u) = true.
Proof.
  split.
  - destruct o as [m|r]; simpl; [discriminate|].
    destruct (Http.ok r) eqn:Hok; [|discriminate].
    destruct (Http.json r) as [b|m] eqn:Hjson; [|discriminate].
    destruct (truthy (investment_decision b)) eqn:Ht; [|discriminate].
    intros [= <-]. exists r. auto.
  - intros (r & -> & Hok & Hjson & Ht). simpl.
    rewrite Hok, Hjson, Ht. reflexivity.
Qed.

(** C2: for a record without an investment decision the effect registers
    an interval of 10000 ms. A settled request counts as bringing the
    decision exactly when it resolved with an ok status and a body that
    parses to a record whose [investment_decision] is truthy. After any
    sequence of firings, settled requests and cleanups, the interval is
    still registered exactly when no settled request brought the decision
    and the effect's cleanup did not run; the requests issued so far went
    out 10000 ms, 20000 ms, ... after the effect ran, one per firing (no
    backoff); and for every [n] the interval fires [n] times in a row and
    is still registered afterwards (no maximum number of attempts). *)
Theorem polling_until_decision (now : Z) (d : AnalysisData) :
  truthy (investment_decision d) = false ->
  POLL_INTERVAL_MS = 10000
  /\ pollInterval (pollEffect now d) = true
  /\ (forall o, keepsPolling (Settle o) = false <->
        exists r u, o = Http.Resolved r /\ Http.ok r = true
                    /\ Http.json r = Http.Parsed u
                    /\ truthy (investment_decision u) = true)
  /\ keepsPolling Tick = true /\ keepsPolling Cleanup = false
  /\ (forall trace st',
        pollRun (pollEffect now d) trace = Some st' ->
        (pollInterval st' = true <-> forallb keepsPolling trace = true)
        /\ requests st' =
           map (fun k => now + 10000 * Z.of_nat (S k)) (seq 0 (fired st')))
  /\ (forall n, exists st',
        pollRun (pollEffect now d) (repeat Tick n) = Some st'
        /\ pollInterval st' = true /\ length (requests st') = n).
Proof.
  intros Hnone.
  assert (Hlive : pollInterval (pollEffect now d) = true)
    by (simpl; rewrite Hnone; reflexivity).
  assert (Hsched : onSchedule (pollEffect now d)) by reflexivity.
  split; [reflexivity|]. split; [exact Hlive|].
  split; [|split; [reflexivity|split; [reflexivity|split]]].
  - intros o. simpl. split.
    + destruct (decisionIn o) as [u|] eqn:Hdec; [|discriminate].
      intros _. apply decisionIn_spec in Hdec as (r & Hr).
      exists r, u. exact Hr.
    + intros (r & u & Hr).
      assert (Hdec : decisionIn o = Some u)
        by (apply decisionIn_spec; exists r; exact Hr).
      rewrite Hdec. reflexivity.
  - intros trace st' Hrun. split.
    + rewrite (pollRun_interval _ _ _ Hrun), Hlive. reflexivity.
    + destruct (pollRun_schedule _ _ _ Hsched Hrun) as [Hinv Hstart].
      unfold onSchedule in Hinv. rewrite Hinv, Hstart. reflexivity.
  - intros n. destruct (pollRun_ticks n _ Hlive) as (st' & Hrun & Hl & Hf).
    exists st'. split; [exact Hrun|]. split; [exact Hl|].
    destruct (pollRun_schedule _ _ _ Hsched Hrun) as [Hinv _].
    unfold onSchedule in Hinv. rewrite Hinv. unfold schedule.
    rewrite length_map, length_seq, Hf. reflexivity.
Qed.

(** A pending deal polled twice: the first request fails, the second
    brings the decision and the interval is cleared; and three firings
    in a row with the interval still registered. *)
Lemma polling_until_decision_witness :
  (pollInterval <$> pollRun (pollEffect 0 (pendingDeal None)) twoPolls
   = Some false)
  /\ (requests <$> pollRun (pollEffect 0 (pendingDeal None)) twoPolls
      = Some [10000; 20000])
  /\ (exists st',
        pollRun (pollEffect 0 (pendingDeal None)) (repeat Tick 3) = Some st'
        /\ pollInterval st' = true /\ length (requests st') = 3%nat).
Proof.
  pose proof (polling_until_decision 0 (pendingDeal None) eq_refl)
    as (_ & _ & _ & _ & _ & Hrun & Hmany).
  destruct (pollRun (pollEffect 0 (pendingDeal None)) twoPolls)
    as [st'|] eqn:Hst'; [|vm_compute in Hst'; discriminate Hst'].
  destruct (Hrun _ _ Hst') as [Hiff Hreq].
  split; [|split; [|exact (Hmany 3%nat)]]; simpl.
  - destruct (pollInterval st'); [|reflexivity].
    destruct Hiff as [Hiff _]. specialize (Hiff eq_refl). discriminate Hiff.
  - rewrite Hreq. vm_compute in Hst'. injection Hst' as <-. reflexivity.
Defined.

End Polling.

(** ** The public interview page *)
Section Interview.
Import Js InterviewPage Samples.
Local Open Scope Z_scope.

Lemma sendFailed_spec (outcome : Http.FetchResult ChatReply) :
  sendFailed outcome = true <->
  (exists m, outcome = Http.Rejected m)
  \/ (exists r, outcome = Http.Resolved r
                /\ ((exists m, Http.json r = Http.Unparsable m)
                    \/ Http.ok r = false)).
Proof.
  unfold sendFailed, sendOutcome. destruct outcome as [m|r].
  - split; [intros _; left; eauto|reflexivity].
  - destruct (Http.json r) as [b|m] eqn:Hjson.
    + destruct (Http.ok r) eqn:Hok; simpl.
      * split; [discriminate|].
        intros [[m Hm]|(r' & Hr & [[m Hm]|Hf])]; congruence.
      * split; [intros _; right; exists r; auto|reflexivity].
    + split; [intros _; right; exists r; eauto|reflexivity].
Qed.

(** C4: a message that is not blank, sent with a token, is appended to
    the history at once and posted with the token as it is; if the
    request fails (the fetch rejects, the body does not parse, or the
    status is not ok) the history is set back to the list the handler
    started from, and a destructive toast is shown. *)
Theorem send_rolls_back_on_failure
  (token now later : string) (st : State) (outcome : Http.FetchResult ChatReply) :
  blank (input st) = false -> token <> "" ->
  let st1 := fst (handleSendMessage_begin token now st) in
  let st2 := handleSendMessage_end (messages st) outcome later st1 in
  messages st1 = messages st ++ [mkChatMessage RoleUser (input st) now]
  /\ snd (handleSendMessage_begin token now st)
     = Some (mkChatRequest token (input st))
  /\ (sendFailed outcome = true ->
        messages st2 = messages st
        /\ exists m, toasts st2 = toasts st ++ [Toast.mk Toast.Destructive "Error" m])
  /\ (sendFailed outcome = false ->
        exists text,
          messages st2 = messages st
                         ++ [mkChatMessage RoleUser (input st) now]
                         ++ [mkChatMessage RoleAssistant text later])
  /\ (sendFailed outcome = true <->
        (exists m, outcome = Http.Rejected m)
        \/ (exists r, outcome = Http.Resolved r
                      /\ ((exists m, Http.json r = Http.Unparsable m)
                          \/ Http.ok r = false))).
Proof.
  intros Hblank Htoken.
  pose proof (sendFailed_spec outcome) as Hspec.
  assert (Hguard : blank (input st) || String.eqb token "" = false).
  { rewrite Hblank. simpl. apply String.eqb_neq. exact Htoken. }
  unfold handleSendMessage_begin. rewrite Hguard. simpl.
  unfold sendFailed, handleSendMessage_end.
  split; [reflexivity|]. split; [reflexivity|].
  split; [|split; [|exact Hspec]]; clear Hspec;
    destruct (sendOutcome outcome) as [m|text]; simpl;
    try discriminate; intros _.
  - split; [reflexivity|]. exists m. reflexivity.
  - exists text. rewrite <- app_assoc. reflexivity.
Qed.

(** An answer sent while offline: the history is back to the question
    alone. *)
Lemma send_rolls_back_on_failure_witness :
  messages
    (handleSendMessage_end (messages activeSession)
       (Http.Rejected "Failed to fetch") "2025-01-03T10:01:05.000Z"
       (fst (handleSendMessage_begin "tok-123" "2025-01-03T10:01:00.000Z"
               activeSession)))
  = messages activeSession.
Proof.
  pose proof (send_rolls_back_on_failure "tok-123" "2025-01-03T10:01:00.000Z"
                "2025-01-03T10:01:05.000Z" activeSession
                (Http.Rejected "Failed to fetch")) as H.
  cbv zeta in H.
  destruct H as (_ & _ & Hfail & _ & _); [reflexivity|discriminate|].
  apply Hfail. reflexivity.
Defined.

Lemma status_403_404_not_ok {T} (r : Http.Response T) :
  Http.status r = 403 \/ Http.status r = 404 -> Http.ok r = false.
Proof. unfold Http.ok. intros [-> | ->]; reflexivity. Qed.

Lemma render_error (st : State) (m : string) :
  isLoading st = false -> error st = Some m -> m <> "" ->
  render st = ValidationFailed "Validation Failed" m.
Proof.
  intros Hl He Hm. unfold render. rewrite Hl, He. simpl.
  apply String.eqb_neq in Hm. rewrite Hm. reflexivity.
Qed.

Lemma render_no_data (st : State) :
  validationData st = None -> isChat (render st) = false.
Proof.
  intros Hv. unfold render.
  destruct (isLoading st); [reflexivity|].
  destruct (truthy_str (error st)); [reflexivity|].
  rewrite Hv. reflexivity.
Qed.

Lemma validateToken_begin_fresh (token : string) :
  token <> "" -> validateToken_begin token initialState = initialState.
Proof.
  intros Htoken. unfold validateToken_begin. apply String.eqb_neq in Htoken.
  rewrite Htoken. reflexivity.
Qed.

(** What the page shows once [validateToken] threw: no validation data,
    never the chat; the error panel, which has no control, when the
    message is not empty, and the not-found page when it is. *)
Lemma validate_thrown (engine : Engine) (token m : string)
  (outcome : Http.FetchResult ValidateBody) :
  token <> "" -> validateOutcome engine outcome = inl m ->
  let st := validateToken engine token outcome in
  error st = Some m
  /\ validationData st = None
  /\ isChat (render st) = false
  /\ (m <> "" ->
      render st = ValidationFailed "Validation Failed" m
      /\ controls (render st) = [])
  /\ (m = "" -> render st = NotFound).
Proof.
  intros Htoken Hout. cbv zeta. unfold validateToken, validateToken_end.
  rewrite (validateToken_begin_fresh token Htoken), Hout.
  split; [reflexivity|]. split; [reflexivity|].
  split; [apply render_no_data; reflexivity|]. split.
  - intros Hne.
    match goal with |- render ?s = _ /\ _ =>
      rewrite (render_error s m eq_refl eq_refl Hne) end.
    split; reflexivity.
  - intros ->. reflexivity.
Qed.

(** The message a 403 or a 404 with a JSON body ends on: the text of a
    [detail] that is a string and not empty; the fixed message when the
    body is not [null] and has no [detail], or a falsy one; the message of
    a TypeError when the body is [null]. *)
Lemma deniedMessage_cases (engine : Engine) (errorData : JsValue) :
  (forall d, nullish errorData = false ->
     getProperty "detail" errorData = JsString d -> d <> "" ->
     deniedMessage engine errorData = d)
  /\ (nullish errorData = false ->
      truthy (getProperty "detail" errorData) = false ->
      deniedMessage engine errorData = INVALID_OR_EXPIRED)
  /\ (nullish errorData = true ->
      deniedMessage engine errorData
      = TypeError_message engine (ReadOfNullish errorData "detail")).
Proof.
  unfold deniedMessage. split; [|split].
  - intros d -> -> Hd. simpl. apply String.eqb_neq in Hd. rewrite Hd.
    reflexivity.
  - intros -> ->. reflexivity.
  - intros ->. reflexivity.
Qed.

(** For a token whose validation returns 403 or 404, or an ok response
    whose payload has [valid = false], the page shows the validating
    spinner and then never the chat view, and no validation data is
    stored. The message it ends on is the fixed one for every
    [valid = false] payload, [deniedMessage] of a JSON error body, and,
    when the body of a 403 or 404 is not JSON, the message of the parse
    exception. *)
Lemma validate_failure_is_terminal
  (engine : Engine) (token : string) (r : Http.Response ValidateBody) :
  token <> "" ->
  (Http.status r = 403 \/ Http.status r = 404)
  \/ (Http.ok r = true
      /\ exists data, Http.json r = Http.Parsed (ValidationBody data)
                      /\ valid data = false) ->
  let st := validateToken engine token (Http.Resolved r) in
  render (validateToken_begin token initialState) = Validating
  /\ validationData st = None
  /\ isChat (render st) = false
  /\ exists m,
       error st = Some m
       /\ (m <> "" ->
           render st = ValidationFailed "Validation Failed" m
           /\ controls (render st) = [])
       /\ match Http.json r with
          | Http.Parsed (ValidationBody _) => m = INVALID_OR_EXPIRED
          | Http.Parsed (ErrorBody errorData _) =>
              m = deniedMessage engine errorData
          | Http.Unparsable e => m = e
          end.
Proof.
  intros Htoken Hcase. cbv zeta.
  assert (Hthrown : exists m, validateOutcome engine (Http.Resolved r) = inl m
            /\ match Http.json r with
               | Http.Parsed (ValidationBody _) => m = INVALID_OR_EXPIRED
               | Http.Parsed (ErrorBody errorData _) =>
                   m = deniedMessage engine errorData
               | Http.Unparsable e => m = e
               end).
  { unfold validateOutcome.
    destruct Hcase as [Hstatus|(Hok & data & Hjson & Hvalid)].
    - rewrite (status_403_404_not_ok r Hstatus). simpl.
      assert (Hs : (Http.status r =? 404) || (Http.status r =? 403) = true).
      { destruct Hstatus as [-> | ->]; reflexivity. }
      rewrite Hs. destruct (Http.json r) as [[errorData Hno|data]|e];
        eexists; split; reflexivity.
    - rewrite Hok, Hjson, Hvalid. simpl. eexists. split; reflexivity. }
  destruct Hthrown as (m & Hout & Hm).
  destruct (validate_thrown engine token m (Http.Resolved r) Htoken Hout)
    as (Herr & Hdata & Hchat & Hpanel & _).
  rewrite (validateToken_begin_fresh token Htoken).
  split; [reflexivity|]. split; [exact Hdata|]. split; [exact Hchat|].
  exists m. split; [exact Herr|]. split; [exact Hpanel|exact Hm].
Qed.

(** The claim's reading of the message, refuted: after a 403 or a 404 the
    panel does not always show a [detail] the backend sent or the fixed
    message. A 404 whose body is not JSON (here an HTML page) has no
    [detail], yet the panel shows the message of the exception
    [response.json()] threw. *)
Lemma validate_message_not_detail_or_fixed :
  ~ (forall (engine : Engine) (token : string)
            (r : Http.Response ValidateBody),
       token <> "" -> Http.status r = 403 \/ Http.status r = 404 ->
       exists m,
         render (validateToken engine token (Http.Resolved r))
         = ValidationFailed "Validation Failed" m
         /\ ((exists errorData Hno,
                Http.json r = Http.Parsed (ErrorBody errorData Hno)
                /\ getProperty "detail" errorData = JsString m)
             \/ m = INVALID_OR_EXPIRED)).
Proof.
  intros H.
  destruct (H sampleEngine "tok-123" htmlNotFound
              ltac:(discriminate) ltac:(right; reflexivity))
    as (m & Hrender & Hm).
  vm_compute in Hrender. injection Hrender as <-.
  destruct Hm as [(errorData & Hno & Hjson & _)|Hfixed];
    [discriminate Hjson|discriminate Hfixed].
Qed.

(** C7, the code at the failing input: a token whose validation returns
    403 or 404 with a body that is not JSON. [response.json()] is awaited
    without a guard, so its rejection is what the [catch] block stores:
    the page still ends on the error panel, which has no control, stores
    no validation data and never shows the chat, but the panel's message
    is the parser's own, whatever it is, where the claim has the fixed
    invalid or expired message, the body carrying no [detail]. *)
Theorem validate_unparsable_denial_shows_parser_message
  (engine : Engine) (token e : string) (r : Http.Response ValidateBody) :
  token <> "" -> Http.status r = 403 \/ Http.status r = 404 ->
  Http.json r = Http.Unparsable e ->
  let st := validateToken engine token (Http.Resolved r) in
  error st = Some e
  /\ validationData st = None
  /\ isChat (render st) = false
  /\ (e <> "" ->
      render st = ValidationFailed "Validation Failed" e
      /\ controls (render st) = []).
Proof.
  intros Htoken Hstatus Hjson. cbv zeta.
  assert (Hout : validateOutcome engine (Http.Resolved r) = inl e).
  { unfold validateOutcome. rewrite (status_403_404_not_ok r Hstatus). simpl.
    assert (Hs : (Http.status r =? 404) || (Http.status r =? 403) = true).
    { destruct Hstatus as [-> | ->]; reflexivity. }
    rewrite Hs, Hjson. reflexivity. }
  destruct (validate_thrown engine token e (Http.Resolved r) Htoken Hout)
    as (Herr & Hdata & Hchat & Hpanel & _).
  split; [exact Herr|]. split; [exact Hdata|]. split; [exact Hchat|].
  exact Hpanel.
Qed.

(** A 404 answered by a proxy with an HTML page. *)
Lemma validate_unparsable_denial_shows_parser_message_witness :
  render (validateToken sampleEngine "tok-123" (Http.Resolved htmlNotFound))
  = ValidationFailed "Validation Failed"
      "Unexpected token '<', <!DOCTYPE ... is not valid JSON".
Proof.
  pose proof (validate_unparsable_denial_shows_parser_message sampleEngine
                "tok-123"
                "Unexpected token '<', <!DOCTYPE ... is not valid JSON"
                htmlNotFound
                ltac:(discriminate) ltac:(right; reflexivity) eq_refl) as H.
  cbv zeta in H. destruct H as (_ & _ & _ & Hpanel).
  apply Hpanel. discriminate.
Defined.

End Interview.

(** ** The per-deal chat widget *)
Section ChatWidget.
Import Js Types Chatbot Samples.

Variable JSON_stringify : list Message -> string.
Variable JSON_parse : string -> option (list Message).

(** The empty string is not a JSON text. *)
Hypothesis JSON_parse_empty : JSON_parse "" = None.

Lemma chat_sendFailed_spec (outcome : Http.FetchResult ChatReply) :
  sendFailed outcome = true <->
  (exists m, outcome = Http.Rejected m)
  \/ (exists r, outcome = Http.Resolved r
                /\ (Http.ok r = false
                    \/ exists m, Http.json r = Http.Unparsable m)).
Proof.
  unfold sendFailed, sendOutcome. destruct outcome as [m|r].
  - split; [intros _; left; eauto|reflexivity].
  - destruct (Http.ok r) eqn:Hok; simpl.
    + destruct (Http.json r) as [b|m] eqn:Hjson.
      * split; [discriminate|].
        intros [[m Hm]|(r' & Hr & [Hf|[m Hm]])]; congruence.
      * split; [intros _; right; exists r; eauto|reflexivity].
    + split; [intros _; right; exists r; auto|reflexivity].
Qed.

(** C5: a message that is not blank is appended to the history at once;
    if the request fails (the fetch rejects, the status is not ok, or the
    body does not parse) exactly one fallback message from the model
    follows it and nothing is rolled back: the history is the one before
    the send, then the user's message, then the fallback. *)
Theorem chat_failure_appends_fallback
  (data : AnalysisData) (st : State) (outcome : Http.FetchResult ChatReply) :
  blank (input st) = false ->
  let userMessage := mkMessage RoleUser (input st) in
  let st1 := fst (handleSendMessage_begin JSON_stringify data st) in
  let st2 := handleSendMessage_end JSON_stringify data
               (messages st ++ [userMessage]) outcome st1 in
  messages st1 = messages st ++ [userMessage]
  /\ snd (handleSendMessage_begin JSON_stringify data st)
     = Some (mkChatRequest (deal_id (metadata data)) (input st) (messages st))
  /\ (sendFailed outcome = true ->
        messages st2 = messages st ++ [userMessage] ++ [FALLBACK])
  /\ FALLBACK
     = mkMessage RoleModel "Sorry, I encountered an error. Please try again."
  /\ (sendFailed outcome = true <->
        (exists m, outcome = Http.Rejected m)
        \/ (exists r, outcome = Http.Resolved r
                      /\ (Http.ok r = false
                          \/ exists m, Http.json r = Http.Unparsable m))).
Proof.
  intros Hblank. cbv zeta.
  unfold handleSendMessage_begin. rewrite Hblank. simpl.
  split; [reflexivity|]. split; [reflexivity|].
  split; [|split; [reflexivity|apply chat_sendFailed_spec]].
  unfold sendFailed. destruct (sendOutcome outcome); [discriminate|].
  intros _. rewrite <- app_assoc. reflexivity.
Qed.

Lemma loadHistory_greets (data : AnalysisData) (st : State) :
  (localStorage st !! storageKey (deal_id (metadata data)) = None
   \/ exists s, localStorage st !! storageKey (deal_id (metadata data)) = Some s
                /\ JSON_parse s = None) ->
  loadHistory JSON_parse data st = initializeChat data st.
Proof.
  unfold loadHistory. intros [Hnone|(s & Hsome & Hparse)].
  - rewrite Hnone. reflexivity.
  - rewrite Hsome. simpl. rewrite Hparse.
    destruct (String.eqb s ""); reflexivity.
Qed.

(** C10: on mount the widget reads [chat_history_<dealId>] from local
    storage. When nothing is stored, or what is stored does not parse as
    JSON, loading still yields a state, whose history is exactly one
    message, the greeting from the model; a stored value that parses
    becomes the history as a whole. *)
Theorem load_history_or_greet
  (data : AnalysisData) (storage : gmap string string) :
  let st := loadHistory JSON_parse data (initialState storage) in
  let saved := storage !! ("chat_history_" +:+ deal_id (metadata data)) in
  (saved = None -> messages st = [greeting (company_name (metadata data))])
  /\ (forall s, saved = Some s -> JSON_parse s = None ->
        messages st = [greeting (company_name (metadata data))])
  /\ (forall s parsed, saved = Some s -> JSON_parse s = Some parsed ->
        messages st = parsed)
  /\ role (greeting (company_name (metadata data))) = RoleModel
  /\ localStorage st = storage.
Proof.
  cbv zeta. fold (storageKey (deal_id (metadata data))).
  split; [|split; [|split; [|split]]].
  - intros Hnone. rewrite loadHistory_greets; [reflexivity|]. left. exact Hnone.
  - intros s Hsome Hparse. rewrite loadHistory_greets; [reflexivity|].
    right. exists s. auto.
  - intros s parsed Hsome Hparse. unfold loadHistory. simpl.
    rewrite Hsome. simpl.
    destruct (String.eqb s "") eqn:Hs.
    + apply String.eqb_eq in Hs. subst s. congruence.
    + simpl. rewrite Hparse. reflexivity.
  - reflexivity.
  - unfold loadHistory. simpl.
    destruct (truthy_str _); [|reflexivity].
    match goal with |- context [JSON_parse ?x] =>
      destruct (JSON_parse x); reflexivity end.
Qed.

End ChatWidget.

Section ChatWidgetWitnesses.
Import Js Types Chatbot Samples.

(** The question asked while offline: greeting, question, fallback. *)
Lemma chat_failure_appends_fallback_witness :
  messages
    (handleSendMessage_end sampleStringify (sampleDeal None)
       ([greeting "Acme"] ++ [mkMessage RoleUser "What is your ARR?"])
       (Http.Rejected "Failed to fetch")
       (fst (handleSendMessage_begin sampleStringify (sampleDeal None)
               (openChat ∅))))
  = [greeting "Acme"; mkMessage RoleUser "What is your ARR?";
     mkMessage RoleModel "Sorry, I encountered an error. Please try again."].
Proof.
  pose proof (chat_failure_appends_fallback sampleStringify (sampleDeal None)
                (openChat ∅) (Http.Rejected "Failed to fetch")) as H.
  cbv zeta in H. destruct H as (_ & _ & Hfail & _ & _); [reflexivity|].
  apply Hfail. reflexivity.
Defined.

(** A cache that holds something that is not JSON. *)
Lemma load_history_or_greet_witness :
  messages
    (loadHistory sampleParse (sampleDeal None)
       (initialState {[ "chat_history_deal-1" := "{oops" ]}))
  = [greeting "Acme"].
Proof.
  pose proof (load_history_or_greet sampleParse eq_refl (sampleDeal None)
                {[ "chat_history_deal-1" := "{oops" ]}) as H.
  cbv zeta in H. destruct H as (_ & Hbad & _).
  apply (Hbad "{oops"); reflexivity.
Defined.

End ChatWidgetWitnesses.

(** ** The list of deals *)
Section DealList.
Import Js Types InvestorDashboard Samples.
Local Open Scope Z_scope.

Lemma deleteFailed_spec (outcome : Http.FetchResult unit) :
  deleteFailed outcome = true <->
  (exists m, outcome = Http.Rejected m)
  \/ (exists r, outcome = Http.Resolved r /\ Http.ok r = false).
Proof.
  unfold deleteFailed, deleteOutcome. destruct outcome as [m|r].
  - split; [intros _; left; eauto|reflexivity].
  - destruct (Http.ok r) eqn:Hok; simpl.
    + split; [discriminate|].
      intros [[m Hm]|(r' & Hr & Hf)]; congruence.
    + split; [intros _; right; exists r; auto|reflexivity].
Qed.

(** C6: deleting a deal takes every entry with its id out of the list
    before the request has an outcome and leaves the other entries as
    they were; if the request fails (the fetch rejects or the status is
    not ok) the list is set back to what it was when delete was invoked
    and a destructive "Deletion Failed" toast is shown; if it succeeds the
    list stays without the deal. *)
Theorem delete_is_optimistic
  (startupId : string) (st : State) (outcome : Http.FetchResult unit) :
  let begun := handleDelete_begin (startups st) startupId st in
  let st1 := snd (fst begun) in
  let st2 := handleDelete_end (fst (fst begun)) outcome st1 in
  startups st1 = List.filter (fun s => otherThan startupId s) (startups st)
  /\ (forall s, s ∈ startups st1 <-> s ∈ startups st /\ id s <> startupId)
  /\ (deleteFailed outcome = true ->
        startups st2 = startups st
        /\ exists m,
             toasts st2 =
             toasts st ++ [Toast.mk Toast.Destructive "Deletion Failed" m])
  /\ (deleteFailed outcome = false ->
        startups st2 = startups st1
        /\ toasts st2 =
           toasts st ++ [Toast.mk Toast.Default "Analysis Deleted"
                           "The startup analysis has been successfully deleted."])
  /\ (deleteFailed outcome = true <->
        (exists m, outcome = Http.Rejected m)
        \/ (exists r, outcome = Http.Resolved r /\ Http.ok r = false)).
Proof.
  cbv zeta. simpl. split; [reflexivity|]. split.
  - intros s. rewrite !list_elem_of_In, filter_In. unfold otherThan.
    rewrite negb_true_iff, String.eqb_neq. tauto.
  - split; [|split; [|apply deleteFailed_spec]];
      unfold deleteFailed, handleDelete_end;
      destruct (deleteOutcome outcome) as [m|]; simpl;
      try discriminate; intros _.
    + split; [reflexivity|]. eexists. reflexivity.
    + split; reflexivity.
Qed.

(** A failed delete of the second of two deals. *)
Lemma delete_is_optimistic_witness :
  startups (snd (fst (handleDelete_begin (startups twoDeals) "deal-2" twoDeals)))
  = [sampleDeal None]
  /\ startups
       (handleDelete_end
          (fst (fst (handleDelete_begin (startups twoDeals) "deal-2" twoDeals)))
          (Http.Resolved (Http.mkResponse 500 (Http.Parsed tt)))
          (snd (fst (handleDelete_begin (startups twoDeals) "deal-2" twoDeals))))
     = [sampleDeal None; pendingDeal None].
Proof.
  pose proof (delete_is_optimistic "deal-2" twoDeals
                (Http.Resolved (Http.mkResponse 500 (Http.Parsed tt)))) as H.
  cbv zeta in H. destruct H as (Hgone & _ & Hfail & _ & _).
  split; [rewrite Hgone; reflexivity|].
  apply Hfail. reflexivity.
Defined.

Lemma scoreColor_bands (score : Z) :
  (scoreColor score = GREEN <-> score <= 30)
  /\ (scoreColor score = YELLOW <-> 30 < score <= 60)
  /\ (scoreColor score = RED <-> 60 < score).
Proof.
  unfold scoreColor.
  destruct (Z.ltb_spec 30 score), (Z.ltb_spec 60 score);
    repeat split; intros; try lia; try reflexivity; try discriminate.
Qed.

Lemma no_memo_no_score (startup : AnalysisData) :
  memo startup = None ->
  (memo_draft startup ≫= risk_metrics) ≫= composite_risk_score = None
  /\ (memo_draft startup ≫= conclusion) ≫= overall_attractiveness = None.
Proof. unfold memo_draft. intros ->. split; reflexivity. Qed.

Lemma cardScore_stored (startup : AnalysisData) (score : Z) :
  storedScore startup = Some score -> cardScore startup = score.
Proof.
  unfold storedScore, cardScore. intros ->. simpl.
  destruct (Z.eqb_spec score 0) as [->|]; reflexivity.
Qed.

(** C9, as stated, fails: in the list view a deal without a memo is told
    apart from every deal that has a score, low or not: the card of a
    deal with a score has the download button, which is rendered for a
    deal with a memo only. *)
Lemma unprocessed_card_not_indistinguishable :
  ~ (forall startup : AnalysisData,
       memo startup = None ->
       exists other score,
         storedScore other = Some score /\ score <= 30
         /\ renderCard other = renderCard startup).
Proof.
  intros H.
  destruct (H (pendingDeal (Some "research")) eq_refl)
    as (other & score & Hscore & _ & Hsame).
  apply (f_equal downloadButton) in Hsame. simpl in Hsame.
  unfold storedScore in Hscore.
  destruct (memo_draft other) as [m|]; [|discriminate Hscore].
  discriminate Hsame.
Qed.

(** C9 (amended): when a deal has no memo, or no composite risk score,
    the card's score is 0 and, outside fast mode, the badge shows it in
    the green band. The badge of every deal with a stored score shows
    that score, green up to 30, yellow above 30 up to 60 and red above
    60. A missing recommendation is shown as N/A. So by its badge the
    deal cannot be told from a deal that scored 0, and when only the
    score is missing from its memo the whole card is the card of the same
    deal scored 0; without a memo the card differs from the card of every
    deal with a score, which has the download button. *)
Theorem unprocessed_card_looks_safe (startup : AnalysisData) :
  memo startup = None \/ storedScore startup = None ->
  cardScore startup = 0
  /\ (notFast startup = true ->
        scoreBadge (renderCard startup) = Some (mkScoreBadge GREEN 0))
  /\ (forall other score,
        storedScore other = Some score -> notFast other = true ->
        exists color,
          scoreBadge (renderCard other) = Some (mkScoreBadge color score)
          /\ (color = GREEN <-> score <= 30)
          /\ (color = YELLOW <-> 30 < score <= 60)
          /\ (color = RED <-> 60 < score))
  /\ ((memo_draft startup ≫= conclusion) ≫= overall_attractiveness = None ->
        cardRecommendation startup = "N/A"
        /\ (notFast startup = true ->
              recommendationRow (renderCard startup) = Some "N/A"))
  /\ (forall other,
        storedScore other = Some 0 ->
        notFast other = true -> notFast startup = true ->
        scoreBadge (renderCard other) = scoreBadge (renderCard startup))
  /\ (forall other m m',
        memo_draft startup = Some m -> memo_draft other = Some m' ->
        id other = id startup -> metadata other = metadata startup ->
        conclusion m' = conclusion m ->
        storedScore other = Some 0 ->
        renderCard other = renderCard startup)
  /\ (memo_draft startup = None ->
      downloadButton (renderCard startup) = false
      /\ forall other score,
           storedScore other = Some score ->
           downloadButton (renderCard other) = true
           /\ renderCard other <> renderCard startup).
Proof.
  intros Habsent.
  assert (Hnone : storedScore startup = None).
  { destruct Habsent as [Hm|Hs]; [|exact Hs].
    unfold storedScore. apply no_memo_no_score. exact Hm. }
  assert (Hscore : cardScore startup = 0).
  { unfold storedScore in Hnone. unfold cardScore. rewrite Hnone.
    reflexivity. }
  split; [exact Hscore|]. split; [|split; [|split; [|split; [|split]]]].
  - intros Hnf. unfold renderCard. rewrite Hnf, Hscore. reflexivity.
  - intros other score Hstored Hnf. exists (scoreColor score).
    split; [|exact (scoreColor_bands score)].
    unfold renderCard. rewrite Hnf, (cardScore_stored other score Hstored).
    reflexivity.
  - intros Hrec.
    assert (Hna : cardRecommendation startup = "N/A")
      by (unfold cardRecommendation; rewrite Hrec; reflexivity).
    split; [exact Hna|]. intros Hnf. unfold renderCard. rewrite Hnf, Hna.
    reflexivity.
  - intros other Hzero Hother Hnf. unfold renderCard.
    rewrite Hother, Hnf, Hscore, (cardScore_stored other 0 Hzero).
    reflexivity.
  - intros other m m' Hm Hm' Hid Hmeta Hconcl Hzero.
    unfold renderCard, notFast, cardRecommendation.
    rewrite Hscore, (cardScore_stored other 0 Hzero), Hid, Hmeta, Hm, Hm'.
    simpl. rewrite Hconcl. reflexivity.
  - intros Hmemo.
    assert (Hno : downloadButton (renderCard startup) = false)
      by (unfold renderCard; simpl; rewrite Hmemo; reflexivity).
    split; [exact Hno|]. intros other score Hstored.
    assert (Hyes : downloadButton (renderCard other) = true).
    { unfold storedScore in Hstored. unfold renderCard. simpl.
      destruct (memo_draft other); [reflexivity|discriminate Hstored]. }
    split; [exact Hyes|]. intros Hsame. rewrite Hsame, Hno in Hyes.
    discriminate Hyes.
Qed.

(** A deal still being processed, in research mode. *)
Lemma unprocessed_card_looks_safe_witness :
  scoreBadge (renderCard (pendingDeal (Some "research")))
  = Some (mkScoreBadge "text-green-600 bg-green-50 border-green-200" 0)
  /\ recommendationRow (renderCard (pendingDeal (Some "research")))
     = Some "N/A".
Proof.
  pose proof (unprocessed_card_looks_safe (pendingDeal (Some "research"))
                (or_introl eq_refl)) as (_ & Hbadge & _ & Hrec & _).
  split; [apply Hbadge; reflexivity|].
  apply Hrec; reflexivity.
Defined.

End DealList.

(** ** The authenticated fetch wrapper *)
Section AuthenticatedFetch.
Import ApiClient Samples.

Lemma filter_named_after_drop (n n' : string) (h : Headers) :
  List.filter (fun e => String.eqb (fst e) n')
    (List.filter (fun e => negb (String.eqb (fst e) n)) h)
  = if String.eqb n' n then []
    else List.filter (fun e => String.eqb (fst e) n') h.
Proof.
  induction h as [|[k x] rest IH]; simpl.
  - destruct (String.eqb n' n); reflexivity.
  - destruct (String.eqb k n) eqn:Hkn; simpl.
    + rewrite IH. apply String.eqb_eq in Hkn. subst k.
      destruct (String.eqb n' n) eqn:Hn; [reflexivity|].
      rewrite String.eqb_sym, Hn. reflexivity.
    + rewrite IH. destruct (String.eqb n' n) eqn:Hn.
      * apply String.eqb_eq in Hn. subst n'. rewrite Hkn. reflexivity.
      * reflexivity.
Qed.

Lemma set_first_named (n value : string) (h : Headers) :
  existsb (fun e => String.eqb (fst e) n) h = true ->
  List.filter (fun e => String.eqb (fst e) n) (set_first n value h)
  = [(n, value)].
Proof.
  induction h as [|[k x] rest IH]; simpl; [discriminate|].
  destruct (String.eqb k n) eqn:Hkn; simpl.
  - intros _. rewrite Hkn, filter_named_after_drop, String.eqb_refl.
    apply String.eqb_eq in Hkn. subst k. reflexivity.
  - intros Hex. rewrite Hkn. apply IH. exact Hex.
Qed.

Lemma set_first_others (n n' value : string) (h : Headers) :
  n' <> n ->
  List.filter (fun e => String.eqb (fst e) n') (set_first n value h)
  = List.filter (fun e => String.eqb (fst e) n') h.
Proof.
  intros Hne. apply String.eqb_neq in Hne.
  induction h as [|[k x] rest IH]; simpl; [reflexivity|].
  destruct (String.eqb k n) eqn:Hkn; simpl.
  - apply String.eqb_eq in Hkn. subst k.
    rewrite String.eqb_sym, Hne, filter_named_after_drop, Hne. reflexivity.
  - rewrite IH. reflexivity.
Qed.

Lemma no_entry_named (n : string) (h : Headers) :
  existsb (fun e => String.eqb (fst e) n) h = false ->
  List.filter (fun e => String.eqb (fst e) n) h = [].
Proof.
  induction h as [|[k x] rest IH]; simpl; [reflexivity|].
  destruct (String.eqb k n); simpl; [discriminate|exact IH].
Qed.

(** After [set], the name holds the one value. *)
Lemma Headers_set_values (h : Headers) (name value : string) :
  Headers_values (Headers_set h name value) name = [value].
Proof.
  unfold Headers_values, Headers_set.
  destruct (existsb _ h) eqn:Hex.
  - rewrite (set_first_named _ value h Hex). reflexivity.
  - rewrite List.filter_app, (no_entry_named _ h Hex). simpl.
    rewrite String.eqb_refl. reflexivity.
Qed.

(** [set] leaves the other names alone. *)
Lemma Headers_set_other (h : Headers) (name name' value : string) :
  lower name' <> lower name ->
  Headers_values (Headers_set h name value) name' = Headers_values h name'.
Proof.
  intros Hne. unfold Headers_values, Headers_set.
  destruct (existsb _ h).
  - rewrite (set_first_others _ _ value h Hne). reflexivity.
  - rewrite List.filter_app. simpl.
    assert (Hn : String.eqb (lower name) (lower name') = false)
      by (apply String.eqb_neq; congruence).
    rewrite Hn, app_nil_r. reflexivity.
Qed.

(** C8: the request [authenticatedFetch] hands to [fetch] always exists
    and has the caller's URL, method and body. With a signed-in user whose
    token is obtained, its Authorization header is the single value
    "Bearer <token>" and every other header is the caller's. With no
    signed-in user, or when obtaining the token throws, it is the caller's
    request with the caller's headers and nothing added, so it has no
    Authorization header unless the caller put one. *)
Theorem authenticatedFetch_bearer_or_plain
  (auth : Auth) (url : string) (options : RequestInit) :
  let request := authenticatedFetch auth url options in
  req_url request = url
  /\ req_method request = method options
  /\ req_body request = body options
  /\ (forall user token,
        currentUser auth = Some user -> getIdToken user = Token token ->
        Headers_values (req_headers request) "Authorization"
        = ["Bearer " +:+ token]
        /\ forall name, lower name <> "authorization" ->
             Headers_values (req_headers request) name
             = Headers_values (Headers_new (headers options)) name)
  /\ (currentUser auth = None
      \/ (exists user m, currentUser auth = Some user
                         /\ getIdToken user = TokenError m) ->
      request = mkRequest url (method options)
                  (Headers_new (headers options)) (body options)
      /\ (Headers_has (Headers_new (headers options)) "Authorization" = false ->
          Headers_values (req_headers request) "Authorization" = [])).
Proof.
  cbv zeta. unfold authenticatedFetch, getAuthHeaders. simpl.
  split; [reflexivity|]. split; [reflexivity|]. split; [reflexivity|]. split.
  - intros user token -> ->. simpl. split.
    + apply Headers_set_values.
    + intros name Hne. apply Headers_set_other. exact Hne.
  - intros Hnone.
    assert (Hplain :
      match currentUser auth with
      | Some user =>
          match getIdToken user with
          | Token token => [("Authorization", "Bearer " +:+ token)]
          | TokenError _ => []
          end
      | None => []
      end = []).
    { destruct Hnone as [-> |(user & m & -> & ->)]; reflexivity. }
    rewrite Hplain. simpl. split; [reflexivity|].
    intros Hhas. unfold Headers_values. rewrite no_entry_named; [reflexivity|].
    exact Hhas.
Qed.

(** A signed-in POST with a content type, and the same call signed out. *)
Lemma authenticatedFetch_bearer_or_plain_witness :
  Headers_values
    (req_headers (authenticatedFetch (mkAuth (Some (mkUser (Token "abc.def"))))
                    "/api/deals" postOptions)) "Authorization"
  = ["Bearer abc.def"]
  /\ authenticatedFetch (mkAuth None) "/api/deals" postOptions
     = mkRequest "/api/deals" (Some "POST")
         [("content-type", "application/json")] (Some "{}").
Proof.
  split.
  - pose proof (authenticatedFetch_bearer_or_plain
                  (mkAuth (Some (mkUser (Token "abc.def")))) "/api/deals"
                  postOptions) as H.
    cbv zeta in H. destruct H as (_ & _ & _ & Hin & _).
    apply (Hin (mkUser (Token "abc.def")) "abc.def"); reflexivity.
  - pose proof (authenticatedFetch_bearer_or_plain
                  (mkAuth None) "/api/deals" postOptions) as H.
    cbv zeta in H. destruct H as (_ & _ & _ & _ & Hout).
    apply Hout. left. reflexivity.
Defined.

End AuthenticatedFetch.

(** * Further properties of the components *)

(** ** The public interview page, beyond sending and failing *)
Section InterviewMore.
Import Js InterviewPage Samples.
Local Open Scope Z_scope.

(** X1: an answer made of white space only, or an empty token, sends
    nothing and leaves the page as it is, from the button and from the
    Enter key alike; and a key press sends nothing while a send is in
    flight or when the key is not Enter. *)
Theorem send_needs_text_and_token
  (key token now : string) (st : State) :
  ((forall c, In c (list_ascii_of_string (input st)) -> is_white_space c = true)
   \/ token = "" ->
   handleSendMessage_begin token now st = (st, None)
   /\ onKeyDown key token now st = (st, None))
  /\ (isSending st = true \/ key <> "Enter" ->
      onKeyDown key token now st = (st, None)).
Proof.
  split.
  - intros Hcase.
    assert (Hguard : blank (input st) || String.eqb token "" = true).
    { destruct Hcase as [Hws| ->].
      - apply blank_spec in Hws. rewrite Hws. reflexivity.
      - rewrite orb_true_r. reflexivity. }
    assert (Hbegin : handleSendMessage_begin token now st = (st, None))
      by (unfold handleSendMessage_begin; rewrite Hguard; reflexivity).
    split; [exact Hbegin|]. unfold onKeyDown.
    destruct (String.eqb key "Enter" && negb (isSending st));
      [exact Hbegin|reflexivity].
  - intros [Hs|Hk]; unfold onKeyDown.
    + rewrite Hs, andb_false_r. reflexivity.
    + apply String.eqb_neq in Hk. rewrite Hk. reflexivity.
Qed.

Lemma send_needs_text_and_token_witness :
  handleSendMessage_begin "tok-123" "2025-01-03T10:01:00.000Z"
    (setInput "   " activeSession)
  = (setInput "   " activeSession, None).
Proof.
  apply (proj1 (send_needs_text_and_token "Enter" "tok-123"
                  "2025-01-03T10:01:00.000Z" (setInput "   " activeSession))).
  left. intros c Hin. simpl in Hin.
  destruct Hin as [<-|[<-|[<-|[]]]]; reflexivity.
Defined.

(** X2: a token that validates (ok status, [valid] true) loads the whole
    chat history of the payload and shows the chat; the answer box is
    enabled exactly when the session's status is active, and the send
    button exactly when, besides, what is typed is not blank: a completed
    or expired session is read-only. *)
Theorem validated_session_read_only_unless_active
  (engine : Engine) (token typed : string) (r : Http.Response ValidateBody)
  (data : ValidationResponse) :
  token <> "" -> Http.ok r = true ->
  Http.json r = Http.Parsed (ValidationBody data) -> valid data = true ->
  let st := setInput typed (validateToken engine token (Http.Resolved r)) in
  messages st = chat_history data
  /\ validationData st = Some data
  /\ error st = None
  /\ render st =
     Chat data (chat_history data) false typed
       (negb (String.eqb (status data) "active"))
       (blank typed || negb (String.eqb (status data) "active"))
  /\ (controls (render st) = [AnswerInput false; SendButton false] <->
      status data = "active" /\ blank typed = false)
  /\ (status data <> "active" ->
      forall c, In c (controls (render st)) -> controlDisabled c = true).
Proof.
  intros Htoken Hok Hjson Hvalid. cbv zeta.
  assert (Hst : validateToken engine token (Http.Resolved r)
                = mkState (Some data) (chat_history data) "" false false None []).
  { unfold validateToken, validateToken_end, validateToken_begin, validateOutcome.
    apply String.eqb_neq in Htoken. rewrite Htoken, Hok, Hjson, Hvalid.
    reflexivity. }
  rewrite Hst. unfold setInput, render. simpl.
  split; [reflexivity|]. split; [reflexivity|]. split; [reflexivity|].
  split; [reflexivity|]. split.
  - destruct (String.eqb (status data) "active") eqn:Hact.
    + apply String.eqb_eq in Hact.
      destruct (blank typed); simpl; split.
      * discriminate.
      * intros [_ Hb]. discriminate Hb.
      * intros _. split; [exact Hact|reflexivity].
      * reflexivity.
    + apply String.eqb_neq in Hact. simpl. split.
      * destruct (blank typed); discriminate.
      * intros [Ha _]. contradiction.
  - intros Hne c. apply String.eqb_neq in Hne. rewrite Hne. simpl.
    rewrite orb_true_r. intros [<-|[<-|[]]]; reflexivity.
Qed.

Lemma validated_session_read_only_unless_active_witness :
  controls
    (render (setInput "One more thing"
       (validateToken sampleEngine "tok-123"
          (Http.Resolved (Http.mkResponse 200
             (Http.Parsed (ValidationBody completedInterview)))))))
  = [AnswerInput true; SendButton true].
Proof.
  pose proof (validated_session_read_only_unless_active sampleEngine
                "tok-123"
                "One more thing"
                (Http.mkResponse 200
                   (Http.Parsed (ValidationBody completedInterview)))
                completedInterview ltac:(discriminate) eq_refl eq_refl eq_refl)
    as H.
  cbv zeta in H. destruct H as (_ & _ & _ & Hrender & _).
  rewrite Hrender. reflexivity.
Defined.

(** X3: a failed status other than 403 and 404 shows the one fixed
    message, whatever the body says or whether it parses at all; a fetch
    that rejects shows the message of the rejection. *)
Theorem validate_other_failures_fixed_message
  (engine : Engine) (token : string) (r : Http.Response ValidateBody) :
  token <> "" -> Http.ok r = false ->
  Http.status r <> 403 -> Http.status r <> 404 ->
  error (validateToken engine token (Http.Resolved r))
  = Some "Failed to validate the interview session."
  /\ render (validateToken engine token (Http.Resolved r))
     = ValidationFailed "Validation Failed"
         "Failed to validate the interview session."
  /\ forall m, error (validateToken engine token (Http.Rejected m)) = Some m.
Proof.
  intros Htoken Hok H403 H404.
  apply String.eqb_neq in Htoken. apply Z.eqb_neq in H403, H404.
  unfold validateToken, validateToken_end, validateToken_begin, validateOutcome.
  rewrite Htoken, Hok, H403, H404. simpl.
  split; [reflexivity|]. split; reflexivity.
Qed.

Lemma validate_other_failures_fixed_message_witness :
  render (validateToken sampleEngine "tok-123"
            (Http.Resolved (Http.mkResponse 500
               (Http.Parsed (detailBody "database is down")))))
  = ValidationFailed "Validation Failed"
      "Failed to validate the interview session.".
Proof.
  apply (validate_other_failures_fixed_message sampleEngine "tok-123"
           (Http.mkResponse 500
              (Http.Parsed (detailBody "database is down"))));
    [discriminate|reflexivity|discriminate|discriminate].
Defined.

(** X4: while an answer is being sent the box is empty, the sending flag
    is up, every control of the chat is disabled and the Enter key sends
    nothing, so no second send can start; when the request settles,
    whatever the outcome, the flag is down again and the box is still
    empty: after a failure the typed answer is not put back. *)
Theorem send_blocks_until_settled
  (token now later : string) (st : State)
  (outcome : Http.FetchResult ChatReply) :
  blank (input st) = false -> token <> "" ->
  let st1 := fst (handleSendMessage_begin token now st) in
  let st2 := handleSendMessage_end (messages st) outcome later st1 in
  isSending st1 = true /\ input st1 = ""
  /\ (forall c, In c (controls (render st1)) -> controlDisabled c = true)
  /\ (forall key now', onKeyDown key token now' st1 = (st1, None))
  /\ isSending st2 = false /\ input st2 = ""
  /\ validationData st2 = validationData st /\ error st2 = error st.
Proof.
  intros Hblank Htoken. cbv zeta.
  assert (Hguard : blank (input st) || String.eqb token "" = false).
  { rewrite Hblank. simpl. apply String.eqb_neq. exact Htoken. }
  unfold handleSendMessage_begin. rewrite Hguard. simpl.
  split; [reflexivity|]. split; [reflexivity|]. split; [|split].
  - intros c. unfold render. simpl.
    destruct (isLoading st); [intros []|].
    destruct (truthy_str (error st)); [intros []|].
    destruct (validationData st); [|intros []].
    simpl. intros [<-|[<-|[]]]; reflexivity.
  - intros key now'. unfold onKeyDown. simpl.
    rewrite andb_false_r. reflexivity.
  - unfold handleSendMessage_end.
    destruct (sendOutcome outcome); simpl; repeat split.
Qed.

Lemma send_blocks_until_settled_witness :
  input
    (handleSendMessage_end (messages activeSession)
       (Http.Rejected "Failed to fetch") "2025-01-03T10:01:05.000Z"
       (fst (handleSendMessage_begin "tok-123" "2025-01-03T10:01:00.000Z"
               activeSession)))
  = "".
Proof.
  pose proof (send_blocks_until_settled "tok-123" "2025-01-03T10:01:00.000Z"
                "2025-01-03T10:01:05.000Z" activeSession
                (Http.Rejected "Failed to fetch") eq_refl
                ltac:(discriminate)) as H.
  cbv zeta in H. destruct H as (_ & _ & _ & _ & _ & Hinput & _).
  exact Hinput.
Defined.

End InterviewMore.

(** ** The chat widget and its cache *)
Section ChatCache.
Import Js Types Chatbot Samples.

Variable JSON_stringify : list Message -> string.
Variable JSON_parse : string -> option (list Message).

Lemma storageKey_inj (a b : string) : storageKey a = storageKey b -> a = b.
Proof. unfold storageKey. intros H. inversion H as [Hab]. exact Hab. Qed.

(** X5: once a send has started, and again once it has settled, the
    cache entry of the deal holds the serialisation of the history on
    screen, whatever the outcome; no other entry of the local storage
    changes, so the caches of other deals are left alone; and the busy
    flag is down and the box empty at the end. *)
Theorem chat_cache_follows_history
  (data : AnalysisData) (st : State) (outcome : Http.FetchResult ChatReply) :
  blank (input st) = false ->
  let key := storageKey (deal_id (metadata data)) in
  let st1 := fst (handleSendMessage_begin JSON_stringify data st) in
  let st2 := handleSendMessage_end JSON_stringify data
               (messages st ++ [mkMessage RoleUser (input st)]) outcome st1 in
  localStorage st1 !! key = Some (JSON_stringify (messages st1))
  /\ localStorage st2 !! key = Some (JSON_stringify (messages st2))
  /\ (forall k, k <> key -> localStorage st2 !! k = localStorage st !! k)
  /\ (forall other, other <> deal_id (metadata data) ->
        localStorage st2 !! storageKey other
        = localStorage st !! storageKey other)
  /\ isLoading st2 = false /\ input st2 = "".
Proof.
  intros Hblank. cbv zeta.
  unfold handleSendMessage_begin. rewrite Hblank. simpl.
  assert (Hother : forall k, k <> storageKey (deal_id (metadata data)) ->
            forall v w (m : gmap string string),
              <[storageKey (deal_id (metadata data)) := v]>
                (<[storageKey (deal_id (metadata data)) := w]> m) !! k
              = m !! k).
  { intros k Hk v w m. rewrite !lookup_insert_ne by congruence. reflexivity. }
  split; [apply lookup_insert_eq|]. split; [apply lookup_insert_eq|].
  split; [|split; [|split; reflexivity]].
  - intros k Hk. apply Hother. exact Hk.
  - intros other Hne. apply Hother. intros Heq.
    apply storageKey_inj in Heq. contradiction.
Qed.

Lemma handleSendMessage_end_cache (data : AnalysisData)
  (newMessages : list Message) (outcome : Http.FetchResult ChatReply)
  (st1 : State) :
  localStorage (handleSendMessage_end JSON_stringify data newMessages outcome st1)
  !! storageKey (deal_id (metadata data))
  = Some (JSON_stringify
            (messages (handleSendMessage_end JSON_stringify data newMessages
                         outcome st1))).
Proof. unfold handleSendMessage_end. simpl. apply lookup_insert_eq. Qed.

Lemma loadHistory_cached (data : AnalysisData) (storage : gmap string string)
  (s : string) (ms : list Message) :
  storage !! storageKey (deal_id (metadata data)) = Some s ->
  s <> "" -> JSON_parse s = Some ms ->
  messages (loadHistory JSON_parse data (initialState storage)) = ms.
Proof.
  intros Hs Hne Hparse. unfold loadHistory. simpl. rewrite Hs. simpl.
  apply String.eqb_neq in Hne. rewrite Hne. simpl. rewrite Hparse. reflexivity.
Qed.

(** X6: what a settled send left in the cache is what the widget shows
    when it is mounted again, provided the platform's parser reads back
    what its serialiser wrote for that history (and rejects the empty
    string). *)
Theorem chat_history_survives_remount
  (data : AnalysisData) (st : State) (outcome : Http.FetchResult ChatReply) :
  blank (input st) = false ->
  JSON_parse "" = None ->
  let st2 := handleSendMessage_end JSON_stringify data
               (messages st ++ [mkMessage RoleUser (input st)]) outcome
               (fst (handleSendMessage_begin JSON_stringify data st)) in
  JSON_parse (JSON_stringify (messages st2)) = Some (messages st2) ->
  messages (loadHistory JSON_parse data (initialState (localStorage st2)))
  = messages st2.
Proof.
  intros Hblank Hempty. cbv zeta. intros Hround.
  apply (loadHistory_cached data _ _ _ (handleSendMessage_end_cache _ _ _ _));
    [|exact Hround].
  intros Hs. rewrite Hs in Hround. congruence.
Qed.

(** X7: clearing the chat leaves the greeting alone on screen and
    removes the cache entry; the effect that follows the change of the
    history writes the greeting back, so the cache then holds the
    serialised greeting whatever it held before, and no other entry has
    changed. The effect writes nothing for an empty history. *)
Theorem clear_chat_resets_cache (data : AnalysisData) (st : State) :
  let key := storageKey (deal_id (metadata data)) in
  let cleared := clearChat data st in
  let st' := persistEffect JSON_stringify data cleared in
  messages cleared = [greeting (company_name (metadata data))]
  /\ localStorage cleared !! key = None
  /\ messages st' = [greeting (company_name (metadata data))]
  /\ localStorage st' !! key
     = Some (JSON_stringify [greeting (company_name (metadata data))])
  /\ (forall k, k <> key -> localStorage st' !! k = localStorage st !! k)
  /\ (messages st = [] -> persistEffect JSON_stringify data st = st).
Proof.
  cbv zeta. unfold clearChat, initializeChat, setMessages, persistEffect. simpl.
  split; [reflexivity|]. split; [apply lookup_delete_eq|].
  split; [reflexivity|]. split; [apply lookup_insert_eq|]. split.
  - intros k Hk. rewrite lookup_insert_ne by congruence.
    apply lookup_delete_ne. congruence.
  - intros ->. reflexivity.
Qed.

(** X8: after the floating window's clear, whatever the cache held, the
    chat that is mounted afresh shows the greeting alone; the widget's
    key has changed, and the caches of other deals are as they were. *)
Theorem floating_clear_shows_greeting
  (data : AnalysisData) (storage : gmap string string)
  (window : FloatingChat.State) :
  let cleared := FloatingChat.handleClearChat data storage window in
  messages (loadHistory JSON_parse data (initialState (fst cleared)))
  = [greeting (company_name (metadata data))]
  /\ FloatingChat.chatKey (snd cleared) <> FloatingChat.chatKey window
  /\ (forall other, other <> deal_id (metadata data) ->
        fst cleared !! storageKey other = storage !! storageKey other).
Proof.
  cbv zeta. unfold FloatingChat.handleClearChat. simpl.
  split; [|split].
  - unfold loadHistory. simpl. rewrite lookup_delete_eq. reflexivity.
  - lia.
  - intros other Hne. apply lookup_delete_ne. intros Heq.
    apply storageKey_inj in Heq. congruence.
Qed.

End ChatCache.

Section ChatCacheWitnesses.
Import Js Types Chatbot Samples.

Lemma chat_cache_follows_history_witness :
  localStorage
    (handleSendMessage_end offlineStringify (sampleDeal None)
       ([greeting "Acme"] ++ [mkMessage RoleUser "What is your ARR?"])
       (Http.Rejected "Failed to fetch")
       (fst (handleSendMessage_begin offlineStringify (sampleDeal None)
               (openChat ∅))))
  !! "chat_history_deal-1"
  = Some (offlineStringify askedOffline).
Proof.
  pose proof (chat_cache_follows_history offlineStringify (sampleDeal None)
                (openChat ∅) (Http.Rejected "Failed to fetch") eq_refl) as H.
  cbv zeta in H. destruct H as (_ & Hkey & _).
  exact Hkey.
Defined.

Lemma chat_history_survives_remount_witness :
  messages
    (loadHistory offlineParse (sampleDeal None)
       (initialState
          (localStorage
             (handleSendMessage_end offlineStringify (sampleDeal None)
                ([greeting "Acme"] ++ [mkMessage RoleUser "What is your ARR?"])
                (Http.Rejected "Failed to fetch")
                (fst (handleSendMessage_begin offlineStringify
                        (sampleDeal None) (openChat ∅)))))))
  = askedOffline.
Proof.
  exact (chat_history_survives_remount offlineStringify offlineParse
           (sampleDeal None) (openChat ∅) (Http.Rejected "Failed to fetch")
           eq_refl eq_refl eq_refl).
Defined.

End ChatCacheWitnesses.

(** ** The list of deals, beyond one delete *)
Section DealListMore.
Import Js Types InvestorDashboard Samples.
Local Open Scope Z_scope.

Lemma filter_all_kept {A} (f : A -> bool) (l : list A) :
  List.filter f l = l <-> forall x, In x l -> f x = true.
Proof.
  induction l as [|a l IH]; simpl.
  - split; [intros _ x []|reflexivity].
  - destruct (f a) eqn:Ha.
    + split.
      * intros [= Hl] x [<-|Hin]; [exact Ha|]. apply IH; assumption.
      * intros Hall. f_equal. apply IH. intros x Hx. apply Hall. auto.
    + split.
      * intros Heq. exfalso.
        assert (Hlen : (length (List.filter f l) <= length l)%nat)
          by apply List.filter_length_le.
        rewrite Heq in Hlen. simpl in Hlen. lia.
      * intros Hall. rewrite (Hall a (or_introl eq_refl)) in Ha. discriminate.
Qed.

(** X9: when two deletes overlap, the first one failing after the second
    one succeeded puts the list back to what it was before either: the deal
    whose delete succeeded is listed again. *)
Theorem failed_delete_restores_stale_list
  (idA idB : string) (st : State)
  (outcomeA outcomeB : Http.FetchResult unit) :
  deleteFailed outcomeA = true -> deleteFailed outcomeB = false ->
  let beganA := handleDelete_begin (startups st) idA st in
  let st1 := snd (fst beganA) in
  let beganB := handleDelete_begin (startups st1) idB st1 in
  let st2 := snd (fst beganB) in
  let st3 := handleDelete_end (fst (fst beganB)) outcomeB st2 in
  let st4 := handleDelete_end (fst (fst beganA)) outcomeA st3 in
  (forall s, In s (startups st3) -> id s <> idA /\ id s <> idB)
  /\ startups st4 = startups st
  /\ (forall s, In s (startups st) -> id s = idB -> In s (startups st4)).
Proof.
  intros HfailA HokB. cbv zeta. simpl.
  unfold deleteFailed in HfailA, HokB. unfold handleDelete_end.
  destruct (deleteOutcome outcomeA) as [mA|]; [|discriminate].
  destruct (deleteOutcome outcomeB) as [mB|]; [discriminate|]. simpl.
  split; [|split; [reflexivity|auto]].
  intros s Hin. apply filter_In in Hin as [Hin HB].
  apply filter_In in Hin as [_ HA]. unfold otherThan in HA, HB.
  rewrite negb_true_iff, String.eqb_neq in HA, HB. auto.
Qed.

Lemma failed_delete_restores_stale_list_witness :
  startups
    (handleDelete_end [sampleDeal None; pendingDeal None]
       (Http.Rejected "Failed to fetch")
       (handleDelete_end [pendingDeal None]
          (Http.Resolved (Http.mkResponse 200 (Http.Parsed tt)))
          (mkState [] [])))
  = [sampleDeal None; pendingDeal None].
Proof.
  pose proof (failed_delete_restores_stale_list "deal-1" "deal-2" twoDeals
                (Http.Rejected "Failed to fetch")
                (Http.Resolved (Http.mkResponse 200 (Http.Parsed tt)))
                eq_refl eq_refl) as H.
  cbv zeta in H. destruct H as (_ & Hback & _).
  exact Hback.
Defined.

(** X10: the optimistic removal never makes the list longer, and it
    leaves the list exactly as it was if and only if no listed deal has
    the id. *)
Theorem delete_unlisted_changes_nothing (startupId : string) (st : State) :
  let st1 := snd (fst (handleDelete_begin (startups st) startupId st)) in
  (length (startups st1) <= length (startups st))%nat
  /\ (startups st1 = startups st <->
      forall s, In s (startups st) -> id s <> startupId)
  /\ toasts st1 = toasts st.
Proof.
  cbv zeta. simpl. split; [apply List.filter_length_le|]. split; [|reflexivity].
  rewrite filter_all_kept. unfold otherThan.
  split; intros H s Hin; specialize (H s Hin).
  - rewrite negb_true_iff, String.eqb_neq in H. exact H.
  - rewrite negb_true_iff, String.eqb_neq. exact H.
Qed.

Lemma fetchOutcome_failure (outcome : Http.FetchResult DealsReply) (m : string) :
  fetchOutcome outcome = inl m <->
  outcome = Http.Rejected m
  \/ exists r, outcome = Http.Resolved r
       /\ ((Http.ok r = false
            /\ m = "Failed to fetch deals. Please try again later.")
           \/ (Http.ok r = true /\ Http.json r = Http.Unparsable m)).
Proof.
  unfold fetchOutcome. destruct outcome as [m'|r].
  - split.
    + intros [= ->]. left. reflexivity.
    + intros [[= ->]|(r & Hr & _)]; [reflexivity|discriminate].
  - destruct (Http.ok r) eqn:Hok; simpl.
    + destruct (Http.json r) as [b|e] eqn:Hjson.
      * split; [discriminate|].
        intros [Hr|(r' & [= <-] & [[Hf _]|[_ Hu]])]; congruence.
      * split.
        -- intros [= ->]. right. exists r. split; [reflexivity|]. right. auto.
        -- intros [Hr|(r' & [= <-] & [[Hf _]|[_ Hu]])]; congruence.
    + split.
      * intros [= <-]. right. exists r. split; [reflexivity|]. left. auto.
      * intros [Hr|(r' & [= <-] & [[_ ->]|[Ht _]])]; congruence.
Qed.

(** X11: a fresh page shows six skeleton cards. While a loaded list is
    being refreshed the cards stay on screen; if the refresh fails (the
    fetch rejects, the status is not ok, or the body does not parse) with
    a message that is not empty, the deals stay in the state but the page
    shows the error alert in place of the cards. *)
Theorem failed_refresh_hides_loaded_list
  (ps : PageState) (outcome : Http.FetchResult DealsReply) (m : string) :
  startups (dealList ps) <> [] ->
  (outcome = Http.Rejected m
   \/ exists r, outcome = Http.Resolved r
        /\ ((Http.ok r = false
             /\ m = "Failed to fetch deals. Please try again later.")
            \/ (Http.ok r = true /\ Http.json r = Http.Unparsable m))) ->
  m <> "" ->
  renderContent initialPage = Skeletons 6
  /\ renderContent (fetchDeals_begin ps)
     = Cards (map renderCard (startups (dealList ps)))
  /\ renderContent (fetchDeals_end outcome (fetchDeals_begin ps))
     = LoadFailed "Failed to Load Deals" m
  /\ startups (dealList (fetchDeals_end outcome (fetchDeals_begin ps)))
     = startups (dealList ps).
Proof.
  intros Hloaded Hfail Hm. apply fetchOutcome_failure in Hfail.
  assert (Hlen : Nat.eqb (length (startups (dealList ps))) 0 = false).
  { destruct (startups (dealList ps)); [contradiction|reflexivity]. }
  split; [reflexivity|]. split.
  - unfold renderContent, fetchDeals_begin. simpl. rewrite Hlen. reflexivity.
  - unfold fetchDeals_end. rewrite Hfail. unfold renderContent. simpl.
    apply String.eqb_neq in Hm. rewrite Hm. simpl. split; reflexivity.
Qed.

Lemma failed_refresh_hides_loaded_list_witness :
  renderContent
    (fetchDeals_end (Http.Resolved (Http.mkResponse 503 (Http.Unparsable "")))
       (fetchDeals_begin (mkPageState twoDeals false None None false)))
  = LoadFailed "Failed to Load Deals"
      "Failed to fetch deals. Please try again later.".
Proof.
  pose proof (failed_refresh_hides_loaded_list
                (mkPageState twoDeals false None None false)
                (Http.Resolved (Http.mkResponse 503 (Http.Unparsable "")))
                "Failed to fetch deals. Please try again later."
                ltac:(discriminate)) as H.
  destruct H as (_ & _ & Hfailed & _); [|discriminate|exact Hfailed].
  right. eexists. split; [reflexivity|]. left. split; reflexivity.
Defined.

(** X12: in fast mode a card shows neither the score badge nor the
    recommendation, thesis or risk, whatever the memo holds; and the note
    that there is no conclusion data is shown only when all four
    conclusion texts are missing, so a fast-mode deal that has a thesis or
    a risk summary but no product summary and no financial analysis shows
    an empty conclusion block: no paragraph and no note. *)
Theorem fast_card_hides_assessment (startup : AnalysisData) :
  processing_mode (metadata startup) = Some "fast" ->
  let card := renderCard startup in
  let concl := memo_draft startup ≫= conclusion in
  scoreBadge card = None /\ recommendationRow card = None
  /\ thesisParagraph card = None /\ riskParagraph card = None
  /\ modeBadge card = "Fast"
  /\ (truthy_str (concl ≫= product_summary) = false ->
      truthy_str (concl ≫= financial_analysis) = false ->
      truthy_str (concl ≫= investment_thesis) = true
      \/ truthy_str (concl ≫= risk_summary) = true ->
      productParagraph card = None /\ financialsParagraph card = None
      /\ noConclusionNote startup = false).
Proof.
  intros Hmode. cbv zeta.
  assert (Hnf : notFast startup = false)
    by (unfold notFast; rewrite Hmode; reflexivity).
  unfold renderCard. rewrite Hnf. simpl.
  repeat (split; [reflexivity|]).
  intros Hp Hf Hother. unfold shown, noConclusionNote. rewrite Hp, Hf. simpl.
  split; [reflexivity|]. split; [reflexivity|].
  destruct Hother as [-> | ->]; simpl; [reflexivity|].
  rewrite andb_false_r. reflexivity.
Qed.

Lemma fast_card_hides_assessment_witness :
  scoreBadge (renderCard (sampleDeal (Some "fast"))) = None
  /\ recommendationRow (renderCard (sampleDeal (Some "fast"))) = None.
Proof.
  pose proof (fast_card_hides_assessment (sampleDeal (Some "fast")) eq_refl)
    as H.
  cbv zeta in H. destruct H as (Hbadge & Hrec & _).
  split; assumption.
Defined.

End DealListMore.

(** ** The analysis dashboard, beyond the claims *)
Section DashboardMore.
Import Js Types AnalysisDashboard DashboardActions Samples.
Local Open Scope Z_scope.

Lemma or_number_truthy (o : option float) (fallback : float) :
  falsy_number fallback = false -> falsy_number (or_number o fallback) = false.
Proof.
  intros Hf. unfold or_number. destruct o as [n|]; [|exact Hf].
  destruct (falsy_number n) eqn:Hn; [exact Hf|exact Hn].
Qed.

Lemma getWeight_initial (dw : option (gmap string float)) (key : WeightKey) :
  getWeight key (initialWeights dw)
  = or_number (dw ≫= (fun m => m !! storedName key)) 20%float.
Proof. destruct key; reflexivity. Qed.

(** X13: no initial weight is ever 0 (nor -0, nor NaN): a weight stored
    as such a number, like a missing one, starts at 20, and every other
    stored weight starts at its stored value. Without stored weights all
    five start at 20, the total is 100 and the button is enabled. *)
Theorem initial_weights_never_zero (dw : option (gmap string float)) :
  (forall key, falsy_number (getWeight key (initialWeights dw)) = false
               /\ getWeight key (initialWeights dw) <> 0%float)
  /\ (forall key m v, dw = Some m -> m !! storedName key = Some v ->
        falsy_number v = false ->
        getWeight key (initialWeights dw) = v)
  /\ (forall key m, dw = Some m ->
        (exists v, m !! storedName key = Some v /\ falsy_number v = true)
        \/ m !! storedName key = None ->
        getWeight key (initialWeights dw) = 20%float)
  /\ (dw = None ->
      initialWeights dw = mkWeightages 20 20 20 20 20
      /\ generateEnabled (mkDialogState (initialWeights dw) false) = true).
Proof.
  split; [|split; [|split]].
  - intros key. rewrite getWeight_initial.
    assert (Ht : falsy_number
                   (or_number (dw ≫= (fun m => m !! storedName key)) 20)
                 = false) by (apply or_number_truthy; reflexivity).
    split; [exact Ht|]. intros H0. rewrite H0 in Ht. discriminate Ht.
  - intros key m v -> Hv Hne. rewrite getWeight_initial. simpl. rewrite Hv.
    simpl. rewrite Hne. reflexivity.
  - intros key m -> [(v & Hv & Hf)|Hv]; rewrite getWeight_initial; simpl;
      rewrite Hv; simpl; [rewrite Hf|]; reflexivity.
  - intros ->. split; reflexivity.
Qed.

(** Additions of whole numbers this small are exact: the table of all of
    them is checked by evaluation. *)
Lemma range_In (n : nat) (a : Z) :
  0 <= a < Z.of_nat n -> In a (wholeRange n).
Proof.
  intros H. unfold wholeRange. apply in_map_iff. exists (Z.to_nat a).
  split; [lia|]. apply in_seq. lia.
Qed.

Lemma additionsExact_true : additionsExact = true.
Proof. vm_compute. reflexivity. Qed.

Lemma number_of_Z_add (a b : Z) :
  0 <= a <= 400 -> 0 <= b <= 100 ->
  (number_of_Z a + number_of_Z b)%float = number_of_Z (a + b).
Proof.
  intros Ha Hb. pose proof additionsExact_true as H. unfold additionsExact in H.
  rewrite forallb_forall in H.
  specialize (H a (range_In 401 a ltac:(lia))).
  rewrite forallb_forall in H.
  specialize (H b (range_In 101 b ltac:(lia))).
  apply FloatAxioms.Leibniz.eqb_spec in H. exact H.
Qed.

Lemma hundredOnlyAt100_true : hundredOnlyAt100 = true.
Proof. vm_compute. reflexivity. Qed.

Lemma number_of_Z_is_100 (t : Z) :
  0 <= t <= 500 -> (number_of_Z t =? 100)%float = (t =? 100).
Proof.
  intros Ht. pose proof hundredOnlyAt100_true as H. unfold hundredOnlyAt100 in H.
  rewrite forallb_forall in H.
  specialize (H t (range_In 501 t ltac:(lia))).
  apply Bool.eqb_prop in H. exact H.
Qed.

(** The total of five whole percentages is their sum, without rounding. *)
Lemma totalWeight_whole (n1 n2 n3 n4 n5 : Z) :
  0 <= n1 <= 100 -> 0 <= n2 <= 100 -> 0 <= n3 <= 100 ->
  0 <= n4 <= 100 -> 0 <= n5 <= 100 ->
  totalWeight (mkWeightages (number_of_Z n1) (number_of_Z n2) (number_of_Z n3)
                 (number_of_Z n4) (number_of_Z n5))
  = number_of_Z (n1 + n2 + n3 + n4 + n5).
Proof.
  intros H1 H2 H3 H4 H5. rewrite totalWeight_sum. simpl.
  change 0%float with (number_of_Z 0).
  rewrite !number_of_Z_add by lia. reflexivity.
Qed.

(** X14: moving one slider sets that weight and no other. When the five
    weights are whole percentages, as the sliders and the defaults give
    them, the total is their exact sum, so from a state in which the
    button is enabled, moving a single slider to a different value always
    disables it: a valid split can only be reached again by moving
    another slider. With a stored weight that is not whole this fails: a
    first weight one unit in the last place above 20 is rounded away in
    the total, and moving that slider to 20 leaves the button enabled. *)
Theorem single_slider_move_disables
  (key : WeightKey) (v : float) (st : DialogState) :
  getWeight key (weights (moveSlider key v st)) = v
  /\ (forall other, other <> key ->
        getWeight other (weights (moveSlider key v st))
        = getWeight other (weights st))
  /\ (wholePercents (weights st) -> wholePercent v ->
      generateEnabled st = true -> v <> getWeight key (weights st) ->
      generateEnabled (moveSlider key v st) = false)
  /\ (let stored := mkDialogState (initialWeights (Some storedOffByUlp)) false in
      generateEnabled stored = true
      /\ (20 =? getWeight KTeamStrength (weights stored))%float = false
      /\ generateEnabled (moveSlider KTeamStrength 20 stored) = true).
Proof.
  split; [|split; [|split]].
  - destruct key; reflexivity.
  - intros other Hne. destruct key, other; try reflexivity; contradiction.
  - intros Hwhole Hv Hen Hdiff.
    destruct st as [[w1 w2 w3 w4 w5] busy].
    destruct Hwhole as ((n1 & H1 & E1) & (n2 & H2 & E2) & (n3 & H3 & E3)
                        & (n4 & H4 & E4) & (n5 & H5 & E5)).
    destruct Hv as (m & Hm & Em). simpl in *. subst.
    unfold generateEnabled, generateDisabled in Hen. simpl in Hen.
    apply negb_true_iff, orb_false_iff in Hen as [Hsum Hbusy].
    apply negb_false_iff in Hsum.
    rewrite totalWeight_whole, number_of_Z_is_100 in Hsum by lia.
    apply Z.eqb_eq in Hsum.
    unfold generateEnabled, generateDisabled, moveSlider.
    destruct key; simpl in *;
      rewrite totalWeight_whole, number_of_Z_is_100 by lia;
      match goal with
      | |- negb (negb (?t =? 100) || _) = false =>
          assert (Hne : (t =? 100) = false)
            by (apply Z.eqb_neq; intros Heq; apply Hdiff; f_equal; lia);
          rewrite Hne; reflexivity
      end.
  - cbv zeta. split; [|split]; vm_compute; reflexivity.
Qed.

Lemma single_slider_move_disables_witness :
  generateEnabled
    (moveSlider KTraction 25 (mkDialogState (initialWeights None) false))
  = false.
Proof.
  apply (proj1 (proj2 (proj2
           (single_slider_move_disables KTraction 25
              (mkDialogState (initialWeights None) false))))).
  - repeat split; exists 20; (split; [lia|reflexivity]).
  - exists 25. split; [lia|reflexivity].
  - reflexivity.
  - intros H. apply (f_equal (fun x => (x =? 20)%float)) in H.
    vm_compute in H. discriminate H.
Defined.

(** X15: a recalculation that was started from the enabled button ends
    with the busy flag down and the weights as they were. The record on
    screen is replaced, and the dialog closed, only when both requests
    succeed; if either fails (even the refetch after the memo was
    regenerated) the record and the dialog stay as they were, a
    destructive toast is added, and with the weights still summing to
    100 the button is enabled again. A click on the disabled button
    changes nothing. *)
Theorem recalculate_replaces_only_on_success
  (sid : string) (generated : Http.FetchResult DetailReply)
  (refetched : Http.FetchResult AnalysisData) (st : RecalcState) :
  (generateEnabled (dialog st) = true ->
   let st' := recalculate sid generated refetched st in
   isRecalculating (dialog st') = false
   /\ weights (dialog st') = weights (dialog st)
   /\ generateEnabled (dialog st') = true
   /\ (forall updated, recalcOutcome generated refetched = inr updated ->
         shownData st' = updated /\ isCustomizeDialogOpen st' = false)
   /\ (forall m, recalcOutcome generated refetched = inl m ->
         shownData st' = shownData st
         /\ isCustomizeDialogOpen st' = isCustomizeDialogOpen st
         /\ exists text,
              recalcToasts st' = recalcToasts st
                ++ [Toast.mk Toast.Destructive "Update Failed" text]))
  /\ (generateEnabled (dialog st) = false ->
      recalculate sid generated refetched st = st)
  /\ (forall updated,
        recalcOutcome generated refetched = inr updated <->
        exists g d, generated = Http.Resolved g /\ Http.ok g = true
                    /\ (exists b, Http.json g = Http.Parsed b)
                    /\ refetched = Http.Resolved d /\ Http.ok d = true
                    /\ Http.json d = Http.Parsed updated).
Proof.
  split; [|split].
  - intros Hen. cbv zeta. unfold recalculate, clickGenerate.
    assert (Hd : generateDisabled (dialog st) = false)
      by (unfold generateEnabled in Hen; apply negb_true_iff in Hen; exact Hen).
    rewrite Hd. simpl. unfold handleRecalculate_end.
    assert (Hback : forall w,
              w = weights (dialog st) ->
              generateEnabled (mkDialogState w false) = true).
    { intros w ->. unfold generateEnabled, generateDisabled in *. simpl.
      apply orb_false_iff in Hd as [Hs _]. rewrite Hs. reflexivity. }
    destruct (recalcOutcome generated refetched) as [m|updated]; simpl.
    + split; [reflexivity|]. split; [reflexivity|].
      split; [apply Hback; reflexivity|]. split; [discriminate|].
      intros m' [= <-]. split; [reflexivity|]. split; [reflexivity|].
      eexists. reflexivity.
    + split; [reflexivity|]. split; [reflexivity|].
      split; [apply Hback; reflexivity|]. split; [|discriminate].
      intros u [= <-]. split; reflexivity.
  - intros Hdis. unfold recalculate, clickGenerate.
    unfold generateEnabled in Hdis. apply negb_false_iff in Hdis.
    rewrite Hdis. reflexivity.
  - intros updated. split.
    + unfold recalcOutcome.
      destruct generated as [m|g]; [discriminate|].
      destruct (Http.ok g) eqn:Hg; simpl;
        destruct (Http.json g) as [b|e] eqn:Hjg; try discriminate.
      destruct refetched as [m|d]; [discriminate|].
      destruct (Http.ok d) eqn:Hd; simpl; [|discriminate].
      destruct (Http.json d) as [u|e] eqn:Hjd; [|discriminate].
      intros [= <-]. exists g, d. eauto 10.
    + intros (g & d & -> & Hg & (b & Hjg) & -> & Hd & Hjd).
      unfold recalcOutcome. rewrite Hg, Hjg, Hd, Hjd. reflexivity.
Qed.

Lemma recalculate_replaces_only_on_success_witness :
  shownData
    (recalculate "deal-2"
       (Http.Resolved (Http.mkResponse 200 (Http.Parsed (mkDetailReply None))))
       (Http.Resolved (Http.mkResponse 500 (Http.Unparsable "")))
       dialogOpen)
  = pendingDeal None.
Proof.
  pose proof (proj1 (recalculate_replaces_only_on_success "deal-2"
                (Http.Resolved
                   (Http.mkResponse 200 (Http.Parsed (mkDetailReply None))))
                (Http.Resolved (Http.mkResponse 500 (Http.Unparsable "")))
                dialogOpen) eq_refl) as H.
  cbv zeta in H. destruct H as (_ & _ & _ & _ & Hfail).
  destruct (Hfail "Failed to fetch the updated analysis data." eq_refl)
    as (Hdata & _).
  exact Hdata.
Defined.

End DashboardMore.

(** ** Tabs, polling, invitation and downloads *)
Section DashboardFlows.
Import Js Types AnalysisDashboard DashboardActions Samples.
Local Open Scope Z_scope.

Lemma issues_insights_exclusive (d : AnalysisData) :
  showIssuesTab d && showInsightsTab d = false.
Proof.
  unfold showIssuesTab, showInsightsTab. destruct (interview d) as [i|]; simpl;
    [|reflexivity].
  destruct (bool_decide (interview_status i = Some "completed")); simpl;
    [reflexivity|].
  rewrite andb_false_r. reflexivity.
Qed.

(** X16: the Issues and the Insights tab never show together and no tab
    shows twice. Outside fast mode the number of tabs is the number of
    columns the tab list asks for, 8 with one of the two interview tabs
    and 7 without; in fast mode the list asks for the same 8 or 7 columns
    but holds only 5 or 4 tabs. *)
Theorem tab_list_layout (d : AnalysisData) :
  NoDup (tabsList d)
  /\ ~ (TabIssues ∈ tabsList d /\ TabInsights ∈ tabsList d)
  /\ (showIssuesTab d || showInsightsTab d = true ->
      getTabListClassName d = "grid w-full h-auto mb-6 grid-cols-2 md:grid-cols-8"
      /\ length (tabsList d) = if notFast d then 8%nat else 5%nat)
  /\ (showIssuesTab d || showInsightsTab d = false ->
      getTabListClassName d = "grid w-full h-auto mb-6 grid-cols-2 md:grid-cols-7"
      /\ length (tabsList d) = if notFast d then 7%nat else 4%nat).
Proof.
  pose proof (issues_insights_exclusive d) as Hex.
  unfold tabsList, getTabListClassName.
  destruct (showIssuesTab d), (showInsightsTab d), (notFast d);
    try discriminate Hex; simpl;
    (split; [repeat constructor; rewrite ?list_elem_of_In; simpl;
             intuition discriminate|]);
    (split; [rewrite !list_elem_of_In; simpl; intuition discriminate|]);
    split; intros Hshow; try discriminate Hshow; split; reflexivity.
Qed.

Lemma last_cons {A : Type} (l : list A) :
  forall x d, List.last (x :: l) d = List.last l x.
Proof.
  induction l as [|a l IH]; intros x d; [reflexivity|].
  change (List.last (x :: a :: l) d) with (List.last (a :: l) d).
  rewrite (IH a d), (IH a x). reflexivity.
Qed.

(** X17: clearing the interval does not cancel the requests in flight.
    After the interval is cleared, by a reply with a decision or by the
    cleanup, no reply that settles issues a request, so the request log
    and the count of firings stay as they are; but every reply that
    brings an investment decision still runs the rest of the callback:
    it is handed to [setAnalysisData] and the toast is raised once more,
    so the record ends as the last such reply and there is one more
    toast per such reply. *)
Theorem cleared_interval_late_replies
  (trace : list PollEvent) (st st' : PollState) :
  pollInterval st = false -> pollRun st trace = Some st' ->
  requests st' = requests st /\ fired st' = fired st
  /\ pollInterval st' = false
  /\ toasts st'
     = toasts st ++ map (fun _ => "Investment Decision Ready")
                        (lateDecisions trace)
  /\ analysisData st' = List.last (lateDecisions trace) (analysisData st).
Proof.
  revert st. induction trace as [|e rest IH]; intros st Hoff; simpl.
  - intros [= <-]. rewrite app_nil_r. auto.
  - destruct (pollStep st e) as [st1|] eqn:Hstep; [|discriminate].
    intros Hrun.
    assert (Hoff1 : pollInterval st1 = false).
    { rewrite (pollStep_interval _ _ _ Hstep), Hoff. reflexivity. }
    destruct (IH st1 Hoff1 Hrun) as (Hreq & Hfired & Hoff' & Htoasts & Hdata).
    destruct e as [|o|]; simpl in Hstep.
    + rewrite Hoff in Hstep. discriminate.
    + destruct (inFlight st); [discriminate|]. injection Hstep as <-.
      unfold onSettle in *.
      destruct (decisionIn o) as [u|];
        cbn [toasts analysisData requests fired pollInterval map] in *.
      * rewrite Htoasts, <- app_assoc, Hdata, last_cons.
        repeat split; assumption.
      * auto.
    + injection Hstep as <-. simpl in *. auto.
Qed.

(** The first request is slower than the interval: two requests are in
    flight when one of them brings the decision, which clears the
    interval, and the other brings it again. *)
Lemma cleared_interval_late_replies_witness :
  pollRun (pollEffect 0 (pendingDeal None)) slowFirstReply
  = Some decidedMidPoll
  /\ (requests <$> pollRun decidedMidPoll lateReply) = Some [10000; 20000]
  /\ (toasts <$> pollRun decidedMidPoll lateReply)
     = Some ["Investment Decision Ready"; "Investment Decision Ready"].
Proof.
  split; [reflexivity|].
  destruct (pollRun decidedMidPoll lateReply) as [st'|] eqn:Hrun;
    [|vm_compute in Hrun; discriminate Hrun].
  destruct (cleared_interval_late_replies lateReply decidedMidPoll st'
              eq_refl Hrun) as (Hreq & _ & _ & Htoasts & _).
  simpl. rewrite Hreq, Htoasts. split; reflexivity.
Defined.

Lemma pollStep_data (d : AnalysisData) (st st' : PollState) (e : PollEvent) :
  pollDataInvariant d st -> pollInterval st = true \/ toasts st <> [] ->
  pollStep st e = Some st' -> pollDataInvariant d st'.
Proof.
  unfold pollDataInvariant. intros Hinv Hlive. destruct e as [|o|]; simpl.
  - destruct (pollInterval st) eqn:Hp; [|discriminate]. intros [= <-]. simpl.
    destruct Hinv as [H|(_ & _ & _ & Hoff)]; [left; exact H|congruence].
  - destruct (inFlight st); [discriminate|]. intros [= <-].
    unfold onSettle. destruct (decisionIn o) as [u|] eqn:Hdec; simpl.
    + right. apply decisionIn_spec in Hdec as (r & _ & _ & _ & Ht).
      repeat split; [exact Ht|]. intros Happ.
      apply app_eq_nil in Happ as [_ Hnil]. discriminate Hnil.
    + exact Hinv.
  - intros [= <-]. simpl.
    destruct Hinv as [H|(Ht & Hd & Hn & _)]; [left; exact H|right; auto].
Qed.

(** X18: polling never puts a record without an investment decision on
    screen: after any sequence of firings, settled requests and cleanups
    the dashboard either still has the record it started from, with no
    toast shown, or has a fetched record whose investment decision is
    truthy, with the local decision set to it, the interval cleared and
    the toast shown. *)
Theorem polling_only_installs_decisions
  (now : Z) (d : AnalysisData) (trace : list PollEvent) (st' : PollState) :
  pollRun (pollEffect now d) trace = Some st' ->
  (analysisData st' = d /\ investmentDecision st' = JsNull /\ toasts st' = [])
  \/ (truthy (investment_decision (analysisData st')) = true
      /\ investmentDecision st' = investment_decision (analysisData st')
      /\ toasts st' <> [] /\ pollInterval st' = false).
Proof.
  assert (Hgen : forall tr st, pollDataInvariant d st ->
            pollRun st tr = Some st' -> pollDataInvariant d st').
  { induction tr as [|e rest IH]; intros st Hinv; simpl.
    - intros [= <-]. exact Hinv.
    - destruct (pollStep st e) as [st1|] eqn:Hstep; [|discriminate].
      apply IH. destruct (pollInterval st) eqn:Hp.
      + apply (pollStep_data d st st1 e Hinv); auto.
      + destruct Hinv as [(Hd & Hn & Ht)|Hright].
        * destruct e as [|o|]; simpl in Hstep.
          -- rewrite Hp in Hstep. discriminate.
          -- destruct (inFlight st); [discriminate|]. injection Hstep as <-.
             unfold onSettle. destruct (decisionIn o) as [u|] eqn:Hdec.
             ++ right. simpl.
                apply decisionIn_spec in Hdec as (r & _ & _ & _ & Htr).
                repeat split; [exact Htr|]. intros Happ.
                apply app_eq_nil in Happ as [_ Hnil]. discriminate Hnil.
             ++ left. simpl. auto.
          -- injection Hstep as <-. left. simpl. auto.
        * apply (pollStep_data d st st1 e); [right; exact Hright| |exact Hstep].
          right. tauto. }
  intros Hrun. apply (Hgen trace (pollEffect now d)); [|exact Hrun].
  left. simpl. auto.
Qed.

Lemma polling_only_installs_decisions_witness :
  (analysisData <$> pollRun (pollEffect 0 (pendingDeal None)) twoPolls)
  = Some (sampleDeal None).
Proof.
  destruct (pollRun (pollEffect 0 (pendingDeal None)) twoPolls)
    as [st'|] eqn:Hrun; [|vm_compute in Hrun; discriminate Hrun].
  destruct (polling_only_installs_decisions 0 (pendingDeal None) twoPolls st'
              Hrun) as [(Hsame & _)|(Ht & _)];
    vm_compute in Hrun; injection Hrun as <-; [discriminate Hsame|reflexivity].
Defined.

End DashboardFlows.

(** ** The interview invitation and the source-file download *)
Section InvitationAndDownload.
Import Js Types DashboardActions Samples.
Local Open Scope Z_scope.



Lemma beforeLastQuote_none (s : string) :
  (forall c, In c (list_ascii_of_string s) -> c <> dquote) ->
  beforeLastQuote s = None.
Proof.
  induction s as [|c rest IH]; simpl; [reflexivity|].
  intros Hno. rewrite IH by (intros x Hx; apply Hno; auto).
  destruct (Ascii.eqb_spec c dquote) as [->|_]; [|reflexivity].
  exfalso. apply (Hno dquote); auto.
Qed.

Lemma beforeLastQuote_app (a b : string) :
  (forall c, In c (list_ascii_of_string b) -> c <> dquote) ->
  beforeLastQuote (a +:+ String dquote b) = Some a.
Proof.
  intros Hno. induction a as [|c a IH]; simpl.
  - rewrite (beforeLastQuote_none b Hno). reflexivity.
  - rewrite IH. reflexivity.
Qed.

Lemma dotRun_no_quote (s : string) :
  (forall c, In c (list_ascii_of_string s) -> c <> dquote) ->
  forall c, In c (list_ascii_of_string (dotRun s)) -> c <> dquote.
Proof.
  induction s as [|a rest IH]; simpl; [tauto|].
  intros Hno c. destruct (is_line_terminator a); simpl; [tauto|].
  intros [<-|Hin]; [apply Hno; auto|].
  apply IH; [intros x Hx; apply Hno; auto|exact Hin].
Qed.

Lemma dotRun_app (a b : string) :
  (forall c, In c (list_ascii_of_string a) -> is_line_terminator c = false) ->
  dotRun (a +:+ String dquote b) = a +:+ String dquote (dotRun b).
Proof.
  intros Hline. induction a as [|c a IH]; simpl; [reflexivity|].
  rewrite (Hline c) by (simpl; auto). rewrite IH; [reflexivity|].
  intros x Hx. apply Hline. simpl. auto.
Qed.

Lemma stripPrefix_app (p s : string) : stripPrefix p (p +:+ s) = Some s.
Proof.
  induction p as [|c p IH]; simpl; [reflexivity|].
  rewrite Ascii.eqb_refl. exact IH.
Qed.

Lemma matchFilename_eq (s : string) :
  matchFilename s =
  match match stripPrefix FILENAME_EQ s with
        | Some rest => greedyGroup rest
        | None => None
        end with
  | Some group => Some group
  | None => match s with
            | EmptyString => None
            | String _ rest => matchFilename rest
            end
  end.
Proof. destruct s; reflexivity. Qed.

Lemma FILENAME_EQ_head : exists t, FILENAME_EQ = String "f"%char t.
Proof. eexists. vm_compute. reflexivity. Qed.

Lemma stripPrefix_other (c : ascii) (s : string) :
  c <> "f"%char -> stripPrefix FILENAME_EQ (String c s) = None.
Proof.
  intros Hc. destruct FILENAME_EQ_head as [t ->]. cbn [stripPrefix].
  destruct (Ascii.eqb_spec "f"%char c) as [<-|_]; [contradiction|reflexivity].
Qed.

Lemma matchFilename_skip (pre rest : string) :
  (forall c, In c (list_ascii_of_string pre) -> c <> "f"%char) ->
  matchFilename (pre +:+ rest) = matchFilename rest.
Proof.
  intros Hno. induction pre as [|c pre IH]; [reflexivity|].
  change (String c pre +:+ rest) with (String c (pre +:+ rest)).
  rewrite matchFilename_eq, stripPrefix_other by (apply Hno; simpl; auto).
  apply IH. intros x Hx. apply Hno. simpl. auto.
Qed.

(** X20: the file is saved under the name the response gives between
    the quotes of [filename=] in its content-disposition header, for
    every name that is not empty and has no line break (quotes inside the
    name included), when nothing before it has the letter f and nothing
    after the closing quote has a quote; without the header, or with an
    empty one, it is saved under the default name built from the deal's
    id. *)
Theorem download_named_by_header
  (fileType : FileType) (sid pre name post : string) :
  name <> "" ->
  (forall c, In c (list_ascii_of_string name) -> is_line_terminator c = false) ->
  (forall c, In c (list_ascii_of_string pre) -> c <> "f"%char) ->
  (forall c, In c (list_ascii_of_string post) -> c <> dquote) ->
  downloadFilename fileType sid
    (Some (pre +:+ FILENAME_EQ +:+ name +:+ String dquote post))
  = name
  /\ downloadFilename fileType sid None = defaultFilename fileType sid
  /\ downloadFilename fileType sid (Some "") = defaultFilename fileType sid.
Proof.
  intros Hname Hline Hpre Hpost. split; [|split; reflexivity].
  assert (Hmatch : matchFilename
            (pre +:+ FILENAME_EQ +:+ name +:+ String dquote post) = Some name).
  { rewrite (matchFilename_skip pre _ Hpre).
    assert (Hgroup : greedyGroup (name +:+ String dquote post) = Some name).
    { unfold greedyGroup. rewrite (dotRun_app name post Hline).
      rewrite beforeLastQuote_app by (apply dotRun_no_quote; exact Hpost).
      destruct name; [contradiction|reflexivity]. }
    rewrite matchFilename_eq, stripPrefix_app, Hgroup. reflexivity. }
  unfold downloadFilename.
  assert (Hne : truthy_str
            (Some (pre +:+ FILENAME_EQ +:+ name +:+ String dquote post)) = true).
  { simpl. apply negb_true_iff, String.eqb_neq. intros Hempty.
    rewrite Hempty in Hmatch. discriminate Hmatch. }
  rewrite Hne. simpl. rewrite Hmatch. reflexivity.
Qed.

Lemma download_named_by_header_witness :
  downloadFilename pitch_deck "deal-1"
    (Some ("attachment; " +:+ FILENAME_EQ +:+ "Acme deck.pdf"
           +:+ String dquote ""))
  = "Acme deck.pdf".
Proof.
  apply (download_named_by_header pitch_deck "deal-1" "attachment; "
           "Acme deck.pdf" "").
  - discriminate.
  - intros c Hin. simpl in Hin.
    repeat (destruct Hin as [<-|Hin]; [reflexivity|]). destruct Hin.
  - intros c Hin. simpl in Hin.
    repeat (destruct Hin as [<-|Hin]; [discriminate|]). destruct Hin.
  - intros c [].
Defined.

End InvitationAndDownload.

(** ** The selection of interview questions *)
Section QuestionSelection.
Import Js Types IssuesTab Samples.

Lemma has_In (x : string) (s : JsSet.t) : JsSet.has x s = true <-> In x s.
Proof.
  unfold JsSet.has. rewrite existsb_exists. split.
  - intros (y & Hy & Heq). apply String.eqb_eq in Heq. subst. exact Hy.
  - intros Hin. exists x. split; [exact Hin|apply String.eqb_refl].
Qed.

Lemma has_false (x : string) (s : JsSet.t) : JsSet.has x s = false <-> ~ In x s.
Proof.
  rewrite <- has_In. destruct (JsSet.has x s); split; congruence.
Qed.

Lemma add_In (x y : string) (s : JsSet.t) :
  In x (JsSet.add y s) <-> x = y \/ In x s.
Proof.
  unfold JsSet.add. destruct (JsSet.has y s) eqn:Hy.
  - apply has_In in Hy. split; [auto|]. intros [->|H]; assumption.
  - rewrite in_app_iff. simpl. intuition congruence.
Qed.

Lemma delete_In (x y : string) (s : JsSet.t) :
  In x (JsSet.delete y s) <-> In x s /\ x <> y.
Proof.
  unfold JsSet.delete. rewrite filter_In, negb_true_iff, String.eqb_neq.
  reflexivity.
Qed.

Lemma add_NoDup (y : string) (s : JsSet.t) :
  List.NoDup s -> List.NoDup (JsSet.add y s).
Proof.
  intros Hs. unfold JsSet.add. destruct (JsSet.has y s) eqn:Hy; [exact Hs|].
  apply has_false in Hy. apply NoDup_ListNoDup, NoDup_app.
  split; [apply NoDup_ListNoDup; exact Hs|]. split.
  - intros x Hx Hin. apply list_elem_of_In in Hx.
    apply list_elem_of_In in Hin. simpl in Hin.
    destruct Hin as [<-|[]]. contradiction.
  - apply NoDup_ListNoDup. constructor; [intros []|constructor].
Qed.

Lemma delete_NoDup (y : string) (s : JsSet.t) :
  List.NoDup s -> List.NoDup (JsSet.delete y s).
Proof. intros Hs. apply List.NoDup_filter. exact Hs. Qed.

Lemma of_array_spec (l : list string) :
  forall acc, List.NoDup acc ->
  List.NoDup (fold_left (fun s x => JsSet.add x s) l acc)
  /\ forall x, In x (fold_left (fun s x => JsSet.add x s) l acc)
               <-> In x acc \/ In x l.
Proof.
  induction l as [|a l IH]; intros acc Hacc; simpl.
  - split; [exact Hacc|]. intros x. simpl. tauto.
  - destruct (IH (JsSet.add a acc) (add_NoDup a acc Hacc)) as [Hnd Hin].
    split; [exact Hnd|]. intros x. rewrite Hin, add_In. simpl.
    intuition congruence.
Qed.

Lemma allFields_spec (issues : list InterviewIssue) :
  List.NoDup (allFields issues)
  /\ forall f, In f (allFields issues) <-> In f (map field issues).
Proof.
  unfold allFields, JsSet.of_array.
  destruct (of_array_spec (map field issues) [] (List.NoDup_nil _)) as [Hnd Hin].
  split; [exact Hnd|]. intros f. rewrite Hin. simpl. tauto.
Qed.

Lemma delete_length (f : string) (s : JsSet.t) :
  List.NoDup s -> In f s -> S (length (JsSet.delete f s)) = length s.
Proof.
  induction s as [|a s IH]; simpl; [intros _ []|].
  intros Hnd Hin. inversion Hnd as [|? ? Hna Hs]; subst.
  destruct (String.eqb_spec a f) as [->|Hne]; simpl.
  - f_equal. unfold JsSet.delete in *.
    assert (Hall : List.filter (fun y => negb (String.eqb y f)) s = s).
    { apply filter_all_kept. intros x Hx.
      apply negb_true_iff, String.eqb_neq. intros ->. contradiction. }
    rewrite Hall. reflexivity.
  - f_equal. apply IH; [exact Hs|]. destruct Hin as [Heq|Hin]; [congruence|].
    exact Hin.
Qed.

(** X21: ticking the same question twice brings back the same
    selection: the same fields are selected as before and, the selection
    having no duplicate, as many. *)
Theorem toggle_twice_same_selection (f : string) (st : State) :
  let st' := handleToggleIssue f (handleToggleIssue f st) in
  (forall g, JsSet.has g (selectedFields st') = JsSet.has g (selectedFields st))
  /\ (List.NoDup (selectedFields st) ->
      JsSet.size (selectedFields st') = JsSet.size (selectedFields st))
  /\ (JsSet.has f (selectedFields (handleToggleIssue f st))
      = negb (JsSet.has f (selectedFields st))).
Proof.
  cbv zeta. unfold handleToggleIssue. simpl.
  destruct (JsSet.has f (selectedFields st)) eqn:Hf; simpl.
  - assert (Hgone : JsSet.has f (JsSet.delete f (selectedFields st)) = false).
    { apply has_false. rewrite delete_In. tauto. }
    rewrite Hgone. apply has_In in Hf. split; [|split; [|reflexivity]].
    + intros g.
      destruct (JsSet.has g (selectedFields st)) eqn:Hg.
      * apply has_In. rewrite add_In, delete_In. apply has_In in Hg.
        destruct (String.eqb_spec g f); [auto|right; auto].
      * apply has_false. rewrite add_In, delete_In. apply has_false in Hg.
        intros [->|[H _]]; contradiction.
    + intros Hnd. unfold JsSet.size, JsSet.add. rewrite Hgone.
      rewrite length_app. simpl. rewrite <- (delete_length f _ Hnd Hf). lia.
  - assert (Hadded : JsSet.has f (JsSet.add f (selectedFields st)) = true).
    { apply has_In, add_In. auto. }
    rewrite Hadded.
    assert (Hback : JsSet.delete f (JsSet.add f (selectedFields st))
                    = selectedFields st).
    { unfold JsSet.add. rewrite Hf. unfold JsSet.delete.
      rewrite List.filter_app. simpl. rewrite String.eqb_refl. simpl.
      rewrite app_nil_r. apply filter_all_kept. intros x Hx.
      apply negb_true_iff, String.eqb_neq. intros ->.
      apply has_false in Hf. contradiction. }
    rewrite Hback. split; [reflexivity|]. split; reflexivity.
Qed.

Lemma toggle_twice_same_selection_witness :
  JsSet.size
    (selectedFields
       (handleToggleIssue "arr" (handleToggleIssue "arr"
          (afterActions issuesSharingField "Ada" []))))
  = 2%nat.
Proof.
  rewrite (proj1 (proj2 (toggle_twice_same_selection "arr"
                           (afterActions issuesSharingField "Ada" [])))).
  - reflexivity.
  - vm_compute. repeat constructor; simpl; intuition discriminate.
Defined.

Lemma act_wellFormed (issues : list InterviewIssue) (st : State) (a : Action) :
  wellFormed issues st -> wellFormed issues (act issues st a).
Proof.
  unfold wellFormed. intros [Hnd Hsub]. destruct a as [index| | | |value|value]; simpl.
  - destruct (issues !! index) as [issue|] eqn:Hi; [|auto].
    unfold handleToggleIssue. simpl.
    destruct (JsSet.has (field issue) (selectedFields st)).
    + split; [apply delete_NoDup; exact Hnd|].
      intros f Hf. apply delete_In in Hf as [Hf _]. auto.
    + split; [apply add_NoDup; exact Hnd|].
      intros f Hf. apply add_In in Hf as [->|Hf]; [|auto].
      apply in_map. apply list_elem_of_In, list_elem_of_lookup. eauto.
  - unfold handleToggleAll.
    destruct (Nat.eqb _ _); simpl.
    + split; [constructor|intros f []].
    + destruct (allFields_spec issues) as [Hnd' Hin].
      split; [exact Hnd'|]. intros f Hf. apply Hin. exact Hf.
  - destruct (setMeetingDisabled st); simpl; auto.
  - auto.
  - destruct (isMeetingDialogOpen st); simpl; auto.
  - destruct (isMeetingDialogOpen st); simpl; auto.
Qed.

Lemma afterActions_wellFormed (issues : list InterviewIssue) (name : string)
  (actions : list Action) :
  wellFormed issues (afterActions issues name actions).
Proof.
  unfold afterActions.
  assert (Hinit : wellFormed issues
                    (selectAllEffect issues (initialState name))).
  { unfold selectAllEffect. destruct issues as [|i rest].
    - split; [constructor|intros f []].
    - destruct (allFields_spec (i :: rest)) as [Hnd Hin].
      split; [exact Hnd|]. intros f Hf. apply Hin. exact Hf. }
  revert Hinit. generalize (selectAllEffect issues (initialState name)).
  induction actions as [|a rest IH]; intros st Hst; simpl; [exact Hst|].
  apply IH. apply act_wellFormed. exact Hst.
Qed.

(** X22: whatever the user ticks, the selection has no field twice and
    only fields of the issues, so it never counts more than the issues.
    When two issues share a field the count stays below the number of
    issues: the toggle for all never reads as all selected and a click
    on it always selects every field, never clears. When the fields are
    all different it reads as all selected exactly when every field is
    selected, and a click on it then clears the selection. *)
Theorem toggle_all_and_shared_fields
  (issues : list InterviewIssue) (name : string) (actions : list Action) :
  let st := afterActions issues name actions in
  List.NoDup (selectedFields st)
  /\ (forall f, In f (selectedFields st) -> In f (map field issues))
  /\ (JsSet.size (selectedFields st) <= length issues)%nat
  /\ (~ List.NoDup (map field issues) ->
      allSelected issues st = false
      /\ selectedFields (handleToggleAll issues st) = allFields issues)
  /\ (List.NoDup (map field issues) ->
      (allSelected issues st = true <->
       forall issue, In issue issues ->
         JsSet.has (field issue) (selectedFields st) = true)
      /\ (allSelected issues st = true ->
          selectedFields (handleToggleAll issues st) = [])).
Proof.
  cbv zeta.
  destruct (afterActions_wellFormed issues name actions) as [Hnd Hsub].
  set (st := afterActions issues name actions) in *.
  assert (Hle : (length (selectedFields st) <= length (map field issues))%nat)
    by (apply List.NoDup_incl_length; [exact Hnd|exact Hsub]).
  rewrite length_map in Hle.
  split; [exact Hnd|]. split; [exact Hsub|]. split; [exact Hle|]. split.
  - intros Hdup.
    assert (Hlt : (length (selectedFields st) < length issues)%nat).
    { destruct (Nat.eq_dec (length (selectedFields st)) (length issues))
        as [Heq|Hne]; [|lia].
      exfalso. apply Hdup.
      apply (@List.NoDup_incl_NoDup _ (selectedFields st) (map field issues));
        [exact Hnd|rewrite length_map; lia|exact Hsub]. }
    assert (Hneq : Nat.eqb (JsSet.size (selectedFields st)) (length issues)
                   = false) by (apply Nat.eqb_neq; unfold JsSet.size; lia).
    unfold allSelected, handleToggleAll. rewrite Hneq. split; reflexivity.
  - intros Hfields. unfold allSelected, handleToggleAll. split.
    + rewrite Nat.eqb_eq. unfold JsSet.size. split.
      * intros Hlen issue Hin. apply has_In.
        apply (@List.NoDup_length_incl _ (selectedFields st)
                 (map field issues)); [exact Hnd| |exact Hsub|].
        -- rewrite length_map. lia.
        -- apply in_map. exact Hin.
      * intros Hall. apply Nat.le_antisymm; [exact Hle|].
        rewrite <- (length_map field issues).
        apply List.NoDup_incl_length; [exact Hfields|].
        intros f Hf. apply in_map_iff in Hf as (issue & <- & Hin).
        apply has_In. apply Hall. exact Hin.
    + intros ->. reflexivity.
Qed.

Lemma toggle_all_and_shared_fields_witness :
  selectedFields
    (handleToggleAll issuesSharingField
       (afterActions issuesSharingField "Ada" [ToggleAll; ToggleRow 2]))
  = ["arr"; "founders"].
Proof.
  pose proof (toggle_all_and_shared_fields issuesSharingField "Ada"
                [ToggleAll; ToggleRow 2]) as H.
  cbv zeta in H. destruct H as (_ & _ & _ & Hdup & _).
  destruct Hdup as [_ Hall]; [|rewrite Hall; reflexivity].
  intros Hnd. simpl in Hnd. inversion Hnd as [|? ? Hnotin _]; subst.
  apply Hnotin. simpl. auto.
Defined.

(** X23: the Set Meeting button is disabled exactly when nothing is
    selected. Send Invitation dispatches a click only while the dialog is
    open, no invitation is being sent and the name and the email are
    filled in; otherwise nothing is requested and nothing changes. A
    click it dispatches with nothing selected issues no request and
    raises the toast about selecting a question; with a selection, the
    request carries the deal, the name and the email as typed, neither
    empty, and exactly the selected fields, each once and each the field
    of one of the issues. Right after mounting on a list of issues that
    is not empty every field is selected. *)
Theorem invitation_carries_selection
  (issues : list InterviewIssue) (name dealId : string)
  (actions : list Action) :
  let st := afterActions issues name actions in
  (setMeetingDisabled st = true <-> selectedFields st = [])
  /\ (isMeetingDialogOpen st = false \/ sendInvitationDisabled st = true ->
      clickSendInvitation dealId st = (st, None))
  /\ (isMeetingDialogOpen st = true -> sendInvitationDisabled st = false ->
      (selectedFields st = [] ->
       snd (clickSendInvitation dealId st) = None
       /\ toasts (fst (clickSendInvitation dealId st))
          = toasts st ++
            [Toast.mk Toast.Destructive "No Questions Selected"
               "Please select at least one question for the interview."])
      /\ (selectedFields st <> [] ->
          snd (clickSendInvitation dealId st)
          = Some (mkInviteRequest dealId (founderEmail st) (founderName st)
                    (selectedFields st))
          /\ founderEmail st <> "" /\ founderName st <> ""
          /\ isSettingMeeting (fst (clickSendInvitation dealId st)) = true
          /\ List.NoDup (selectedFields st)
          /\ forall f, In f (selectedFields st) ->
               exists issue, In issue issues /\ field issue = f))
  /\ (issues <> [] ->
      forall issue, In issue issues ->
        JsSet.has (field issue)
          (selectedFields (afterActions issues name [])) = true).
Proof.
  cbv zeta.
  destruct (afterActions_wellFormed issues name actions) as [Hnd Hsub].
  set (st := afterActions issues name actions) in *.
  split; [|split; [|split]].
  - unfold setMeetingDisabled, JsSet.size. rewrite Nat.eqb_eq.
    destruct (selectedFields st); simpl; split; congruence.
  - unfold clickSendInvitation. intros [-> | ->]; [reflexivity|].
    rewrite andb_false_r. reflexivity.
  - intros Hopen Hen. unfold clickSendInvitation. rewrite Hopen, Hen. simpl.
    split.
    + intros Hempty. unfold handleSetMeeting_begin. rewrite Hempty. simpl.
      split; reflexivity.
    + intros Hsel. unfold handleSetMeeting_begin, JsSet.size.
      destruct (selectedFields st) as [|f0 sel] eqn:Hs; [contradiction|].
      simpl. split; [reflexivity|].
      unfold sendInvitationDisabled in Hen.
      apply orb_false_iff in Hen as [Hen Hemail].
      apply orb_false_iff in Hen as [_ Hname].
      apply String.eqb_neq in Hemail, Hname.
      split; [exact Hemail|]. split; [exact Hname|]. split; [reflexivity|].
      split; [exact Hnd|].
      intros f Hf. apply Hsub in Hf.
      apply in_map_iff in Hf as (issue & <- & Hin). eauto.
  - intros Hne issue Hin. unfold afterActions. simpl. unfold selectAllEffect.
    destruct issues as [|i rest]; [contradiction|]. simpl.
    apply has_In. apply (proj2 (allFields_spec (i :: rest))).
    apply in_map. exact Hin.
Qed.

(** One question unticked, the dialog opened and the email typed. *)
Lemma invitation_carries_selection_witness :
  snd (clickSendInvitation "deal-1"
         (afterActions issuesSharingField "Ada"
            [ToggleRow 0; ClickSetMeeting; TypeEmail "ada@acme.test"]))
  = Some (mkInviteRequest "deal-1" "ada@acme.test" "Ada" ["founders"]).
Proof.
  pose proof (invitation_carries_selection issuesSharingField "Ada" "deal-1"
                [ToggleRow 0; ClickSetMeeting; TypeEmail "ada@acme.test"])
    as H.
  cbv zeta in H. destruct H as (_ & _ & Hsend & _).
  destruct (Hsend eq_refl eq_refl) as (_ & Hreq).
  destruct Hreq as (Hsent & _); [discriminate|exact Hsent].
Defined.

End QuestionSelection.

(** ** Competitors, fact check and upload *)
Section RemainingComponents.
Import Js Samples.




Lemma step_onlyActiveInput (st st' : FileUpload.State) (e : FileUpload.Event) :
  FileUpload.onlyActiveInput st -> FileUpload.step st e = Some st' ->
  FileUpload.onlyActiveInput st'.
Proof.
  unfold FileUpload.onlyActiveInput. intros (Hp & Hv & Ha & Ht).
  destruct e as [picked|picked|picked|value|value|m]; simpl.
  - destruct (String.eqb_spec (FileUpload.activeTab st) "pdf") as [Htab|];
      [|discriminate].
    intros [= <-]. destruct picked; simpl; [|auto].
    repeat split; try (intros [? [=]]); try congruence.
  - destruct (String.eqb_spec (FileUpload.activeTab st) "video") as [Htab|];
      [|discriminate].
    intros [= <-]. destruct picked; simpl; [|auto].
    repeat split; try (intros [? [=]]); try congruence.
  - destruct (String.eqb_spec (FileUpload.activeTab st) "audio") as [Htab|];
      [|discriminate].
    intros [= <-]. destruct picked; simpl; [|auto].
    repeat split; try (intros [? [=]]); try congruence.
  - destruct (String.eqb_spec (FileUpload.activeTab st) "text") as [Htab|];
      [|discriminate].
    intros [= <-]. simpl. rewrite Htab in *. auto.
  - intros [= <-]. simpl.
    repeat split; try (intros [? [=]]); try congruence.
  - intros [= <-]. simpl. auto.
Qed.

Lemma run_onlyActiveInput (events : list FileUpload.Event) :
  forall st st', FileUpload.onlyActiveInput st ->
  FileUpload.run st events = Some st' -> FileUpload.onlyActiveInput st'.
Proof.
  induction events as [|e rest IH]; intros st st' Hinv; simpl.
  - intros [= <-]. exact Hinv.
  - destruct (FileUpload.step st e) as [st1|] eqn:Hstep; [|discriminate].
    apply IH. apply (step_onlyActiveInput st st1 e Hinv Hstep).
Qed.

Lemma initial_onlyActiveInput : FileUpload.onlyActiveInput FileUpload.initialState.
Proof.
  unfold FileUpload.onlyActiveInput. simpl.
  repeat split; try (intros [? [=]]); congruence.
Qed.

(** X27: the upload form holds one input at a time: whatever files the
    user picks, whatever is typed and however the tabs are switched, the
    only input that can be there is the one of the active tab, so at most
    one of the deck, the video, the audio and the text is there. *)
Theorem upload_form_one_input_at_a_time
  (events : list FileUpload.Event) (st : FileUpload.State) :
  FileUpload.run FileUpload.initialState events = Some st ->
  (is_Some (FileUpload.pitchDeck st) -> FileUpload.activeTab st = "pdf")
  /\ (is_Some (FileUpload.videoFile st) -> FileUpload.activeTab st = "video")
  /\ (is_Some (FileUpload.audioFile st) -> FileUpload.activeTab st = "audio")
  /\ (FileUpload.textInput st <> "" -> FileUpload.activeTab st = "text")
  /\ (FileUpload.inputsPresent st <= 1)%nat.
Proof.
  intros Hrun.
  pose proof (run_onlyActiveInput events _ _ initial_onlyActiveInput Hrun)
    as Hinv.
  destruct Hinv as (Hp & Hv & Ha & Ht).
  split; [exact Hp|]. split; [exact Hv|]. split; [exact Ha|].
  split; [exact Ht|].
  unfold FileUpload.inputsPresent.
  destruct (FileUpload.pitchDeck st) as [p|];
    destruct (FileUpload.videoFile st) as [v|];
    destruct (FileUpload.audioFile st) as [a|];
    destruct (String.eqb_spec (FileUpload.textInput st) "") as [Hte|Hte];
    simpl; try lia;
    repeat match goal with
    | H : is_Some (Some ?x) -> _ |- _ => specialize (H (ex_intro _ x eq_refl))
    | H : ?t <> "" -> _, H' : ?t <> "" |- _ => specialize (H H')
    end; congruence.
Qed.

Lemma upload_form_one_input_at_a_time_witness :
  FileUpload.inputsPresent <$> FileUpload.run FileUpload.initialState deckThenText
  = Some 1%nat.
Proof.
  destruct (FileUpload.run FileUpload.initialState deckThenText)
    as [st|] eqn:Hrun; [|vm_compute in Hrun; discriminate Hrun].
  pose proof (upload_form_one_input_at_a_time deckThenText st Hrun)
    as (_ & _ & _ & _ & Hle).
  vm_compute in Hrun. injection Hrun as <-. reflexivity.
Defined.

End RemainingComponents.

(** ** Starting an upload *)
Section UploadClick.
Import Js FileUpload Samples.

(** X28: a click on Start Analysis sends a request exactly when the
    active tab has its input (a file for the pdf, video and audio tabs,
    text that is not blank for the text tab). The form data then has one
    entry, the input of the active tab: a file under [file], or the text
    as typed, not trimmed, under [text_input]; the processing mode
    travels in the query. Otherwise nothing is sent, the inputs stay,
    and the error asks for a file, or for a text input on the text
    tab. *)
Theorem upload_sends_active_input_only (st : State) :
  let clicked := handleUploadClick_begin st in
  (snd clicked <> None <-> hasInput st = true)
  /\ (hasInput st = true ->
      (exists entry,
         snd clicked = Some (mkUploadRequest (processingMode st) [entry])
         /\ ((activeTab st = "pdf" /\ exists f, pitchDeck st = Some f
                /\ entry = ("file", FileValue f))
             \/ (activeTab st = "video" /\ exists f, videoFile st = Some f
                   /\ entry = ("file", FileValue f))
             \/ (activeTab st = "audio" /\ exists f, audioFile st = Some f
                   /\ entry = ("file", FileValue f))
             \/ (activeTab st = "text" /\ blank (textInput st) = false
                 /\ entry = ("text_input", TextValue (textInput st)))))
      /\ isLoading (fst clicked) = true /\ error (fst clicked) = None)
  /\ (hasInput st = false ->
      error (fst clicked)
      = Some (if String.eqb (activeTab st) "text"
              then "Please provide a text input to upload."
              else "Please provide a file to upload.")
      /\ isLoading (fst clicked) = isLoading st
      /\ pitchDeck (fst clicked) = pitchDeck st
      /\ textInput (fst clicked) = textInput st).
Proof.
  cbv zeta. unfold handleUploadClick_begin.
  destruct (hasInput st) eqn:Hhas; simpl.
  - split; [split; [reflexivity|discriminate]|].
    split; [|discriminate]. intros _. split; [|split; reflexivity].
    unfold hasInput in Hhas. unfold formEntries.
    destruct (String.eqb_spec (activeTab st) "pdf") as [Hpdf|Hpdf].
    + rewrite Hpdf in *. simpl in *.
      destruct (pitchDeck st) as [f|]; [|discriminate Hhas].
      eexists. split; [reflexivity|]. left. split; [reflexivity|]. eauto.
    + simpl in Hhas.
      destruct (String.eqb_spec (activeTab st) "video") as [Hvid|Hvid].
      * rewrite Hvid in *. simpl in *.
        destruct (videoFile st) as [f|]; [|discriminate Hhas].
        eexists. split; [reflexivity|]. right. left.
        split; [reflexivity|]. eauto.
      * simpl in Hhas.
        destruct (String.eqb_spec (activeTab st) "audio") as [Haud|Haud].
        -- rewrite Haud in *. simpl in *.
           destruct (audioFile st) as [f|]; [|discriminate Hhas].
           eexists. split; [reflexivity|]. right. right. left.
           split; [reflexivity|]. eauto.
        -- simpl in Hhas. rewrite Hhas.
           apply andb_true_iff in Hhas as [Htext Hnb].
           apply String.eqb_eq in Htext. apply negb_true_iff in Hnb.
           eexists. split; [reflexivity|]. right. right. right. auto.
  - split; [split; [intros H; contradiction|discriminate]|].
    split; [discriminate|]. intros _.
    split; [|split; [|split]]; try reflexivity.
    destruct (String.eqb (activeTab st) "text"); reflexivity.
Qed.

Lemma upload_sends_active_input_only_witness :
  snd (handleUploadClick_begin typedPitch)
  = Some (mkUploadRequest fast [("text_input", TextValue "We sell shovels.")]).
Proof.
  pose proof (upload_sends_active_input_only typedPitch) as H.
  cbv zeta in H. destruct H as (_ & Hsent & _).
  destruct (Hsent eq_refl) as ((entry & Hreq & Hwhich) & _).
  destruct Hwhich as [(Htab & _)|[(Htab & _)|[(Htab & _)|(_ & _ & Hentry)]]];
    try discriminate Htab.
  rewrite Hreq, Hentry. reflexivity.
Defined.


End UploadClick.
